(** * HelmRelease reconciler: a shallow embedding of
    [controllers/helmrelease_controller.go] and of the API types in
    [api/v1alpha1/helmrelease_types.go].

    The reconciler talks to three collaborators it does not own: the
    Kubernetes client (Get / Update / Status().Update), the Helm client
    behind [HelmClientInterface], and the wall clock read by [metav1.Now].
    Each of them is an interface value here: a record of functions that
    answer a call from the history of calls made so far, so that any
    deterministic store, Helm backend or clock is an instance.  A run of the
    reconciler returns its Go results together with the calls it made, in
    order.  Logging ([log.Info]) has no effect on the results and is left
    out. *)

From Stdlib Require Import ZArith String List Bool Lia.
From Stdlib Require Import Strings.Byte.
Import ListNotations.

Open Scope string_scope.
Open Scope list_scope.

(** ** Go errors *)

Inductive error : Type :=
| errorString (s : string)                 (* errors.New(s) *)
| wrapError (prefix : string) (err : error) (* fmt.Errorf(prefix + "%w", err) *)
| statusNotFound (s : string).             (* apierrors.NewNotFound *)

(** [err.Error()] *)
Fixpoint Error (e : error) : string :=
  match e with
  | errorString s => s
  | wrapError prefix err => prefix ++ Error err
  | statusNotFound s => s
  end.

(** [apierrors.IsNotFound] looks through wrapped errors. *)
Fixpoint IsNotFound (e : error) : bool :=
  match e with
  | errorString _ => false
  | wrapError _ err => IsNotFound err
  | statusNotFound _ => true
  end.

(** [client.IgnoreNotFound] *)
Definition IgnoreNotFound (e : error) : option error :=
  if IsNotFound e then None else Some e.

(** ** k8s.io/apimachinery/pkg/apis/meta/v1 *)

Module metav1.

(** An instant, counted in nanoseconds from Go's zero [time.Time]. *)
Definition Time : Type := Z.

(** [IsZero] on a [Time] pointer: true for nil and for the zero instant. *)
Definition IsZero (t : option Time) : bool :=
  match t with
  | None => true
  | Some t => (t =? 0)%Z
  end.

Definition ConditionStatus : Type := string.
Definition ConditionTrue : ConditionStatus := "True".
Definition ConditionFalse : ConditionStatus := "False".
Definition ConditionUnknown : ConditionStatus := "Unknown".

Record Condition : Type := {
  Type_ : string;
  Status : ConditionStatus;
  ObservedGeneration : Z;
  LastTransitionTime : Time;
  Reason : string;
  Message : string
}.

Definition withLastTransitionTime (c : Condition) (t : Time) : Condition :=
  {| Type_ := Type_ c; Status := Status c;
     ObservedGeneration := ObservedGeneration c;
     LastTransitionTime := t;
     Reason := Reason c; Message := Message c |}.

End metav1.

(** ** api/v1alpha1 *)

Module v1alpha1.

Definition Phase : Type := string.
Definition PhaseInstalling : Phase := "Installing".
Definition PhaseUpgrading : Phase := "Upgrading".
Definition PhaseReady : Phase := "Ready".
Definition PhaseFailed : Phase := "Failed".
Definition PhaseUninstalling : Phase := "Uninstalling".

Record HelmReleaseSpec : Type := {
  Chart : string;
  RepoURL : string;
  Version : string;
  TargetNamespace : string;
  ReleaseName : string;
  Values : option (list byte)      (* pointer to apiextensionsv1.JSON: its Raw bytes *)
}.

Record HelmReleaseStatus : Type := {
  Phase_ : Phase;
  Conditions : list metav1.Condition;
  DeployedVersion : string;
  HelmRevision : Z;
  LastDeployedAt : option metav1.Time;
  ObservedGeneration : Z
}.

(** The fields of [metav1.ObjectMeta] the reconciler reads or writes,
    then [Spec] and [Status]. *)
Record HelmRelease : Type := {
  Name : string;
  Namespace : string;
  Generation : Z;
  DeletionTimestamp : option metav1.Time;
  Finalizers : list string;
  Spec : HelmReleaseSpec;
  Status : HelmReleaseStatus
}.

Definition withStatus (r : HelmRelease) (s : HelmReleaseStatus) : HelmRelease :=
  {| Name := Name r; Namespace := Namespace r; Generation := Generation r;
     DeletionTimestamp := DeletionTimestamp r; Finalizers := Finalizers r;
     Spec := Spec r; Status := s |}.

Definition withFinalizers (r : HelmRelease) (f : list string) : HelmRelease :=
  {| Name := Name r; Namespace := Namespace r; Generation := Generation r;
     DeletionTimestamp := DeletionTimestamp r; Finalizers := f;
     Spec := Spec r; Status := Status r |}.

(** [release.Status.Phase = p] *)
Definition withPhase (r : HelmRelease) (p : Phase) : HelmRelease :=
  withStatus r
    {| Phase_ := p; Conditions := Conditions (Status r);
       DeployedVersion := DeployedVersion (Status r);
       HelmRevision := HelmRevision (Status r);
       LastDeployedAt := LastDeployedAt (Status r);
       ObservedGeneration := ObservedGeneration (Status r) |}.

(** [release.Status.Conditions = cs] *)
Definition withConditions (r : HelmRelease) (cs : list metav1.Condition)
  : HelmRelease :=
  withStatus r
    {| Phase_ := Phase_ (Status r); Conditions := cs;
       DeployedVersion := DeployedVersion (Status r);
       HelmRevision := HelmRevision (Status r);
       LastDeployedAt := LastDeployedAt (Status r);
       ObservedGeneration := ObservedGeneration (Status r) |}.

(** The four assignments that open the success tail of [reconcileNormal]. *)
Definition withDeployed (r : HelmRelease) (now : metav1.Time) : HelmRelease :=
  withStatus r
    {| Phase_ := PhaseReady; Conditions := Conditions (Status r);
       DeployedVersion := Version (Spec r);
       HelmRevision := HelmRevision (Status r);
       LastDeployedAt := Some now;
       ObservedGeneration := Generation r |}.

End v1alpha1.

Import v1alpha1.

(** ** sigs.k8s.io/controller-runtime *)

Module ctrl.

Definition Duration : Type := Z.           (* time.Duration, nanoseconds *)
Definition Second : Duration := 1000000000%Z.

Record Result : Type := {
  Requeue : bool;
  RequeueAfter : Duration
}.

(** [ctrl.Result{}] *)
Definition Result_zero : Result := {| Requeue := false; RequeueAfter := 0%Z |}.

Record Request : Type := {
  req_Namespace : string;
  req_Name : string
}.

End ctrl.

(** [controllerutil.ContainsFinalizer], [AddFinalizer], [RemoveFinalizer],
    as the controller-runtime library defines them on the finalizer slice. *)
Module controllerutil.

Definition ContainsFinalizer (o : HelmRelease) (finalizer : string) : bool :=
  existsb (String.eqb finalizer) (Finalizers o).

Definition AddFinalizer (o : HelmRelease) (finalizer : string) : HelmRelease :=
  if ContainsFinalizer o finalizer then o
  else withFinalizers o (Finalizers o ++ [finalizer]).

Definition RemoveFinalizer (o : HelmRelease) (finalizer : string) : HelmRelease :=
  withFinalizers o
    (filter (fun f => negb (String.eqb f finalizer)) (Finalizers o)).

End controllerutil.

Import controllerutil.

(** ** controllers *)

Definition finalizerName : string := "helm.example.com/finalizer".
Definition requeueOnFailure : ctrl.Duration := (30 * ctrl.Second)%Z.

Section Controller.

(** [map[string]interface{}], the empty map literal, and [json.Unmarshal]
    into such a map: the map after the call and the error it returns. *)
Variable ValuesMap : Type.
Variable emptyValues : ValuesMap.
Variable json_Unmarshal : list byte -> ValuesMap -> ValuesMap * option error.

(** One call to a collaborator, with its arguments and its answer. *)
Inductive Event : Type :=
| EvGet (req : ctrl.Request) (res : HelmRelease + error)
| EvUpdate (obj : HelmRelease) (err : option error)
| EvStatusUpdate (obj : HelmRelease) (err : option error)
| EvReleaseExists (releaseName namespace : string) (res : bool * option error)
| EvInstall (releaseName chartName repoURL version namespace : string)
    (values : ValuesMap) (err : option error)
| EvUpgrade (releaseName chartName repoURL version namespace : string)
    (values : ValuesMap) (err : option error)
| EvUninstall (releaseName namespace : string) (err : option error)
| EvNow (t : metav1.Time).

Definition History : Type := list Event.

(** [client.Client], restricted to the calls the reconciler makes.  The
    HelmRelease kind declares the status subresource
    ([+kubebuilder:subresource:status]): [Update] persists metadata and
    spec, [Status().Update] persists the status.  A write refreshes the
    caller's copy with the server's answer; a write the server accepts was
    made against the current revision, so the fields modelled here come
    back as sent, and a rejected write leaves the copy alone. *)
Record Client : Type := {
  Get : History -> ctrl.Request -> HelmRelease + error;
  Update : History -> HelmRelease -> option error;
  StatusUpdate : History -> HelmRelease -> option error
}.

(** [HelmClientInterface] of [controllers/helmclient.go]. *)
Record HelmClientInterface : Type := {
  Install : History -> string -> string -> string -> string -> string ->
            ValuesMap -> option error;
  Upgrade : History -> string -> string -> string -> string -> string ->
            ValuesMap -> option error;
  Uninstall : History -> string -> string -> option error;
  ReleaseExists : History -> string -> string -> bool * option error
}.

(** [HelmReleaseReconciler].  [Scheme] is never read by the reconciler;
    [Now] stands for the process clock behind [metav1.Now]. *)
Record HelmReleaseReconciler : Type := {
  Client_ : Client;
  HelmClient : HelmClientInterface;
  Now : History -> metav1.Time
}.

(** *** Calls as computations

    A computation reads the history so far and yields its value and the
    calls it made itself. *)
Definition M (A : Type) : Type := History -> A * list Event.

Definition ret {A : Type} (a : A) : M A := fun _ => (a, []).

Definition bind {A B : Type} (m : M A) (f : A -> M B) : M B :=
  fun h =>
    let r1 := m h in
    let r2 := f (fst r1) (h ++ snd r1) in
    (fst r2, snd r1 ++ snd r2).

Notation "x <- m ;; k" := (bind m (fun x => k))
  (at level 61, m at next level, right associativity).
Notation "m ;;; k" := (bind m (fun _ => k))
  (at level 61, right associativity).

Variable r : HelmReleaseReconciler.

Definition r_Get (req : ctrl.Request) : M (HelmRelease + error) :=
  fun h => let res := Get (Client_ r) h req in (res, [EvGet req res]).

Definition r_Update (obj : HelmRelease) : M (option error) :=
  fun h => let err := Update (Client_ r) h obj in (err, [EvUpdate obj err]).

Definition r_Status_Update (obj : HelmRelease) : M (option error) :=
  fun h =>
    let err := StatusUpdate (Client_ r) h obj in (err, [EvStatusUpdate obj err]).

Definition r_ReleaseExists (releaseName namespace : string)
  : M (bool * option error) :=
  fun h =>
    let res := ReleaseExists (HelmClient r) h releaseName namespace in
    (res, [EvReleaseExists releaseName namespace res]).

Definition r_Install (releaseName chartName repoURL version namespace : string)
  (values : ValuesMap) : M (option error) :=
  fun h =>
    let err := Install (HelmClient r) h releaseName chartName repoURL version
                 namespace values in
    (err, [EvInstall releaseName chartName repoURL version namespace values err]).

Definition r_Upgrade (releaseName chartName repoURL version namespace : string)
  (values : ValuesMap) : M (option error) :=
  fun h =>
    let err := Upgrade (HelmClient r) h releaseName chartName repoURL version
                 namespace values in
    (err, [EvUpgrade releaseName chartName repoURL version namespace values err]).

Definition r_Uninstall (releaseName namespace : string) : M (option error) :=
  fun h =>
    let err := Uninstall (HelmClient r) h releaseName namespace in
    (err, [EvUninstall releaseName namespace err]).

Definition metav1_Now : M metav1.Time :=
  fun h => let t := Now r h in (t, [EvNow t]).

(** *** setCondition *)

(** The [for i, c := range release.Status.Conditions] loop of
    [setCondition] and the [append] after it; [condition] already carries
    the fresh [LastTransitionTime]. *)
Fixpoint setCondition_range (conds : list metav1.Condition)
  (condition : metav1.Condition) : list metav1.Condition :=
  match conds with
  | [] => [condition]
  | c :: rest =>
      if String.eqb (metav1.Type_ c) (metav1.Type_ condition) then
        (if String.eqb (metav1.Status c) (metav1.Status condition)
         then metav1.withLastTransitionTime condition
                (metav1.LastTransitionTime c)
         else condition) :: rest
      else c :: setCondition_range rest condition
  end.

Definition setCondition (release : HelmRelease) (condition : metav1.Condition)
  : M HelmRelease :=
  now <- metav1_Now ;;
  ret (withConditions release
         (setCondition_range (Conditions (Status release))
            (metav1.withLastTransitionTime condition now))).

(** *** setFailedStatus *)

Definition setFailedStatus (release : HelmRelease) (err : error)
  : M (HelmRelease * error) :=
  let release := withPhase release PhaseFailed in
  release <- setCondition release
    {| metav1.Type_ := "Ready";
       metav1.Status := metav1.ConditionFalse;
       metav1.Reason := "ReconcileError";
       metav1.Message := Error err;
       metav1.ObservedGeneration := Generation release;
       metav1.LastTransitionTime := 0%Z |} ;;
  r_Status_Update release ;;;
  ret (release, err).

(** The release name both paths compute: the spec override, else the
    record name. *)
Definition effectiveReleaseName (release : HelmRelease) : string :=
  if negb (String.eqb (ReleaseName (Spec release)) "")
  then ReleaseName (Spec release)
  else Name release.

(** *** reconcileNormal *)

(** The "Parse optional values" block. *)
Definition parseValues (release : HelmRelease) : ValuesMap * option error :=
  match Values (Spec release) with
  | Some raw => json_Unmarshal raw emptyValues
  | None => (emptyValues, None)
  end.

(** The "Update status on success" tail. *)
Definition reconcileNormal_success (release : HelmRelease)
  : M (HelmRelease * (ctrl.Result * option error)) :=
  now <- metav1_Now ;;
  let release := withDeployed release now in
  release <- setCondition release
    {| metav1.Type_ := "Ready";
       metav1.Status := metav1.ConditionTrue;
       metav1.Reason := "ReconcileSuccess";
       metav1.Message := "Helm release is ready";
       metav1.ObservedGeneration := Generation release;
       metav1.LastTransitionTime := 0%Z |} ;;
  release <- setCondition release
    {| metav1.Type_ := "Progressing";
       metav1.Status := metav1.ConditionFalse;
       metav1.Reason := "ReconcileSuccess";
       metav1.Message := "Helm release reconciliation complete";
       metav1.ObservedGeneration := Generation release;
       metav1.LastTransitionTime := 0%Z |} ;;
  uerr <- r_Status_Update release ;;
  match uerr with
  | Some err =>
      ret (release, (ctrl.Result_zero, Some (wrapError "updating status: " err)))
  | None => ret (release, (ctrl.Result_zero, None))
  end.

(** [return res, r.setFailedStatus(ctx, release, err)], given what
    [setFailedStatus] left: the caller's copy and the error. *)
Definition failed (res : ctrl.Result) (x : HelmRelease * error)
  : M (HelmRelease * (ctrl.Result * option error)) :=
  ret (fst x, (res, Some (snd x))).

(** [ctrl.Result{RequeueAfter: requeueOnFailure}] *)
Definition requeueAfterFailure : ctrl.Result :=
  {| ctrl.Requeue := false; ctrl.RequeueAfter := requeueOnFailure |}.

Definition reconcileNormal (release : HelmRelease)
  : M (HelmRelease * (ctrl.Result * option error)) :=
  let releaseName := effectiveReleaseName release in
  match parseValues release with
  | (_, Some err) =>
      x <- setFailedStatus release (wrapError "parsing values: " err) ;;
      failed ctrl.Result_zero x
  | (values, None) =>
      res <- r_ReleaseExists releaseName (TargetNamespace (Spec release)) ;;
      match res with
      | (_, Some err) =>
          x <- setFailedStatus release err ;;
          failed requeueAfterFailure x
      | (false, None) =>
          let release := withPhase release PhaseInstalling in
          r_Status_Update release ;;;
          ierr <- r_Install releaseName (Chart (Spec release))
                    (RepoURL (Spec release)) (Version (Spec release))
                    (TargetNamespace (Spec release)) values ;;
          match ierr with
          | Some err =>
              x <- setFailedStatus release err ;;
              failed requeueAfterFailure x
          | None => reconcileNormal_success release
          end
      | (true, None) =>
          if negb (ObservedGeneration (Status release) =? Generation release)%Z
          then
            let release := withPhase release PhaseUpgrading in
            r_Status_Update release ;;;
            uerr <- r_Upgrade releaseName (Chart (Spec release))
                      (RepoURL (Spec release)) (Version (Spec release))
                      (TargetNamespace (Spec release)) values ;;
            match uerr with
            | Some err =>
                x <- setFailedStatus release err ;;
                failed requeueAfterFailure x
            | None => reconcileNormal_success release
            end
          else reconcileNormal_success release
      end
  end.

(** *** reconcileDelete *)

Definition reconcileDelete (release : HelmRelease)
  : M (HelmRelease * (ctrl.Result * option error)) :=
  if negb (ContainsFinalizer release finalizerName) then
    ret (release, (ctrl.Result_zero, None))
  else
    let releaseName := effectiveReleaseName release in
    let release := withPhase release PhaseUninstalling in
    r_Status_Update release ;;;
    uerr <- r_Uninstall releaseName (TargetNamespace (Spec release)) ;;
    match uerr with
    | Some err =>
        x <- setFailedStatus release err ;;
        failed requeueAfterFailure x
    | None =>
        let release := RemoveFinalizer release finalizerName in
        perr <- r_Update release ;;
        match perr with
        | Some err =>
            ret (release,
                 (ctrl.Result_zero, Some (wrapError "removing finalizer: " err)))
        | None => ret (release, (ctrl.Result_zero, None))
        end
    end.

(** *** Reconcile *)

Definition Reconcile (req : ctrl.Request) : M (ctrl.Result * option error) :=
  got <- r_Get req ;;
  match got with
  | inr err => ret (ctrl.Result_zero, IgnoreNotFound err)
  | inl release =>
      if negb (metav1.IsZero (DeletionTimestamp release)) then
        x <- reconcileDelete release ;; ret (snd x)
      else if negb (ContainsFinalizer release finalizerName) then
        let release := AddFinalizer release finalizerName in
        uerr <- r_Update release ;;
        match uerr with
        | Some err =>
            ret (ctrl.Result_zero, Some (wrapError "adding finalizer: " err))
        | None => ret (ctrl.Result_zero, None)
        end
      else
        x <- reconcileNormal release ;; ret (snd x)
  end.

End Controller.

Arguments EvGet {ValuesMap}.
Arguments EvUpdate {ValuesMap}.
Arguments EvStatusUpdate {ValuesMap}.
Arguments EvReleaseExists {ValuesMap}.
Arguments EvInstall {ValuesMap}.
Arguments EvUpgrade {ValuesMap}.
Arguments EvUninstall {ValuesMap}.
Arguments EvNow {ValuesMap}.
Arguments Get {ValuesMap}.
Arguments Update {ValuesMap}.
Arguments StatusUpdate {ValuesMap}.
Arguments Install {ValuesMap}.
Arguments Upgrade {ValuesMap}.
Arguments Uninstall {ValuesMap}.
Arguments ReleaseExists {ValuesMap}.
Arguments Client_ {ValuesMap}.
Arguments HelmClient {ValuesMap}.
Arguments Now {ValuesMap}.
Arguments ret {ValuesMap A}.
Arguments bind {ValuesMap A B}.
Arguments setCondition {ValuesMap}.
Arguments setFailedStatus {ValuesMap}.
Arguments reconcileNormal_success {ValuesMap}.
Arguments reconcileNormal {ValuesMap}.
Arguments reconcileDelete {ValuesMap}.
Arguments Reconcile {ValuesMap}.
Arguments failed {ValuesMap}.
Arguments parseValues {ValuesMap}.

(** ** Observations on a run *)

Section Observations.

Context {ValuesMap : Type}.

Definition isInstall (e : Event ValuesMap) : bool :=
  match e with EvInstall _ _ _ _ _ _ _ => true | _ => false end.

Definition isUpgrade (e : Event ValuesMap) : bool :=
  match e with EvUpgrade _ _ _ _ _ _ _ => true | _ => false end.

Definition isUninstall (e : Event ValuesMap) : bool :=
  match e with EvUninstall _ _ _ => true | _ => false end.

Definition isReleaseExists (e : Event ValuesMap) : bool :=
  match e with EvReleaseExists _ _ _ => true | _ => false end.

(** Any call on the Helm client. *)
Definition isHelmCall (e : Event ValuesMap) : bool :=
  isReleaseExists e || isInstall e || isUpgrade e || isUninstall e.

(** A call on the Kubernetes client's [Update] (the full-object write). *)
Definition isUpdate (e : Event ValuesMap) : bool :=
  match e with EvUpdate _ _ => true | _ => false end.

(** The objects handed to [Status().Update], in order. *)
Fixpoint statusWrites (tr : list (Event ValuesMap)) : list HelmRelease :=
  match tr with
  | [] => []
  | EvStatusUpdate obj _ :: rest => obj :: statusWrites rest
  | _ :: rest => statusWrites rest
  end.

End Observations.

(** The entry a lookup by type finds: the first one of that type, which is
    the entry [setCondition] compares with and overwrites. *)
Fixpoint findCondition (conds : list metav1.Condition) (conditionType : string)
  : option metav1.Condition :=
  match conds with
  | [] => None
  | c :: rest =>
      if String.eqb (metav1.Type_ c) conditionType then Some c
      else findCondition rest conditionType
  end.

(** ** Test doubles, after [controllers/mock_helmclient_test.go] and
    [controllers/helmrelease_controller_test.go] *)

(** The configurable answers of [MockHelmClient]; what the mock records
    about its calls is read off the run instead. *)
Record MockHelmClient : Type := {
  InstallErr : option error;
  UpgradeErr : option error;
  UninstallErr : option error;
  ReleaseExistsResult : bool;
  ReleaseExistsErr : option error
}.

Definition mockHelmClient {ValuesMap : Type} (m : MockHelmClient)
  : HelmClientInterface ValuesMap :=
  {| Install := fun _ _ _ _ _ _ _ => InstallErr m;
     Upgrade := fun _ _ _ _ _ _ _ => UpgradeErr m;
     Uninstall := fun _ _ _ => UninstallErr m;
     ReleaseExists := fun _ _ _ => (ReleaseExistsResult m, ReleaseExistsErr m) |}.

(** [&MockHelmClient{}] *)
Definition mockZero : MockHelmClient :=
  {| InstallErr := None; UpgradeErr := None; UninstallErr := None;
     ReleaseExistsResult := false; ReleaseExistsErr := None |}.

Definition testNS : string := "default".

(** [makeHR], as the store hands it back after creation: generation 1 and
    an empty status. *)
Definition makeHR (name : string) : HelmRelease :=
  {| Name := name; Namespace := testNS; Generation := 1%Z;
     DeletionTimestamp := None; Finalizers := [];
     Spec := {| Chart := "nginx"; RepoURL := "https://charts.example.com";
                Version := "1.0.0"; TargetNamespace := testNS;
                ReleaseName := ""; Values := None |};
     Status := {| Phase_ := ""; Conditions := []; DeployedVersion := "";
                  HelmRevision := 0%Z; LastDeployedAt := None;
                  ObservedGeneration := 0%Z |} |}.

(** A store that serves one fixed object and accepts every write. *)
Definition servingClient {ValuesMap : Type} (obj : HelmRelease) : Client ValuesMap :=
  {| Get := fun _ _ => inl obj;
     Update := fun _ _ => None;
     StatusUpdate := fun _ _ => None |}.

(** A store that serves one fixed object and rejects every write. *)
Definition rejectingClient {ValuesMap : Type} (obj : HelmRelease) (err : error)
  : Client ValuesMap :=
  {| Get := fun _ _ => inl obj;
     Update := fun _ _ => Some err;
     StatusUpdate := fun _ _ => Some err |}.

(** A clock that advances by one with every call made. *)
Definition tickingClock {ValuesMap : Type} (h : list (Event ValuesMap))
  : metav1.Time :=
  (1000 + Z.of_nat (length h))%Z.

(** Values for the examples: a list of key/value pairs.  The decoder stands
    in for [json.Unmarshal] on the payloads the examples use: it decodes the
    empty object and rejects any other payload the way [json.Unmarshal]
    rejects a JSON array as the source of a map. *)
Definition TestValues : Type := list (string * string).

Definition cannotUnmarshalArray : error :=
  errorString
    "json: cannot unmarshal array into Go value of type map[string]interface {}".

Definition decodeEmptyObject (raw : list byte) (into : TestValues)
  : TestValues * option error :=
  if String.eqb (string_of_list_byte raw) "{}" then (into, None)
  else (into, Some cannotUnmarshalArray).

Definition testReconciler (obj : HelmRelease) (m : MockHelmClient)
  : HelmReleaseReconciler TestValues :=
  {| Client_ := servingClient obj; HelmClient := mockHelmClient m;
     Now := tickingClock |}.

Definition testReq (name : string) : ctrl.Request :=
  {| ctrl.req_Namespace := testNS; ctrl.req_Name := name |}.

Definition withSpecValues (o : HelmRelease) (raw : option (list byte))
  : HelmRelease :=
  {| Name := Name o; Namespace := Namespace o; Generation := Generation o;
     DeletionTimestamp := DeletionTimestamp o; Finalizers := Finalizers o;
     Spec := {| Chart := Chart (Spec o); RepoURL := RepoURL (Spec o);
                Version := Version (Spec o);
                TargetNamespace := TargetNamespace (Spec o);
                ReleaseName := ReleaseName (Spec o); Values := raw |};
     Status := Status o |}.

Definition withDeletionTimestamp (o : HelmRelease) (t : option metav1.Time)
  : HelmRelease :=
  {| Name := Name o; Namespace := Namespace o; Generation := Generation o;
     DeletionTimestamp := t; Finalizers := Finalizers o;
     Spec := Spec o; Status := Status o |}.

(** ** The objects the reconciler builds

    Pure readings of the assignments made before each status write, used to
    state what a write carries. *)

(** The condition literal of [setFailedStatus], stamped with [t]. *)
Definition failureCondition (release : HelmRelease) (err : error)
  (t : metav1.Time) : metav1.Condition :=
  {| metav1.Type_ := "Ready";
     metav1.Status := metav1.ConditionFalse;
     metav1.Reason := "ReconcileError";
     metav1.Message := Error err;
     metav1.ObservedGeneration := Generation release;
     metav1.LastTransitionTime := t |}.

(** The object [setFailedStatus] hands to [Status().Update] when the clock
    reads [t]. *)
Definition failedObject (release : HelmRelease) (err : error) (t : metav1.Time)
  : HelmRelease :=
  withConditions (withPhase release PhaseFailed)
    (setCondition_range (Conditions (Status release))
       (failureCondition release err t)).

(** The two condition literals of the success tail. *)
Definition readyCondition (release : HelmRelease) (t : metav1.Time)
  : metav1.Condition :=
  {| metav1.Type_ := "Ready";
     metav1.Status := metav1.ConditionTrue;
     metav1.Reason := "ReconcileSuccess";
     metav1.Message := "Helm release is ready";
     metav1.ObservedGeneration := Generation release;
     metav1.LastTransitionTime := t |}.

Definition progressingCondition (release : HelmRelease) (t : metav1.Time)
  : metav1.Condition :=
  {| metav1.Type_ := "Progressing";
     metav1.Status := metav1.ConditionFalse;
     metav1.Reason := "ReconcileSuccess";
     metav1.Message := "Helm release reconciliation complete";
     metav1.ObservedGeneration := Generation release;
     metav1.LastTransitionTime := t |}.

(** The object the success tail hands to [Status().Update] when its three
    clock readings are [now], [t1] and [t2]. *)
Definition readyObject (release : HelmRelease) (now t1 t2 : metav1.Time)
  : HelmRelease :=
  withConditions
    (withConditions (withDeployed release now)
       (setCondition_range (Conditions (Status release))
          (readyCondition release t1)))
    (setCondition_range
       (setCondition_range (Conditions (Status release))
          (readyCondition release t1))
       (progressingCondition release t2)).

(** [phase == Ready] implies a [Ready] condition with status true and a
    [Progressing] condition with status false. *)
Definition readyImpliesConditions (o : HelmRelease) : Prop :=
  Phase_ (Status o) = PhaseReady ->
  (exists c, findCondition (Conditions (Status o)) "Ready" = Some c
             /\ metav1.Status c = metav1.ConditionTrue)
  /\ (exists c, findCondition (Conditions (Status o)) "Progressing" = Some c
                /\ metav1.Status c = metav1.ConditionFalse).

(** ** The runs of the reconciler, path by path

    Each constructor is one path through the Go function: the calls made, in
    order, with the answers that select the path, and the values returned.
    [Reconcile_run] and its companions below prove that every run of the
    functions above is one of these. *)

Section Runs.

Context {ValuesMap : Type}.

Definition installCall (release : HelmRelease) (values : ValuesMap)
  (err : option error) : Event ValuesMap :=
  EvInstall (effectiveReleaseName release) (Chart (Spec release))
    (RepoURL (Spec release)) (Version (Spec release))
    (TargetNamespace (Spec release)) values err.

Definition upgradeCall (release : HelmRelease) (values : ValuesMap)
  (err : option error) : Event ValuesMap :=
  EvUpgrade (effectiveReleaseName release) (Chart (Spec release))
    (RepoURL (Spec release)) (Version (Spec release))
    (TargetNamespace (Spec release)) values err.

Definition existsCall (release : HelmRelease) (res : bool * option error)
  : Event ValuesMap :=
  EvReleaseExists (effectiveReleaseName release)
    (TargetNamespace (Spec release)) res.

Definition uninstallCall (release : HelmRelease) (err : option error)
  : Event ValuesMap :=
  EvUninstall (effectiveReleaseName release)
    (TargetNamespace (Spec release)) err.

Definition Outcome : Type :=
  (HelmRelease * (ctrl.Result * option error) * list (Event ValuesMap))%type.

(** The paths of [reconcileNormal] on [release], whose values payload
    decodes to [parsed]. *)
Inductive NormalRun (release : HelmRelease) (parsed : ValuesMap * option error)
  : Outcome -> Prop :=
| Normal_parse_failed values err t e :
    parsed = (values, Some err) ->
    let werr := wrapError "parsing values: " err in
    NormalRun release parsed
      (failedObject release werr t, (ctrl.Result_zero, Some werr),
       [EvNow t; EvStatusUpdate (failedObject release werr t) e])
| Normal_exists_failed values b err t e :
    parsed = (values, None) ->
    NormalRun release parsed
      (failedObject release err t, (requeueAfterFailure, Some err),
       [existsCall release (b, Some err);
        EvNow t; EvStatusUpdate (failedObject release err t) e])
| Normal_install_failed values e1 err t e2 :
    parsed = (values, None) ->
    let installing := withPhase release PhaseInstalling in
    NormalRun release parsed
      (failedObject installing err t, (requeueAfterFailure, Some err),
       [existsCall release (false, None);
        EvStatusUpdate installing e1;
        installCall release values (Some err);
        EvNow t; EvStatusUpdate (failedObject installing err t) e2])
| Normal_installed values e1 now t1 t2 uerr :
    parsed = (values, None) ->
    let installing := withPhase release PhaseInstalling in
    NormalRun release parsed
      (readyObject installing now t1 t2,
       (ctrl.Result_zero, option_map (wrapError "updating status: ") uerr),
       [existsCall release (false, None);
        EvStatusUpdate installing e1;
        installCall release values None;
        EvNow now; EvNow t1; EvNow t2;
        EvStatusUpdate (readyObject installing now t1 t2) uerr])
| Normal_upgrade_failed values e1 err t e2 :
    parsed = (values, None) ->
    ObservedGeneration (Status release) <> Generation release ->
    let upgrading := withPhase release PhaseUpgrading in
    NormalRun release parsed
      (failedObject upgrading err t, (requeueAfterFailure, Some err),
       [existsCall release (true, None);
        EvStatusUpdate upgrading e1;
        upgradeCall release values (Some err);
        EvNow t; EvStatusUpdate (failedObject upgrading err t) e2])
| Normal_upgraded values e1 now t1 t2 uerr :
    parsed = (values, None) ->
    ObservedGeneration (Status release) <> Generation release ->
    let upgrading := withPhase release PhaseUpgrading in
    NormalRun release parsed
      (readyObject upgrading now t1 t2,
       (ctrl.Result_zero, option_map (wrapError "updating status: ") uerr),
       [existsCall release (true, None);
        EvStatusUpdate upgrading e1;
        upgradeCall release values None;
        EvNow now; EvNow t1; EvNow t2;
        EvStatusUpdate (readyObject upgrading now t1 t2) uerr])
| Normal_up_to_date values now t1 t2 uerr :
    parsed = (values, None) ->
    ObservedGeneration (Status release) = Generation release ->
    NormalRun release parsed
      (readyObject release now t1 t2,
       (ctrl.Result_zero, option_map (wrapError "updating status: ") uerr),
       [existsCall release (true, None);
        EvNow now; EvNow t1; EvNow t2;
        EvStatusUpdate (readyObject release now t1 t2) uerr]).

(** The paths of [reconcileDelete]. *)
Inductive DeleteRun (release : HelmRelease) : Outcome -> Prop :=
| Delete_no_finalizer :
    ContainsFinalizer release finalizerName = false ->
    DeleteRun release (release, (ctrl.Result_zero, None), [])
| Delete_uninstall_failed e1 err t e2 :
    ContainsFinalizer release finalizerName = true ->
    let uninstalling := withPhase release PhaseUninstalling in
    DeleteRun release
      (failedObject uninstalling err t, (requeueAfterFailure, Some err),
       [EvStatusUpdate uninstalling e1;
        uninstallCall release (Some err);
        EvNow t; EvStatusUpdate (failedObject uninstalling err t) e2])
| Delete_uninstalled e1 perr :
    ContainsFinalizer release finalizerName = true ->
    let uninstalling := withPhase release PhaseUninstalling in
    DeleteRun release
      (RemoveFinalizer uninstalling finalizerName,
       (ctrl.Result_zero, option_map (wrapError "removing finalizer: ") perr),
       [EvStatusUpdate uninstalling e1;
        uninstallCall release None;
        EvUpdate (RemoveFinalizer uninstalling finalizerName) perr]).

(** The paths of [Reconcile] when [Get] answers [got]; [parse] is the
    "Parse optional values" block. *)
Inductive ReconcileRun (parse : HelmRelease -> ValuesMap * option error)
  (req : ctrl.Request)
  : HelmRelease + error ->
    ctrl.Result * option error * list (Event ValuesMap) -> Prop :=
| Run_get_failed err :
    ReconcileRun parse req (inr err)
      (ctrl.Result_zero, IgnoreNotFound err, [EvGet req (inr err)])
| Run_delete release obj res tr :
    metav1.IsZero (DeletionTimestamp release) = false ->
    DeleteRun release (obj, res, tr) ->
    ReconcileRun parse req (inl release) (res, EvGet req (inl release) :: tr)
| Run_add_finalizer release uerr :
    metav1.IsZero (DeletionTimestamp release) = true ->
    ContainsFinalizer release finalizerName = false ->
    ReconcileRun parse req (inl release)
      (ctrl.Result_zero, option_map (wrapError "adding finalizer: ") uerr,
       [EvGet req (inl release);
        EvUpdate (AddFinalizer release finalizerName) uerr])
| Run_normal release obj res tr :
    metav1.IsZero (DeletionTimestamp release) = true ->
    ContainsFinalizer release finalizerName = true ->
    NormalRun release (parse release) (obj, res, tr) ->
    ReconcileRun parse req (inl release) (res, EvGet req (inl release) :: tr).

End Runs.

(** ** Predicates on calls, used to state the properties *)

Section CallPredicates.

Context {ValuesMap : Type}.

(** [Install], [Upgrade] or [Uninstall]. *)
Definition isDeployCall (e : Event ValuesMap) : bool :=
  isInstall e || isUpgrade e || isUninstall e.

(** A Helm call that returned a nil error (calls on the store and the clock
    count as such). *)
Definition helmCallSucceeded (e : Event ValuesMap) : bool :=
  match e with
  | EvReleaseExists _ _ (_, Some _) => false
  | EvInstall _ _ _ _ _ _ (Some _) => false
  | EvUpgrade _ _ _ _ _ _ (Some _) => false
  | EvUninstall _ _ (Some _) => false
  | _ => true
  end.

(** The existence check answered "exists", without error. *)
Definition existsAnsweredTrue (e : Event ValuesMap) : bool :=
  match e with
  | EvReleaseExists _ _ (true, None) => true
  | _ => false
  end.

(** A record on the idempotent path: no deletion marker, finalizer present,
    observed generation equal to the generation. *)
Definition upToDate (o : HelmRelease) : bool :=
  metav1.IsZero (DeletionTimestamp o)
  && ContainsFinalizer o finalizerName
  && (ObservedGeneration (Status o) =? Generation o)%Z.

(** Every record fetched is [upToDate] and every existence check answers
    "exists". *)
Definition servesUpToDate (e : Event ValuesMap) : bool :=
  match e with
  | EvGet _ (inl o) => upToDate o
  | EvReleaseExists _ _ (true, None) => true
  | EvReleaseExists _ _ _ => false
  | _ => true
  end.

End CallPredicates.

(** [n] notifications for one record, handled one after the other, as the
    work queue delivers them. *)
Fixpoint Reconcile_times {ValuesMap : Type} (emptyValues : ValuesMap)
  (json_Unmarshal : list byte -> ValuesMap -> ValuesMap * option error)
  (r : HelmReleaseReconciler ValuesMap) (n : nat) (req : ctrl.Request)
  : M ValuesMap (list (ctrl.Result * option error)) :=
  match n with
  | O => ret []
  | S k =>
      bind (Reconcile emptyValues json_Unmarshal r req) (fun x =>
      bind (Reconcile_times emptyValues json_Unmarshal r k req) (fun xs =>
      ret (x :: xs)))
  end.

(** ** Records and runs used in the examples *)

(** A record as the second reconcile sees it: created, finalizer attached. *)
Definition managedHR (name : string) : HelmRelease :=
  AddFinalizer (makeHR name) finalizerName.

(** A record as a successful reconcile leaves it in the store. *)
Definition settledHR (name : string) : HelmRelease :=
  readyObject (managedHR name) 1004%Z 1005%Z 1006%Z.

(** A record whose deletion was requested at instant 2000. *)
Definition deletingHR (name : string) : HelmRelease :=
  withDeletionTimestamp (settledHR name) (Some 2000%Z).

(** A values payload that is JSON but not an object. *)
Definition malformedRaw : list byte := list_byte_of_string "[1,2]".

Definition malformedHR (name : string) : HelmRelease :=
  withSpecValues (managedHR name) (Some malformedRaw).

Definition testRun (obj : HelmRelease) (m : MockHelmClient) (name : string)
  : ctrl.Result * option error * list (Event TestValues) :=
  Reconcile [] decodeEmptyObject (testReconciler obj m) (testReq name) [].

Definition existingRelease : MockHelmClient :=
  {| InstallErr := None; UpgradeErr := None; UninstallErr := None;
     ReleaseExistsResult := true; ReleaseExistsErr := None |}.

Definition failingInstall : MockHelmClient :=
  {| InstallErr := Some (errorString "install failed");
     UpgradeErr := None; UninstallErr := None;
     ReleaseExistsResult := false; ReleaseExistsErr := None |}.

Definition failingUninstall : MockHelmClient :=
  {| InstallErr := None; UpgradeErr := None;
     UninstallErr := Some (errorString "uninstall failed");
     ReleaseExistsResult := false; ReleaseExistsErr := None |}.

(** A condition list holding a Ready entry that was set at instant 5. *)
Definition oneReady (status : metav1.ConditionStatus) : list metav1.Condition :=
  [ {| metav1.Type_ := "Ready"; metav1.Status := status;
       metav1.ObservedGeneration := 1%Z; metav1.LastTransitionTime := 5%Z;
       metav1.Reason := "ReconcileSuccess";
       metav1.Message := "Helm release is ready" |} ].

(** The types of a condition list, in order.  The CRD declares the list as
    a map keyed by type ([+listType=map], [+listMapKey=type]), so the store
    only ever serves lists in which these are pairwise distinct. *)
Definition conditionTypes (conds : list metav1.Condition) : list string :=
  map metav1.Type_ conds.

(** Read over all entries rather than through a lookup: with phase Ready,
    every entry of type Ready has status True and every entry of type
    Progressing has status False. *)
Definition readyImpliesAllConditions (o : HelmRelease) : Prop :=
  Phase_ (Status o) = PhaseReady ->
  forall c, In c (Conditions (Status o)) ->
    (metav1.Type_ c = "Ready" -> metav1.Status c = metav1.ConditionTrue)
    /\ (metav1.Type_ c = "Progressing" ->
        metav1.Status c = metav1.ConditionFalse).

(** The record of scenario B: settled, then its version edited to "1.1.0",
    which the store answers with generation 2. *)
Definition editedHR (name : string) : HelmRelease :=
  let o := settledHR name in
  {| Name := Name o; Namespace := Namespace o; Generation := 2%Z;
     DeletionTimestamp := DeletionTimestamp o; Finalizers := Finalizers o;
     Spec := {| Chart := Chart (Spec o); RepoURL := RepoURL (Spec o);
                Version := "1.1.0";
                TargetNamespace := TargetNamespace (Spec o);
                ReleaseName := ReleaseName (Spec o);
                Values := Values (Spec o) |};
     Status := Status o |}.

(** A reconciler whose store rejects every write with a conflict. *)
Definition conflictingReconciler (obj : HelmRelease) (m : MockHelmClient)
  : HelmReleaseReconciler TestValues :=
  {| Client_ := rejectingClient obj (errorString "conflict");
     HelmClient := mockHelmClient m;
     Now := tickingClock |}.

(** ** Further observations on a run *)

Section MoreObservations.

Context {ValuesMap : Type}.

(** The existence check answered "does not exist", without error. *)
Definition existsAnsweredFalse (e : Event ValuesMap) : bool :=
  match e with
  | EvReleaseExists _ _ (false, None) => true
  | _ => false
  end.

(** The error a Helm call answered with, if any. *)
Definition helmCallError (e : Event ValuesMap) : option error :=
  match e with
  | EvReleaseExists _ _ (_, err) => err
  | EvInstall _ _ _ _ _ _ err => err
  | EvUpgrade _ _ _ _ _ _ err => err
  | EvUninstall _ _ err => err
  | _ => None
  end.

(** The objects handed to [Update], in order. *)
Fixpoint updateWrites (tr : list (Event ValuesMap)) : list HelmRelease :=
  match tr with
  | [] => []
  | EvUpdate obj _ :: rest => obj :: updateWrites rest
  | _ :: rest => updateWrites rest
  end.

End MoreObservations.

(** Two objects that agree on everything but the status. *)
Definition sameButStatus (a b : HelmRelease) : Prop :=
  Name a = Name b /\ Namespace a = Namespace b
  /\ Generation a = Generation b
  /\ DeletionTimestamp a = DeletionTimestamp b
  /\ Finalizers a = Finalizers b
  /\ Spec a = Spec b.

(** A reconciler whose store has no object for any key. *)
Definition emptyStoreReconciler (m : MockHelmClient)
  : HelmReleaseReconciler TestValues :=
  {| Client_ :=
       {| Get := fun _ _ => inr (statusNotFound "helmreleases not found");
          Update := fun _ _ => None;
          StatusUpdate := fun _ _ => None |};
     HelmClient := mockHelmClient m;
     Now := tickingClock |}.

(** A record whose deletion was requested before any reconcile attached the
    finalizer. *)
Definition unmanagedDeletingHR (name : string) : HelmRelease :=
  withDeletionTimestamp (makeHR name) (Some 2000%Z).

Definition failingExists : MockHelmClient :=
  {| InstallErr := None; UpgradeErr := None; UninstallErr := None;
     ReleaseExistsResult := false;
     ReleaseExistsErr := Some (errorString "exists check failed") |}.

(** ** controllers/helmclient.go *)

(** Equality of Go error values.  The SDK's sentinel errors are the only
    values with their description, so comparing with [==] is comparing the
    shape. *)
Fixpoint error_eqb (a b : error) : bool :=
  match a, b with
  | errorString s, errorString s' => String.eqb s s'
  | wrapError p e, wrapError p' e' => String.eqb p p' && error_eqb e e'
  | statusNotFound s, statusNotFound s' => String.eqb s s'
  | _, _ => false
  end.

(** [driver.ErrReleaseNotFound] *)
Definition ErrReleaseNotFound : error := errorString "release: not found".

Section HelmClientWrapper.

Context {ValuesMap : Type}.

(** A loaded chart, as [loader.Load] returns it. *)
Variable Chart_ : Type.

(** The Helm SDK behind [HelmClient], one field per SDK call the wrapper
    makes; each answers from the history, as the other collaborators do.
    An [action.Configuration] is determined by the namespace it was
    initialised for, and stands for it. *)
Record HelmSDK : Type := {
  (* cfg.Init(getter, namespace, "secret", ...) *)
  sdk_Init : History ValuesMap -> string -> option error;
  (* action.NewHistory(cfg).Run(releaseName), its release list dropped *)
  sdk_HistoryRun : History ValuesMap -> string -> string -> option error;
  (* ChartPathOptions.LocateChart(chartName, settings), with RepoURL and
     Version set *)
  sdk_LocateChart : History ValuesMap -> string -> string -> string ->
                    string + error;
  (* loader.Load(chartPath) *)
  sdk_Load : History ValuesMap -> string -> Chart_ + error;
  (* action.NewInstall(cfg).RunWithContext(ctx, chart, values), with
     ReleaseName, Namespace, Version and RepoURL set *)
  sdk_InstallRun : History ValuesMap -> string -> string -> string ->
                   string -> Chart_ -> ValuesMap -> option error;
  (* action.NewUpgrade(cfg).RunWithContext(ctx, releaseName, chart, values),
     with Namespace, Version and RepoURL set *)
  sdk_UpgradeRun : History ValuesMap -> string -> string -> string ->
                   string -> Chart_ -> ValuesMap -> option error;
  (* action.NewUninstall(cfg).Run(releaseName) *)
  sdk_UninstallRun : History ValuesMap -> string -> string -> option error
}.

Variable sdk : HelmSDK.

(** [actionConfig]: the configuration for [namespace], or the wrapped
    initialisation error. *)
Definition actionConfig (h : History ValuesMap) (namespace : string)
  : string + error :=
  match sdk_Init sdk h namespace with
  | Some err => inr (wrapError "initialising helm action config: " err)
  | None => inl namespace
  end.

(** The chart resolution shared, line for line, by [Install] and
    [Upgrade]: locate, then load. *)
Definition locateAndLoad (h : History ValuesMap)
  (chartName repoURL version : string) : Chart_ + error :=
  match sdk_LocateChart sdk h chartName repoURL version with
  | inr err => inr (wrapError "locating chart: " err)
  | inl chartPath =>
      match sdk_Load sdk h chartPath with
      | inr err => inr (wrapError "loading chart: " err)
      | inl chart => inl chart
      end
  end.

Definition HelmClient_Install (h : History ValuesMap)
  (releaseName chartName repoURL version namespace : string)
  (values : ValuesMap) : option error :=
  match actionConfig h namespace with
  | inr err => Some err
  | inl cfg =>
      match locateAndLoad h chartName repoURL version with
      | inr err => Some err
      | inl chart =>
          sdk_InstallRun sdk h cfg releaseName version repoURL chart values
      end
  end.

Definition HelmClient_Upgrade (h : History ValuesMap)
  (releaseName chartName repoURL version namespace : string)
  (values : ValuesMap) : option error :=
  match actionConfig h namespace with
  | inr err => Some err
  | inl cfg =>
      match locateAndLoad h chartName repoURL version with
      | inr err => Some err
      | inl chart =>
          sdk_UpgradeRun sdk h cfg releaseName version repoURL chart values
      end
  end.

Definition HelmClient_Uninstall (h : History ValuesMap)
  (releaseName namespace : string) : option error :=
  match actionConfig h namespace with
  | inr err => Some err
  | inl cfg => sdk_UninstallRun sdk h cfg releaseName
  end.

Definition HelmClient_ReleaseExists (h : History ValuesMap)
  (releaseName namespace : string) : bool * option error :=
  match actionConfig h namespace with
  | inr err => (false, Some err)
  | inl cfg =>
      match sdk_HistoryRun sdk h cfg releaseName with
      | Some err =>
          if error_eqb err ErrReleaseNotFound then (false, None)
          else (false, Some err)
      | None => (true, None)
      end
  end.

(** [NewHelmClient], seen through [HelmClientInterface] (the compile-time
    interface check of the source). *)
Definition NewHelmClient : HelmClientInterface ValuesMap :=
  {| Install := HelmClient_Install;
     Upgrade := HelmClient_Upgrade;
     Uninstall := HelmClient_Uninstall;
     ReleaseExists := HelmClient_ReleaseExists |}.

End HelmClientWrapper.

Arguments sdk_Init {ValuesMap Chart_}.
Arguments sdk_HistoryRun {ValuesMap Chart_}.
Arguments sdk_LocateChart {ValuesMap Chart_}.
Arguments sdk_Load {ValuesMap Chart_}.
Arguments sdk_InstallRun {ValuesMap Chart_}.
Arguments sdk_UpgradeRun {ValuesMap Chart_}.
Arguments sdk_UninstallRun {ValuesMap Chart_}.
Arguments actionConfig {ValuesMap Chart_}.
Arguments locateAndLoad {ValuesMap Chart_}.
Arguments HelmClient_Install {ValuesMap Chart_}.
Arguments HelmClient_Upgrade {ValuesMap Chart_}.
Arguments HelmClient_Uninstall {ValuesMap Chart_}.
Arguments HelmClient_ReleaseExists {ValuesMap Chart_}.
Arguments NewHelmClient {ValuesMap Chart_}.

(** An SDK for the examples: a cluster holding no release, a repository
    that serves every chart. *)
Definition emptyClusterSDK : HelmSDK (ValuesMap := TestValues) string :=
  {| sdk_Init := fun _ _ => None;
     sdk_HistoryRun := fun _ _ _ => Some ErrReleaseNotFound;
     sdk_LocateChart := fun _ chartName _ version =>
       inl ("/cache/" ++ chartName ++ "-" ++ version ++ ".tgz")%string;
     sdk_Load := fun _ chartPath => inl chartPath;
     sdk_InstallRun := fun _ _ _ _ _ _ _ => None;
     sdk_UpgradeRun := fun _ _ _ _ _ _ _ => None;
     sdk_UninstallRun := fun _ _ _ => None |}.

(** An SDK whose repository does not have the chart. *)
Definition missingChartSDK : HelmSDK (ValuesMap := TestValues) string :=
  {| sdk_Init := fun _ _ => None;
     sdk_HistoryRun := fun _ _ _ => Some ErrReleaseNotFound;
     sdk_LocateChart := fun _ _ _ _ => inr (errorString "chart not found");
     sdk_Load := fun _ chartPath => inl chartPath;
     sdk_InstallRun := fun _ _ _ _ _ _ _ => None;
     sdk_UpgradeRun := fun _ _ _ _ _ _ _ => None;
     sdk_UninstallRun := fun _ _ _ => None |}.

Definition sdkReconciler (obj : HelmRelease)
  (sdk : HelmSDK (ValuesMap := TestValues) string)
  : HelmReleaseReconciler TestValues :=
  {| Client_ := servingClient obj; HelmClient := NewHelmClient sdk;
     Now := tickingClock |}.

(** ** controllers/mock_helmclient_test.go, the call tracking

    [MockHelmClient] above holds the answers the mock is configured with.
    What the mock records about the calls it receives lives here; the
    mutex makes each method one step. *)

Module mock.

Section Tracking.

Context {ValuesMap : Type}.

(** [InstallCallArgs] and [UpgradeCallArgs] (the same fields). *)
Record DeployCallArgs : Type := {
  ReleaseName : string;
  ChartName : string;
  RepoURL : string;
  Version : string;
  Namespace : string;
  Values : option ValuesMap          (* nil before the first call *)
}.

Record UninstallCallArgs : Type := {
  un_ReleaseName : string;
  un_Namespace : string
}.

Record Tracking : Type := {
  InstallCalled : bool;
  UpgradeCalled : bool;
  UninstallCalled : bool;
  InstallArgs : DeployCallArgs;
  UpgradeArgs : DeployCallArgs;
  UninstallArgs : UninstallCallArgs
}.

Definition noDeployArgs : DeployCallArgs :=
  {| ReleaseName := ""; ChartName := ""; RepoURL := ""; Version := "";
     Namespace := ""; Values := None |}.

(** The tracking fields of [&MockHelmClient{...}]: no call seen yet. *)
Definition fresh : Tracking :=
  {| InstallCalled := false; UpgradeCalled := false;
     UninstallCalled := false;
     InstallArgs := noDeployArgs; UpgradeArgs := noDeployArgs;
     UninstallArgs := {| un_ReleaseName := ""; un_Namespace := "" |} |}.

Variable m : MockHelmClient.

Definition Install (t : Tracking)
  (releaseName chartName repoURL version namespace : string)
  (values : ValuesMap) : Tracking * option error :=
  ({| InstallCalled := true;
      UpgradeCalled := UpgradeCalled t;
      UninstallCalled := UninstallCalled t;
      InstallArgs := {| ReleaseName := releaseName; ChartName := chartName;
                        RepoURL := repoURL; Version := version;
                        Namespace := namespace; Values := Some values |};
      UpgradeArgs := UpgradeArgs t;
      UninstallArgs := UninstallArgs t |},
   InstallErr m).

Definition Upgrade (t : Tracking)
  (releaseName chartName repoURL version namespace : string)
  (values : ValuesMap) : Tracking * option error :=
  ({| InstallCalled := InstallCalled t;
      UpgradeCalled := true;
      UninstallCalled := UninstallCalled t;
      InstallArgs := InstallArgs t;
      UpgradeArgs := {| ReleaseName := releaseName; ChartName := chartName;
                        RepoURL := repoURL; Version := version;
                        Namespace := namespace; Values := Some values |};
      UninstallArgs := UninstallArgs t |},
   UpgradeErr m).

Definition Uninstall (t : Tracking) (releaseName namespace : string)
  : Tracking * option error :=
  ({| InstallCalled := InstallCalled t;
      UpgradeCalled := UpgradeCalled t;
      UninstallCalled := true;
      InstallArgs := InstallArgs t;
      UpgradeArgs := UpgradeArgs t;
      UninstallArgs := {| un_ReleaseName := releaseName;
                          un_Namespace := namespace |} |},
   UninstallErr m).

Definition ReleaseExists (t : Tracking) (releaseName namespace : string)
  : Tracking * (bool * option error) :=
  (t, (ReleaseExistsResult m, ReleaseExistsErr m)).

(** The mock after it has received the Helm calls of a run, in order. *)
Fixpoint received (t : Tracking) (tr : list (Event ValuesMap)) : Tracking :=
  match tr with
  | [] => t
  | EvInstall n c u v ns vals _ :: rest =>
      received (fst (Install t n c u v ns vals)) rest
  | EvUpgrade n c u v ns vals _ :: rest =>
      received (fst (Upgrade t n c u v ns vals)) rest
  | EvUninstall n ns _ :: rest => received (fst (Uninstall t n ns)) rest
  | EvReleaseExists n ns _ :: rest =>
      received (fst (ReleaseExists t n ns)) rest
  | _ :: rest => received t rest
  end.

End Tracking.

End mock.

(** ** web/server.go: the SSE broker

    An [sseClient] is a pointer to a struct holding a channel of capacity
    16.  Pointers are positions in the list of clients allocated so far;
    the broker's [clients] map, used as a set, is the list of the pointers
    it holds.  The mutex makes each method one step.  A channel operation
    that panics in Go (sending on or closing a closed channel) yields
    [None]. *)

Module sse.

Definition capacity : nat := 16.

(** A buffered [chan string]: what is queued, oldest first, and whether the
    channel was closed. *)
Record Chan : Type := {
  buf : list string;
  closed : bool
}.

(** [make(chan string, 16)] *)
Definition makeChan : Chan := {| buf := []; closed := false |}.

Record broker : Type := {
  allocated : list Chan;      (* every sseClient made so far, by address *)
  clients : list nat          (* the keys of the map *)
}.

Definition newBroker : broker := {| allocated := []; clients := [] |}.

Fixpoint store {A : Type} (l : list A) (i : nat) (x : A) : list A :=
  match l, i with
  | [], _ => []
  | _ :: rest, O => x :: rest
  | y :: rest, S j => y :: store rest j x
  end.

(** [b.clients[c] = struct{}{}] *)
Definition insertKey (c : nat) (keys : list nat) : list nat :=
  if existsb (Nat.eqb c) keys then keys else c :: keys.

(** [delete(b.clients, c)] *)
Definition deleteKey (c : nat) (keys : list nat) : list nat :=
  filter (fun k => negb (Nat.eqb k c)) keys.

Definition subscribe (b : broker) : broker * nat :=
  let c := length (allocated b) in
  ({| allocated := allocated b ++ [makeChan];
      clients := insertKey c (clients b) |}, c).

(** [close(ch)] *)
Definition close (ch : Chan) : option Chan :=
  if closed ch then None else Some {| buf := buf ch; closed := true |}.

Definition unsubscribe (b : broker) (c : nat) : option broker :=
  match nth_error (allocated b) c with
  | None => None
  | Some ch =>
      match close ch with
      | None => None
      | Some ch' =>
          Some {| allocated := store (allocated b) c ch';
                  clients := deleteKey c (clients b) |}
      end
  end.

(** [select { case ch <- payload: default: }]: the send goes through when
    the buffer has room, otherwise the payload is dropped. *)
Definition trySend (ch : Chan) (payload : string) : option Chan :=
  if closed ch then None
  else if Nat.ltb (length (buf ch)) capacity
       then Some {| buf := buf ch ++ [payload]; closed := false |}
       else Some ch.

(** The body of [broadcast]'s loop over the given keys. *)
Fixpoint broadcastTo (keys : list nat) (chans : list Chan) (payload : string)
  : option (list Chan) :=
  match keys with
  | [] => Some chans
  | c :: rest =>
      match nth_error chans c with
      | None => None
      | Some ch =>
          match trySend ch payload with
          | None => None
          | Some ch' => broadcastTo rest (store chans c ch') payload
          end
      end
  end.

Definition broadcast (b : broker) (payload : string) : option broker :=
  match broadcastTo (clients b) (allocated b) payload with
  | None => None
  | Some chans => Some {| allocated := chans; clients := clients b |}
  end.

(** [payload, ok := <-ch] when it does not block: the oldest queued payload,
    or [ok = false] once the channel is closed and drained. *)
Definition receive (ch : Chan) : option (Chan * option string) :=
  match buf ch with
  | p :: rest => Some ({| buf := rest; closed := closed ch |}, Some p)
  | [] => if closed ch then Some (ch, None) else None
  end.

(** The steps [handleSSE] and [broadcastEvent] take on the broker: a
    handler subscribes, reads its own channel while subscribed, and
    unsubscribes once, on its way out; anyone may broadcast. *)
Inductive Reachable : broker -> Prop :=
| R_new : Reachable newBroker
| R_subscribe b : Reachable b -> Reachable (fst (subscribe b))
| R_unsubscribe b c b' :
    Reachable b -> In c (clients b) -> unsubscribe b c = Some b' ->
    Reachable b'
| R_broadcast b payload b' :
    Reachable b -> broadcast b payload = Some b' -> Reachable b'
| R_receive b c ch ch' got :
    Reachable b -> In c (clients b) ->
    nth_error (allocated b) c = Some ch -> receive ch = Some (ch', got) ->
    Reachable {| allocated := store (allocated b) c ch';
                 clients := clients b |}.

(** Every key of the map is an allocated client with an open channel, no
    key is listed twice, and no channel holds more than its capacity. *)
Definition wellFormed (b : broker) : Prop :=
  NoDup (clients b)
  /\ (forall c, In c (clients b) ->
        exists ch, nth_error (allocated b) c = Some ch /\ closed ch = false)
  /\ (forall ch, In ch (allocated b) -> (length (buf ch) <= capacity)%nat).

End sse.

(** What a channel looks like after one non-blocking send on it. *)
Definition delivered (ch : sse.Chan) (payload : string) : sse.Chan :=
  if Nat.ltb (length (sse.buf ch)) sse.capacity
  then {| sse.buf := sse.buf ch ++ [payload]; sse.closed := false |}
  else ch.

(** Broadcasting several payloads, one after the other. *)
Fixpoint broadcastAll (b : sse.broker) (payloads : list string)
  : option sse.broker :=
  match payloads with
  | [] => Some b
  | p :: rest =>
      match sse.broadcast b p with
      | None => None
      | Some b' => broadcastAll b' rest
      end
  end.

(** ** web/server.go: the REST handlers

    A handler reads the request, calls the store and the broker, and writes
    one response.  The store behind the web server's [client.Client] is an
    interface value answering from the calls made so far, as for the
    reconciler; [Create] and [Patch] hand back the object as the server
    returned it, which is what the handler goes on with.  Of the JSON
    codec: a request carries what [json.NewDecoder(r.Body).Decode] makes of
    its body; whether a [HelmRelease] encodes, and to which text, is a
    function of the server (an object whose values are not JSON does not
    encode); a response body says what was encoded, and is empty when the
    encoder failed, since [writeJSON] drops the encoder's error. *)

Module web.

(** [createRequest] *)
Record createRequest : Type := {
  Name : string;
  Namespace : string;
  Chart : string;
  RepoURL : string;
  Version : string;
  TargetNamespace : string;
  ReleaseName : string;
  Values : string
}.

(** The parts of an [*http.Request] the handlers read:
    [r.Method], [r.URL.Query().Get("name")], [r.URL.Query().Get("ns")]
    (empty when absent) and the decoded body. *)
Record Request : Type := {
  Method : string;
  query_name : string;
  query_ns : string;
  Body : createRequest + error
}.

Definition StatusOK : Z := 200.
Definition StatusCreated : Z := 201.
Definition StatusNoContent : Z := 204.
Definition StatusBadRequest : Z := 400.
Definition StatusNotFound : Z := 404.
Definition StatusMethodNotAllowed : Z := 405.
Definition StatusInternalServerError : Z := 500.

Inductive ResponseBody : Type :=
| TextLine (msg : string)                 (* http.Error: msg and a newline *)
| JSONRelease (hr : HelmRelease)          (* the encoding of hr *)
| JSONReleases (items : list HelmRelease) (* the encoding of the items *)
| NoBody.                                 (* nothing written *)

Record Response : Type := {
  StatusCode : Z;
  ResponseBody_ : ResponseBody
}.

(** [http.Error(w, msg, code)] *)
Definition http_Error (msg : string) (code : Z) : Response :=
  {| StatusCode := code; ResponseBody_ := TextLine msg |}.

(** One call on the store. *)
Inductive Call : Type :=
| CallList (res : list HelmRelease + error)
| CallCreate (obj : HelmRelease) (res : HelmRelease + error)
| CallGet (namespace name : string) (res : HelmRelease + error)
| CallPatch (original modified : HelmRelease) (res : HelmRelease + error)
| CallDelete (obj : HelmRelease) (err : option error).

Record Client : Type := {
  List_ : list Call -> list HelmRelease + error;
  Create : list Call -> HelmRelease -> HelmRelease + error;
  Get : list Call -> string -> string -> HelmRelease + error;
  Patch : list Call -> HelmRelease -> HelmRelease -> HelmRelease + error;
  Delete : list Call -> HelmRelease -> option error
}.

(** [WebServer]: its client and what [encoding/json] makes of a
    [HelmRelease]: its JSON text, or the error.  The broker is passed along
    with each request, since the handlers change it. *)
Record WebServer : Type := {
  Client_ : Client;
  json_Marshal : HelmRelease -> string + error
}.

(** The double quote character. *)
Definition quote : string := String (Ascii.ascii_of_nat 34) EmptyString.

(** The JSON text of [sseEvent{Type: eventType, Resource: hr}], given the
    text of [hr]: the fields [type] and [resource], in this order.  The
    event types used are plain words, which are encoded as they are. *)
Definition eventJSON (eventType text : string) : string :=
  ("{" ++ quote ++ "type" ++ quote ++ ":" ++ quote ++ eventType ++ quote
   ++ "," ++ quote ++ "resource" ++ quote ++ ":" ++ text ++ "}")%string.

(** What a handler leaves behind: the store calls it made and, unless it
    panicked, the response written and the broker afterwards. *)
Definition Outcome : Type :=
  (list Call * option (Response * sse.broker))%type.

(** [&helmv1alpha1.HelmRelease{}] *)
Definition zeroStatus : HelmReleaseStatus :=
  {| Phase_ := ""; Conditions := []; DeployedVersion := "";
     HelmRevision := 0%Z; LastDeployedAt := None;
     v1alpha1.ObservedGeneration := 0%Z |}.

Definition zeroSpec : HelmReleaseSpec :=
  {| v1alpha1.Chart := ""; v1alpha1.RepoURL := ""; v1alpha1.Version := "";
     v1alpha1.TargetNamespace := ""; v1alpha1.ReleaseName := "";
     v1alpha1.Values := None |}.

(** [&apiextensionsv1.JSON{Raw: json.RawMessage(req.Values)}], or nil for
    the empty string. *)
Definition rawValues (values : string) : option (list byte) :=
  if negb (String.eqb values "") then Some (list_byte_of_string values)
  else None.

(** The object [createRelease] builds from a request. *)
Definition newRelease (req : createRequest) : HelmRelease :=
  {| v1alpha1.Name := Name req;
     v1alpha1.Namespace := Namespace req;
     Generation := 0%Z; DeletionTimestamp := None; Finalizers := [];
     Spec := {| v1alpha1.Chart := Chart req;
                v1alpha1.RepoURL := RepoURL req;
                v1alpha1.Version := Version req;
                v1alpha1.TargetNamespace := TargetNamespace req;
                v1alpha1.ReleaseName := ReleaseName req;
                v1alpha1.Values := rawValues (Values req) |};
     Status := zeroStatus |}.

Definition isEmpty (s : string) : bool := String.eqb s "".

(** The required-fields test of [createRelease]. *)
Definition missingRequired (req : createRequest) : bool :=
  isEmpty (Name req) || isEmpty (Namespace req) || isEmpty (Chart req)
  || isEmpty (RepoURL req) || isEmpty (Version req)
  || isEmpty (TargetNamespace req).

Section Handlers.

Variable s : WebServer.

(** [json.Marshal(ev)] for [ev := sseEvent{Type: eventType, Resource: hr}]:
    it fails when [hr] does not encode. *)
Definition marshalEvent (eventType : string) (hr : HelmRelease)
  : string + error :=
  match json_Marshal s hr with
  | inl text => inl (eventJSON eventType text)
  | inr err => inr err
  end.

(** [broadcastEvent]: nothing is sent when the event does not marshal. *)
Definition broadcastEvent (b : sse.broker) (eventType : string)
  (hr : HelmRelease) : option sse.broker :=
  match marshalEvent eventType hr with
  | inr _ => Some b
  | inl data => sse.broadcast b data
  end.

(** [writeJSON(w, hr)]: the encoder writes the object, or nothing at all
    when it fails; its error is dropped. *)
Definition writeJSON (hr : HelmRelease) : ResponseBody :=
  match json_Marshal s hr with
  | inl _ => JSONRelease hr
  | inr _ => NoBody
  end.

Definition encodes (hr : HelmRelease) : bool :=
  match json_Marshal s hr with
  | inl _ => true
  | inr _ => false
  end.

(** [writeJSON(w, list.Items)]: a slice encodes when each item does. *)
Definition writeJSONList (items : list HelmRelease) : ResponseBody :=
  if forallb encodes items then JSONReleases items else NoBody.

Definition respond (resp : Response) (b : option sse.broker)
  : option (Response * sse.broker) :=
  match b with
  | Some b' => Some (resp, b')
  | None => None
  end.

Definition listReleases (h : list Call) (b : sse.broker) (r : Request)
  : Outcome :=
  match List_ (Client_ s) h with
  | inr err =>
      ([CallList (inr err)],
       Some (http_Error (Error err) StatusInternalServerError, b))
  | inl items =>
      ([CallList (inl items)],
       Some ({| StatusCode := StatusOK;
                ResponseBody_ := writeJSONList items |}, b))
  end.

Definition createRelease (h : list Call) (b : sse.broker) (r : Request)
  : Outcome :=
  match Body r with
  | inr err =>
      ([], Some (http_Error ("invalid JSON body: " ++ Error err)
                   StatusBadRequest, b))
  | inl req =>
      if missingRequired req then
        ([], Some (http_Error
                     "name, namespace, chart, repoURL, version, and targetNamespace are required"
                     StatusBadRequest, b))
      else
        let hr := newRelease req in
        match Create (Client_ s) h hr with
        | inr err =>
            ([CallCreate hr (inr err)],
             Some (http_Error (Error err) StatusInternalServerError, b))
        | inl created =>
            ([CallCreate hr (inl created)],
             respond {| StatusCode := StatusCreated;
                        ResponseBody_ := writeJSON created |}
               (broadcastEvent b "created" created))
        end
  end.

(** The assignments [updateRelease] makes to the fetched object before it
    patches. *)
Definition applyUpdate (req : createRequest) (hr : HelmRelease) : HelmRelease :=
  {| v1alpha1.Name := v1alpha1.Name hr;
     v1alpha1.Namespace := v1alpha1.Namespace hr;
     Generation := Generation hr;
     DeletionTimestamp := DeletionTimestamp hr;
     Finalizers := Finalizers hr;
     Spec :=
       {| v1alpha1.Chart :=
            if negb (isEmpty (Chart req)) then Chart req
            else v1alpha1.Chart (Spec hr);
          v1alpha1.RepoURL :=
            if negb (isEmpty (RepoURL req)) then RepoURL req
            else v1alpha1.RepoURL (Spec hr);
          v1alpha1.Version :=
            if negb (isEmpty (Version req)) then Version req
            else v1alpha1.Version (Spec hr);
          v1alpha1.TargetNamespace :=
            if negb (isEmpty (TargetNamespace req)) then TargetNamespace req
            else v1alpha1.TargetNamespace (Spec hr);
          v1alpha1.ReleaseName := ReleaseName req;
          v1alpha1.Values := rawValues (Values req) |};
     Status := Status hr |}.

Definition updateRelease (h : list Call) (b : sse.broker) (r : Request)
  : Outcome :=
  let name := query_name r in
  let ns := query_ns r in
  if isEmpty name || isEmpty ns then
    ([], Some (http_Error "query params 'name' and 'ns' are required"
                 StatusBadRequest, b))
  else
    match Body r with
    | inr err =>
        ([], Some (http_Error ("invalid JSON body: " ++ Error err)
                     StatusBadRequest, b))
    | inl req =>
        match Get (Client_ s) h ns name with
        | inr err =>
            ([CallGet ns name (inr err)],
             Some (http_Error (Error err) StatusNotFound, b))
        | inl hr =>
            let h1 := h ++ [CallGet ns name (inl hr)] in
            let modified := applyUpdate req hr in
            match Patch (Client_ s) h1 hr modified with
            | inr err =>
                ([CallGet ns name (inl hr);
                  CallPatch hr modified (inr err)],
                 Some (http_Error (Error err) StatusInternalServerError, b))
            | inl patched =>
                ([CallGet ns name (inl hr);
                  CallPatch hr modified (inl patched)],
                 respond {| StatusCode := StatusOK;
                            ResponseBody_ := writeJSON patched |}
                   (broadcastEvent b "updated" patched))
            end
        end
    end.

(** The object [deleteRelease] hands to [Delete]: a zero object with the
    name and namespace set. *)
Definition deletionKey (name ns : string) : HelmRelease :=
  {| v1alpha1.Name := name; v1alpha1.Namespace := ns;
     Generation := 0%Z; DeletionTimestamp := None; Finalizers := [];
     Spec := zeroSpec; Status := zeroStatus |}.

Definition deleteRelease (h : list Call) (b : sse.broker) (r : Request)
  : Outcome :=
  let name := query_name r in
  let ns := query_ns r in
  if isEmpty name || isEmpty ns then
    ([], Some (http_Error "query params 'name' and 'ns' are required"
                 StatusBadRequest, b))
  else
    let hr := deletionKey name ns in
    match Delete (Client_ s) h hr with
    | Some err =>
        ([CallDelete hr (Some err)],
         Some (http_Error (Error err) StatusInternalServerError, b))
    | None =>
        ([CallDelete hr None],
         respond {| StatusCode := StatusNoContent; ResponseBody_ := NoBody |}
           (broadcastEvent b "deleted" hr))
    end.

Definition handleHelmReleases (h : list Call) (b : sse.broker) (r : Request)
  : Outcome :=
  if String.eqb (Method r) "GET" then listReleases h b r
  else if String.eqb (Method r) "POST" then createRelease h b r
  else if String.eqb (Method r) "PUT" then updateRelease h b r
  else if String.eqb (Method r) "DELETE" then deleteRelease h b r
  else ([], Some (http_Error "method not allowed" StatusMethodNotAllowed, b)).

End Handlers.

(** A store call that changes the store. *)
Definition isWrite (c : Call) : bool :=
  match c with
  | CallCreate _ _ | CallPatch _ _ _ | CallDelete _ _ => true
  | _ => false
  end.

(** A store write that the store accepted. *)
Definition isAcceptedWrite (c : Call) : bool :=
  match c with
  | CallCreate _ (inl _) | CallPatch _ _ (inl _) | CallDelete _ None => true
  | _ => false
  end.

End web.

(** ** web/diagnose.go and web/claude_client.go

    The diagnosis endpoint answers with a stream of server-sent events.
    What is written is kept as a list of frames; the quoting done by the
    [%q] verb inside a frame is not modelled. *)

Module diagnose.

(** The fields of a [corev1.Event] that the prompt reads. *)
Record Event_ : Type := {
  InvolvedObject_Name : string;
  Reason : string;
  Message : string
}.

(** The stream events, as far as [streamDiagnosis] tells them apart. *)
Inductive Delta : Type :=
| TextDelta (text : string)
| OtherDelta.

Inductive StreamEvent : Type :=
| ContentBlockDeltaEvent (delta : Delta)
| OtherEvent.

(** A message stream: the events that [Next]/[Current] yield until [Next]
    reports false, and what [Err] says then. *)
Record Stream : Type := {
  events : list StreamEvent;
  Err : option error
}.

Inductive Frame : Type :=
| ChunkFrame (chunk : string)   (* data: {"chunk":...} *)
| DoneFrame                     (* data: {"done":true} *)
| ErrorFrame (msg : string).    (* data: {"error":...} *)

(** The body of the [for stream.Next()] loop. *)
Fixpoint streamLoop (evs : list StreamEvent) : list Frame :=
  match evs with
  | [] => []
  | ContentBlockDeltaEvent (TextDelta chunk) :: rest =>
      if negb (String.eqb chunk "") then ChunkFrame chunk :: streamLoop rest
      else streamLoop rest
  | _ :: rest => streamLoop rest
  end.

(** [streamDiagnosis], given the stream the SDK opened: the frames written
    and the error returned. *)
Definition streamDiagnosis (stream : Stream) : list Frame * option error :=
  let written := streamLoop (events stream) in
  match Err stream with
  | Some err => (written, Some err)
  | None => (written ++ [DoneFrame], None)
  end.

(** What [handleDiagnose] depends on besides the request: the environment
    variable, whether the response writer can flush, the store, and the
    SDK call that opens the stream for an API key and a prompt. *)
Record Env : Type := {
  ANTHROPIC_API_KEY : string;
  isFlusher : bool;
  Get : string -> string -> HelmRelease + error;   (* namespace, name *)
  ListEvents : string -> list Event_ + error;      (* client.InNamespace(ns) *)
  NewStreaming : string -> string -> Stream        (* apiKey, prompt *)
}.

Inductive Call : Type :=
| CallGet (namespace name : string)
| CallListEvents (namespace : string)
| CallNewStreaming (apiKey prompt : string).

Inductive Written : Type :=
| Rejected (msg : string) (code : Z)     (* http.Error *)
| EventStream (frames : list Frame).     (* status 200, text/event-stream *)

(** The newline that ends a line of the prompt. *)
Definition nl : string := String (Ascii.ascii_of_nat 10) EmptyString.

Definition conditionLine (c : metav1.Condition) : string :=
  "  - Type: " ++ metav1.Type_ c ++ ", Status: " ++ metav1.Status c
  ++ ", Reason: " ++ metav1.Reason c ++ ", Message: " ++ metav1.Message c
  ++ nl.

(** The loop over [events.Items]. *)
Fixpoint eventLines (name : string) (items : list Event_) : string :=
  match items with
  | [] => ""
  | ev :: rest =>
      if String.eqb (InvolvedObject_Name ev) name
      then "  - Reason: " ++ Reason ev ++ ", Message: " ++ Message ev
           ++ nl ++ eventLines name rest
      else eventLines name rest
  end.

Fixpoint conditionLines (conds : list metav1.Condition) : string :=
  match conds with
  | [] => ""
  | c :: rest => conditionLine c ++ conditionLines rest
  end.

(** The prompt assembled in the [strings.Builder]. *)
Definition buildPrompt (name ns : string) (hr : HelmRelease)
  (items : list Event_) : string :=
  "You are a Kubernetes and Helm expert. A HelmRelease has failed. Diagnose the problem and suggest a fix."
  ++ nl ++ nl
  ++ "HelmRelease: " ++ name ++ " in namespace " ++ ns ++ nl
  ++ "Chart: " ++ Chart (Spec hr) ++ " " ++ Version (Spec hr) ++ " from "
  ++ RepoURL (Spec hr) ++ nl
  ++ "Phase: " ++ Phase_ (Status hr) ++ nl
  ++ nl ++ "Status Conditions:" ++ nl
  ++ conditionLines (Conditions (Status hr))
  ++ nl ++ "Recent Kubernetes Events:" ++ nl
  ++ eventLines name items
  ++ nl
  ++ "Provide a concise diagnosis (2-3 sentences) and a concrete suggested fix.".

Definition handleDiagnose (env : Env) (r : web.Request)
  : list Call * Written :=
  if negb (String.eqb (web.Method r) "POST") then
    ([], Rejected "method not allowed" 405%Z)
  else
    let name := web.query_name r in
    let ns := web.query_ns r in
    if String.eqb name "" || String.eqb ns "" then
      ([], Rejected "query params 'name' and 'ns' are required" 400%Z)
    else
      let apiKey := ANTHROPIC_API_KEY env in
      if String.eqb apiKey "" then
        ([], Rejected "ANTHROPIC_API_KEY not set" 503%Z)
      else if negb (isFlusher env) then
        ([], Rejected "streaming not supported" 500%Z)
      else
        match Get env ns name with
        | inr err => ([CallGet ns name], EventStream [ErrorFrame (Error err)])
        | inl hr =>
            let items :=
              match ListEvents env ns with
              | inl items => items
              | inr _ => []
              end in
            let prompt := buildPrompt name ns hr items in
            let streamed := streamDiagnosis (NewStreaming env apiKey prompt) in
            ([CallGet ns name; CallListEvents ns;
              CallNewStreaming apiKey prompt],
             EventStream
               (fst streamed
                ++ match snd streamed with
                   | Some err => [ErrorFrame (Error err)]
                   | None => []
                   end))
        end.

Definition isTerminal (f : Frame) : bool :=
  match f with
  | ChunkFrame _ => false
  | _ => true
  end.

End diagnose.

(** ** Servers, requests and brokers used in the examples *)

(** A store for the web server that accepts every write and has a settled
    record under every name. *)
Definition acceptingStore : web.Client :=
  {| web.List_ := fun _ => inl [];
     web.Create := fun _ hr => inl hr;
     web.Get := fun _ _ name => inl (settledHR name);
     web.Patch := fun _ _ modified => inl modified;
     web.Delete := fun _ _ => None |}.

(** The codec of the examples: an object encodes when it carries no
    values or the empty object; its text is abbreviated to its name. *)
Definition testMarshal (hr : HelmRelease) : string + error :=
  match Values (Spec hr) with
  | None => inl (Name hr)
  | Some raw =>
      if String.eqb (string_of_list_byte raw) "{}" then inl (Name hr)
      else inr (errorString "json: error calling MarshalJSON for type *v1.JSON")
  end.

Definition testServer : web.WebServer :=
  {| web.Client_ := acceptingStore; web.json_Marshal := testMarshal |}.

(** The form of the web UI filled in without a release name or values. *)
Definition uiRequest : web.createRequest :=
  {| web.Name := "web"; web.Namespace := "default"; web.Chart := "nginx";
     web.RepoURL := "https://charts.example.com"; web.Version := "1.0.0";
     web.TargetNamespace := "apps"; web.ReleaseName := "";
     web.Values := "" |}.

Definition postRequest : web.Request :=
  {| web.Method := "POST"; web.query_name := ""; web.query_ns := "";
     web.Body := inl uiRequest |}.

(** A diagnosis request; the handler does not read the body. *)
Definition diagnoseRequest : web.Request :=
  {| web.Method := "POST"; web.query_name := "web";
     web.query_ns := "default"; web.Body := inr (errorString "EOF") |}.

(** The broker after one browser has connected. *)
Definition oneSubscriber : sse.broker := fst (sse.subscribe sse.newBroker).

(** The record of [uiRequest] once the reconciler has attached its
    finalizer. *)
Definition uiHR : HelmRelease :=
  AddFinalizer (web.newRelease uiRequest) finalizerName.

(** An environment for the diagnosis endpoint: key set, a writer that can
    flush, and a model stream of two text deltas among other events. *)
Definition testEnv : diagnose.Env :=
  {| diagnose.ANTHROPIC_API_KEY := "sk-test";
     diagnose.isFlusher := true;
     diagnose.Get := fun _ name => inl (settledHR name);
     diagnose.ListEvents := fun _ => inl [];
     diagnose.NewStreaming := fun _ _ =>
       {| diagnose.events :=
            [diagnose.OtherEvent;
             diagnose.ContentBlockDeltaEvent (diagnose.TextDelta "The chart ");
             diagnose.ContentBlockDeltaEvent (diagnose.TextDelta "");
             diagnose.ContentBlockDeltaEvent diagnose.OtherDelta;
             diagnose.ContentBlockDeltaEvent
               (diagnose.TextDelta "is missing.")];
          diagnose.Err := None |} |}.

(** ** A record with a release-name override and values *)

(** The payload [{"replicaCount":"2"}]. *)
Definition replicaCountText : string :=
  ("{" ++ web.quote ++ "replicaCount" ++ web.quote ++ ":"
   ++ web.quote ++ "2" ++ web.quote ++ "}")%string.

Definition replicaCountRaw : list byte := list_byte_of_string replicaCountText.

(** The decoder of the examples, extended to that payload: it adds the
    payload's one key to the map, as [json.Unmarshal] does. *)
Definition decodeExamples (raw : list byte) (into : TestValues)
  : TestValues * option error :=
  if String.eqb (string_of_list_byte raw) replicaCountText
  then (("replicaCount", "2") :: into, None)
  else decodeEmptyObject raw into.

(** A managed record whose spec names the release [my-release] and
    carries that payload. *)
Definition customisedHR (name : string) : HelmRelease :=
  let o := managedHR name in
  {| Name := Name o; Namespace := Namespace o; Generation := Generation o;
     DeletionTimestamp := DeletionTimestamp o; Finalizers := Finalizers o;
     Spec := {| Chart := Chart (Spec o); RepoURL := RepoURL (Spec o);
                Version := Version (Spec o);
                TargetNamespace := TargetNamespace (Spec o);
                ReleaseName := "my-release";
                Values := Some replicaCountRaw |};
     Status := Status o |}.

(** ** A store and a Release Manager that remember *)

(** What the store holds after the calls of [h], starting from [obj]: an
    accepted [Update] replaces everything but the status, an accepted
    [Status().Update] replaces the status. *)
Definition storedAfter (obj : HelmRelease) (h : list (Event TestValues))
  : HelmRelease :=
  fold_left (fun cur e =>
               match e with
               | EvUpdate o None => withStatus o (Status cur)
               | EvStatusUpdate o None => withStatus cur (Status o)
               | _ => cur
               end) h obj.

Definition rememberingClient (obj : HelmRelease) : Client TestValues :=
  {| Get := fun h _ => inl (storedAfter obj h);
     Update := fun _ _ => None;
     StatusUpdate := fun _ _ => None |}.

(** Whether the release is deployed after the calls of [h]. *)
Definition deployedAfter (h : list (Event TestValues)) : bool :=
  fold_left (fun cur e =>
               match e with
               | EvInstall _ _ _ _ _ _ None => true
               | EvUninstall _ _ None => false
               | _ => cur
               end) h false.

Definition rememberingHelm : HelmClientInterface TestValues :=
  {| Install := fun _ _ _ _ _ _ _ => None;
     Upgrade := fun _ _ _ _ _ _ _ => None;
     Uninstall := fun _ _ _ => None;
     ReleaseExists := fun h _ _ => (deployedAfter h, None) |}.

Definition liveReconciler (obj : HelmRelease)
  : HelmReleaseReconciler TestValues :=
  {| Client_ := rememberingClient obj; HelmClient := rememberingHelm;
     Now := tickingClock |}.

(** The calls of the first invocation on a managed record against that
    store and Release Manager. *)
Definition firstRun (name : string) : list (Event TestValues) :=
  snd (Reconcile [] decodeEmptyObject (liveReconciler (managedHR name))
         (testReq name) []).

(** ** Requests with values *)

(** A form whose values field is not JSON. *)
Definition uiRequestBadValues : web.createRequest :=
  {| web.Name := "web"; web.Namespace := "default"; web.Chart := "nginx";
     web.RepoURL := "https://charts.example.com"; web.Version := "1.0.0";
     web.TargetNamespace := "apps"; web.ReleaseName := "web-release";
     web.Values := "replicaCount=2" |}.

Definition postBadValues : web.Request :=
  {| web.Method := "POST"; web.query_name := ""; web.query_ns := "";
     web.Body := inl uiRequestBadValues |}.

(** An edit that changes the version and sets values, leaving the other
    fields of the form empty. *)
Definition editRequest : web.createRequest :=
  {| web.Name := ""; web.Namespace := ""; web.Chart := "";
     web.RepoURL := ""; web.Version := "1.1.0";
     web.TargetNamespace := ""; web.ReleaseName := "";
     web.Values := "{}" |}.

Definition putEdit : web.Request :=
  {| web.Method := "PUT"; web.query_name := "web";
     web.query_ns := "default"; web.Body := inl editRequest |}.

(** * Properties *)

Section Properties.

Context {ValuesMap : Type} (emptyValues : ValuesMap)
  (json_Unmarshal : list byte -> ValuesMap -> ValuesMap * option error)
  (r : HelmReleaseReconciler ValuesMap).

Abbreviation run_Reconcile := (Reconcile emptyValues json_Unmarshal r).
Abbreviation run_reconcileNormal := (reconcileNormal emptyValues json_Unmarshal r).

(** *** Finalizer helpers *)

Lemma ContainsFinalizer_AddFinalizer (o : HelmRelease) (f : string) :
  ContainsFinalizer (AddFinalizer o f) f = true.
Proof.
  unfold AddFinalizer.
  destruct (ContainsFinalizer o f) eqn:E; [exact E|].
  unfold ContainsFinalizer; cbn [Finalizers withFinalizers].
  rewrite existsb_app; cbn [existsb].
  now rewrite String.eqb_refl, orb_true_r.
Qed.

Lemma ContainsFinalizer_RemoveFinalizer (o : HelmRelease) (f : string) :
  ContainsFinalizer (RemoveFinalizer o f) f = false.
Proof.
  unfold ContainsFinalizer, RemoveFinalizer; cbn [Finalizers withFinalizers].
  induction (Finalizers o) as [|x l IH]; [reflexivity|].
  cbn [filter]. destruct (String.eqb x f) eqn:E; cbn [negb]; [exact IH|].
  cbn [existsb]. rewrite IH, String.eqb_sym, E. reflexivity.
Qed.

(** *** The release name *)

Lemma effectiveReleaseName_override (release : HelmRelease) :
  ReleaseName (Spec release) <> "" ->
  effectiveReleaseName release = ReleaseName (Spec release).
Proof.
  intros Hne. unfold effectiveReleaseName.
  destruct (String.eqb (ReleaseName (Spec release)) "") eqn:E; [|reflexivity].
  now apply String.eqb_eq in E.
Qed.

Lemma effectiveReleaseName_default (release : HelmRelease) :
  ReleaseName (Spec release) = "" ->
  effectiveReleaseName release = Name release.
Proof. intros E. unfold effectiveReleaseName. now rewrite E. Qed.

Lemma effectiveReleaseName_eq (release : HelmRelease) :
  effectiveReleaseName release =
  if String.eqb (ReleaseName (Spec release)) "" then Name release
  else ReleaseName (Spec release).
Proof.
  unfold effectiveReleaseName.
  now destruct (String.eqb (ReleaseName (Spec release)) "").
Qed.

(** The values decode: there are none, and the map stays empty, or the
    decoder fills the empty map from the raw payload without error. *)
Lemma parseValues_decoded (release : HelmRelease) (values : ValuesMap) :
  parseValues emptyValues json_Unmarshal release = (values, None) <->
  match Values (Spec release) with
  | None => values = emptyValues
  | Some raw => json_Unmarshal raw emptyValues = (values, None)
  end.
Proof.
  unfold parseValues. destruct (Values (Spec release)) as [raw|].
  - reflexivity.
  - split; [intros [= <-]; reflexivity | intros ->; reflexivity].
Qed.

(** *** setCondition_range *)

Lemma findCondition_setCondition_range_same conds condition :
  findCondition (setCondition_range conds condition) (metav1.Type_ condition) =
  Some (metav1.withLastTransitionTime condition
          (match findCondition conds (metav1.Type_ condition) with
           | Some c =>
               if String.eqb (metav1.Status c) (metav1.Status condition)
               then metav1.LastTransitionTime c
               else metav1.LastTransitionTime condition
           | None => metav1.LastTransitionTime condition
           end)).
Proof.
  induction conds as [|c rest IH]; cbn [setCondition_range findCondition].
  - rewrite String.eqb_refl. now destruct condition.
  - destruct (String.eqb (metav1.Type_ c) (metav1.Type_ condition)) eqn:E.
    + destruct (String.eqb (metav1.Status c) (metav1.Status condition));
        cbn [findCondition metav1.withLastTransitionTime metav1.Type_];
        rewrite String.eqb_refl; [reflexivity | now destruct condition].
    + cbn [findCondition]. rewrite E. exact IH.
Qed.

Lemma findCondition_setCondition_stamped conds condition now :
  findCondition
    (setCondition_range conds (metav1.withLastTransitionTime condition now))
    (metav1.Type_ condition) =
  Some (metav1.withLastTransitionTime condition
          (match findCondition conds (metav1.Type_ condition) with
           | Some c =>
               if String.eqb (metav1.Status c) (metav1.Status condition)
               then metav1.LastTransitionTime c
               else now
           | None => now
           end)).
Proof.
  exact (findCondition_setCondition_range_same conds
           (metav1.withLastTransitionTime condition now)).
Qed.

Lemma findCondition_setCondition_range_other conds condition ty :
  String.eqb (metav1.Type_ condition) ty = false ->
  findCondition (setCondition_range conds condition) ty = findCondition conds ty.
Proof.
  intros Hne.
  induction conds as [|c rest IH]; cbn [setCondition_range findCondition].
  - now rewrite Hne.
  - destruct (String.eqb (metav1.Type_ c) (metav1.Type_ condition)) eqn:E.
    + apply String.eqb_eq in E.
      assert (Hc : String.eqb (metav1.Type_ c) ty = false) by now rewrite E.
      rewrite Hc.
      destruct (String.eqb (metav1.Status c) (metav1.Status condition));
        cbn [findCondition metav1.withLastTransitionTime metav1.Type_];
        now rewrite Hne.
    + cbn [findCondition]. now rewrite IH.
Qed.

(** *** Condition lists with pairwise distinct types *)

Lemma setCondition_range_In_types conds condition ty :
  In ty (conditionTypes (setCondition_range conds condition)) ->
  ty = metav1.Type_ condition \/ In ty (conditionTypes conds).
Proof.
  induction conds as [|c rest IH]; cbn [setCondition_range conditionTypes map].
  - intros [<-|[]]. now left.
  - destruct (String.eqb (metav1.Type_ c) (metav1.Type_ condition)) eqn:E.
    + apply String.eqb_eq in E.
      destruct (String.eqb (metav1.Status c) (metav1.Status condition));
        cbn [map In metav1.withLastTransitionTime metav1.Type_];
        intros [<-|Hin]; auto.
    + cbn [map In]. intros [<-|Hin]; [auto|].
      destruct (IH Hin); auto.
Qed.

Lemma setCondition_range_unique conds condition :
  NoDup (conditionTypes conds) ->
  NoDup (conditionTypes (setCondition_range conds condition)).
Proof.
  induction conds as [|c rest IH]; cbn [setCondition_range conditionTypes map];
    intros Hnd.
  - repeat constructor. intros [].
  - inversion Hnd as [|ty tys Hnotin Hrest]; subst.
    destruct (String.eqb (metav1.Type_ c) (metav1.Type_ condition)) eqn:E.
    + apply String.eqb_eq in E.
      destruct (String.eqb (metav1.Status c) (metav1.Status condition));
        cbn [map metav1.withLastTransitionTime metav1.Type_];
        rewrite <- E; now constructor.
    + cbn [map]. constructor; [|now apply IH].
      intros Hin. apply setCondition_range_In_types in Hin as [Heq|Hin].
      * apply String.eqb_neq in E. contradiction.
      * contradiction.
Qed.

Lemma findCondition_unique conds c :
  NoDup (conditionTypes conds) -> In c conds ->
  findCondition conds (metav1.Type_ c) = Some c.
Proof.
  induction conds as [|d rest IH]; cbn [conditionTypes map findCondition In];
    intros Hnd Hin; [contradiction|].
  inversion Hnd as [|ty tys Hnotin Hrest]; subst.
  destruct Hin as [->|Hin]; [now rewrite String.eqb_refl|].
  destruct (String.eqb (metav1.Type_ d) (metav1.Type_ c)) eqn:E.
  - apply String.eqb_eq in E. exfalso. apply Hnotin. rewrite E.
    now apply in_map.
  - now apply IH.
Qed.

(** *** What the written objects carry *)

Lemma failedObject_condition release err t :
  exists c,
    findCondition (Conditions (Status (failedObject release err t))) "Ready"
      = Some c
    /\ metav1.Status c = metav1.ConditionFalse
    /\ metav1.Reason c = "ReconcileError"
    /\ metav1.Message c = Error err
    /\ metav1.ObservedGeneration c = Generation release.
Proof.
  eexists. split.
  - exact (findCondition_setCondition_range_same
             (Conditions (Status release)) (failureCondition release err t)).
  - repeat split.
Qed.

Lemma readyObject_fields release now t1 t2 :
  Phase_ (Status (readyObject release now t1 t2)) = PhaseReady
  /\ DeployedVersion (Status (readyObject release now t1 t2))
     = Version (Spec release)
  /\ ObservedGeneration (Status (readyObject release now t1 t2))
     = Generation release
  /\ LastDeployedAt (Status (readyObject release now t1 t2)) = Some now.
Proof. repeat split. Qed.

Lemma readyObject_conditions release now t1 t2 :
  (exists c,
      findCondition (Conditions (Status (readyObject release now t1 t2)))
        "Ready" = Some c
      /\ metav1.Status c = metav1.ConditionTrue)
  /\ (exists c,
         findCondition (Conditions (Status (readyObject release now t1 t2)))
           "Progressing" = Some c
         /\ metav1.Status c = metav1.ConditionFalse).
Proof.
  split; eexists; split.
  - cbn [readyObject withConditions withStatus Status Conditions].
    rewrite findCondition_setCondition_range_other by reflexivity.
    exact (findCondition_setCondition_range_same
             (Conditions (Status release)) (readyCondition release t1)).
  - reflexivity.
  - cbn [readyObject withConditions withStatus Status Conditions].
    exact (findCondition_setCondition_range_same _
             (progressingCondition release t2)).
  - reflexivity.
Qed.

Lemma readyObject_invariant release now t1 t2 :
  readyImpliesConditions (readyObject release now t1 t2).
Proof. intros _. apply readyObject_conditions. Qed.

Lemma not_ready_invariant (o : HelmRelease) :
  Phase_ (Status o) <> PhaseReady -> readyImpliesConditions o.
Proof. intros Hne Hp. contradiction. Qed.

Lemma readyObject_unique release now t1 t2 :
  NoDup (conditionTypes (Conditions (Status release))) ->
  NoDup (conditionTypes (Conditions (Status (readyObject release now t1 t2)))).
Proof.
  intros Hnd. cbn [readyObject withConditions withStatus Status Conditions].
  now do 2 apply setCondition_range_unique.
Qed.

Lemma readyObject_all_conditions release now t1 t2 :
  NoDup (conditionTypes (Conditions (Status release))) ->
  readyImpliesAllConditions (readyObject release now t1 t2).
Proof.
  intros Hnd _ c Hin.
  pose proof (readyObject_unique release now t1 t2 Hnd) as Hu.
  pose proof (findCondition_unique _ c Hu Hin) as Hc.
  destruct (readyObject_conditions release now t1 t2)
    as ((cr & Fr & Sr) & (cp & Fp & Sp)).
  split; intros Hty; rewrite Hty in Hc; congruence.
Qed.

(** *** Runs of the building blocks *)

Lemma setCondition_run release condition h :
  setCondition r release condition h =
  (withConditions release
     (setCondition_range (Conditions (Status release))
        (metav1.withLastTransitionTime condition (Now r h))),
   [EvNow (Now r h)]).
Proof. reflexivity. Qed.

Lemma setFailedStatus_eq release err h :
  setFailedStatus r release err h =
  ((failedObject release err (Now r h), err),
   [EvNow (Now r h);
    EvStatusUpdate (failedObject release err (Now r h))
      (StatusUpdate (Client_ r) (h ++ [EvNow (Now r h)])
         (failedObject release err (Now r h)))]).
Proof. reflexivity. Qed.

Lemma reconcileNormal_success_run release h :
  exists now t1 t2 uerr,
    reconcileNormal_success r release h =
    ((readyObject release now t1 t2,
      (ctrl.Result_zero, option_map (wrapError "updating status: ") uerr)),
     [EvNow now; EvNow t1; EvNow t2;
      EvStatusUpdate (readyObject release now t1 t2) uerr]).
Proof.
  unfold reconcileNormal_success, bind, metav1_Now, r_Status_Update.
  cbn [fst snd setCondition bind metav1_Now ret app].
  unfold readyObject, readyCondition, progressingCondition, withConditions,
    withDeployed, withStatus, metav1.withLastTransitionTime.
  cbn.
  destruct (StatusUpdate (Client_ r) _ _) as [e|]; cbn [fst snd ret app];
    do 3 eexists; [exists (Some e) | exists None]; reflexivity.
Qed.

(** *** Every run is one of the listed paths *)

Lemma reconcileDelete_run release h :
  DeleteRun release (reconcileDelete r release h).
Proof.
  unfold reconcileDelete.
  destruct (ContainsFinalizer release finalizerName) eqn:Hfin; cbn [negb].
  - unfold bind, r_Status_Update, r_Uninstall. cbn [fst snd].
    destruct (Uninstall (HelmClient r) _ _ _) as [err|].
    + rewrite setFailedStatus_eq. cbn [fst snd failed ret app].
      exact (Delete_uninstall_failed release _ err _ _ Hfin).
    + unfold r_Update. cbn [fst snd app].
      destruct (Update (Client_ r) _ _) as [perr|]; cbn [fst snd ret app].
      * exact (Delete_uninstalled release _ (Some perr) Hfin).
      * exact (Delete_uninstalled release _ None Hfin).
  - now apply Delete_no_finalizer.
Qed.

Lemma reconcileNormal_run release h :
  NormalRun release (parseValues emptyValues json_Unmarshal release)
    (run_reconcileNormal release h).
Proof.
  unfold reconcileNormal.
  destruct (parseValues emptyValues json_Unmarshal release)
    as [values [perr|]] eqn:Hparse.
  - unfold bind. rewrite setFailedStatus_eq. cbn [fst snd failed ret app].
    exact (Normal_parse_failed release _ values perr _ _ eq_refl).
  - unfold bind, r_ReleaseExists, r_Status_Update, r_Install, r_Upgrade.
    cbn [fst snd].
    destruct (ReleaseExists (HelmClient r) _ _ _) as [b [err|]].
    + destruct b; rewrite setFailedStatus_eq; cbn [fst snd failed ret app];
        exact (Normal_exists_failed release _ values _ err _ _ eq_refl).
    + destruct b.
      * destruct (ObservedGeneration (Status release) =? Generation release)%Z
          eqn:Hgen; cbn [negb].
        -- apply Z.eqb_eq in Hgen.
           match goal with
           | |- context [reconcileNormal_success r ?o ?h'] =>
               destruct (reconcileNormal_success_run o h')
                 as (now & t1 & t2 & uerr & E)
           end.
           rewrite E. cbn [fst snd app].
           exact (Normal_up_to_date release _ values _ _ _ _ eq_refl Hgen).
        -- apply Z.eqb_neq in Hgen. cbn [fst snd].
           destruct (Upgrade (HelmClient r) _ _ _ _ _ _ _) as [err|].
           ++ rewrite setFailedStatus_eq.
              cbn [fst snd failed ret app].
              exact (Normal_upgrade_failed release _ values _ err _ _
                       eq_refl Hgen).
           ++ match goal with
              | |- context [reconcileNormal_success r ?o ?h'] =>
                  destruct (reconcileNormal_success_run o h')
                    as (now & t1 & t2 & uerr & E)
              end.
              rewrite E. cbn [fst snd app].
              exact (Normal_upgraded release _ values _ _ _ _ _ eq_refl Hgen).
      * cbn [fst snd].
        destruct (Install (HelmClient r) _ _ _ _ _ _ _) as [err|].
        -- rewrite setFailedStatus_eq.
           cbn [fst snd failed ret app].
           exact (Normal_install_failed release _ values _ err _ _ eq_refl).
        -- match goal with
           | |- context [reconcileNormal_success r ?o ?h'] =>
               destruct (reconcileNormal_success_run o h')
                 as (now & t1 & t2 & uerr & E)
           end.
           rewrite E. cbn [fst snd app].
           exact (Normal_installed release _ values _ _ _ _ _ eq_refl).
Qed.

Lemma Reconcile_run req h :
  ReconcileRun (parseValues emptyValues json_Unmarshal) req
    (Get (Client_ r) h req) (run_Reconcile req h).
Proof.
  unfold Reconcile. unfold bind at 1. unfold r_Get. cbn [fst snd].
  destruct (Get (Client_ r) h req) as [release|err].
  - destruct (metav1.IsZero (DeletionTimestamp release)) eqn:Hdel; cbn [negb].
    + destruct (ContainsFinalizer release finalizerName) eqn:Hfin; cbn [negb].
      * unfold bind.
        pose proof (reconcileNormal_run release (h ++ [EvGet req (inl release)]))
          as Hrun.
        destruct (run_reconcileNormal release _) as [[obj res] tr].
        cbn [fst snd ret app]. rewrite app_nil_r.
        now apply Run_normal with (obj := obj).
      * unfold bind, r_Update. cbn [fst snd].
        destruct (Update (Client_ r) _ _) as [uerr|]; cbn [fst snd ret app].
        -- exact (Run_add_finalizer _ req release (Some uerr) Hdel Hfin).
        -- exact (Run_add_finalizer _ req release None Hdel Hfin).
    + unfold bind.
      pose proof (reconcileDelete_run release (h ++ [EvGet req (inl release)]))
        as Hrun.
      destruct (reconcileDelete r release _) as [[obj res] tr].
      cbn [fst snd ret app]. rewrite app_nil_r.
      now apply Run_delete with (obj := obj).
  - cbn [fst snd ret app]. apply Run_get_failed.
Qed.

(** *** Shapes of a whole invocation *)

Ltac invert_run R :=
  inversion R; subst; try congruence.

Lemma Reconcile_run_of h req got out :
  Get (Client_ r) h req = got ->
  run_Reconcile req h = out ->
  ReconcileRun (parseValues emptyValues json_Unmarshal) req got out.
Proof. intros <- <-. apply Reconcile_run. Qed.

Lemma Reconcile_unmanaged h req release :
  Get (Client_ r) h req = inl release ->
  metav1.IsZero (DeletionTimestamp release) = true ->
  ContainsFinalizer release finalizerName = false ->
  exists uerr,
    run_Reconcile req h =
    (ctrl.Result_zero, option_map (wrapError "adding finalizer: ") uerr,
     [EvGet req (inl release);
      EvUpdate (AddFinalizer release finalizerName) uerr]).
Proof.
  intros Hget Hdel Hfin.
  destruct (run_Reconcile req h) as [res0 tr0] eqn:E.
  pose proof (Reconcile_run_of h req _ _ Hget E) as R.
  invert_run R. eexists; reflexivity.
Qed.

Lemma Reconcile_managed h req release :
  Get (Client_ r) h req = inl release ->
  metav1.IsZero (DeletionTimestamp release) = true ->
  ContainsFinalizer release finalizerName = true ->
  exists obj res tr,
    run_Reconcile req h = (res, EvGet req (inl release) :: tr)
    /\ NormalRun release (parseValues emptyValues json_Unmarshal release)
         (obj, res, tr).
Proof.
  intros Hget Hdel Hfin.
  destruct (run_Reconcile req h) as [res0 tr0] eqn:E.
  pose proof (Reconcile_run_of h req _ _ Hget E) as R.
  invert_run R. do 3 eexists; split; [reflexivity | eassumption].
Qed.

Lemma Reconcile_deleting h req release :
  Get (Client_ r) h req = inl release ->
  metav1.IsZero (DeletionTimestamp release) = false ->
  exists obj res tr,
    run_Reconcile req h = (res, EvGet req (inl release) :: tr)
    /\ DeleteRun release (obj, res, tr).
Proof.
  intros Hget Hdel.
  destruct (run_Reconcile req h) as [res0 tr0] eqn:E.
  pose proof (Reconcile_run_of h req _ _ Hget E) as R.
  invert_run R. do 3 eexists; split; [reflexivity | eassumption].
Qed.

(** *** Repeated invocations *)

Lemma Reconcile_times_S n req h :
  snd (Reconcile_times emptyValues json_Unmarshal r (S n) req h) =
  snd (run_Reconcile req h)
  ++ snd (Reconcile_times emptyValues json_Unmarshal r n req
            (h ++ snd (run_Reconcile req h))).
Proof.
  cbn [Reconcile_times]. unfold bind, ret. cbn [fst snd].
  now rewrite app_nil_r.
Qed.

Lemma upToDate_inv (o : HelmRelease) :
  upToDate o = true ->
  metav1.IsZero (DeletionTimestamp o) = true
  /\ ContainsFinalizer o finalizerName = true
  /\ ObservedGeneration (Status o) = Generation o.
Proof.
  unfold upToDate. rewrite !andb_true_iff, Z.eqb_eq. tauto.
Qed.

Lemma Reconcile_up_to_date_no_deploy req h :
  forallb servesUpToDate (snd (run_Reconcile req h)) = true ->
  filter isDeployCall (snd (run_Reconcile req h)) = [].
Proof.
  pose proof (Reconcile_run req h) as R.
  destruct (run_Reconcile req h) as [res tr]. cbn [snd].
  inversion R as [err Hg | release obj res' tr' Hdel D Hg
                  | release uerr Hdel Hfin Hg
                  | release obj res' tr' Hdel Hfin N Hg]; subst;
    cbn [forallb servesUpToDate]; intros Hs.
  - reflexivity.
  - apply andb_true_iff in Hs as [Hup _].
    apply upToDate_inv in Hup as (Hz & _). congruence.
  - reflexivity.
  - apply andb_true_iff in Hs as [Hup Hs].
    apply upToDate_inv in Hup as (_ & _ & Hgen).
    inversion N; subst; cbn in Hs; try discriminate; try contradiction;
      try reflexivity.
Qed.

(** ** Specified behaviour *)

(** C1. A record with no deletion marker and no finalizer: one invocation
    makes exactly two calls, the fetch and one [Update] that carries the
    record with the finalizer attached; it makes no call on the Helm client
    (no existence check, install, upgrade or uninstall), and returns the
    empty result with the store's answer, nil when the write was accepted. *)
Theorem C1_first_reconcile_attaches_finalizer_only h req release :
  Get (Client_ r) h req = inl release ->
  metav1.IsZero (DeletionTimestamp release) = true ->
  ContainsFinalizer release finalizerName = false ->
  exists uerr,
    snd (run_Reconcile req h) =
      [EvGet req (inl release);
       EvUpdate (AddFinalizer release finalizerName) uerr]
    /\ ContainsFinalizer (AddFinalizer release finalizerName) finalizerName
       = true
    /\ filter isHelmCall (snd (run_Reconcile req h)) = []
    /\ fst (run_Reconcile req h) =
       (ctrl.Result_zero, option_map (wrapError "adding finalizer: ") uerr).
Proof.
  intros Hget Hdel Hfin.
  destruct (Reconcile_unmanaged h req release Hget Hdel Hfin) as [uerr E].
  exists uerr. rewrite E. cbn [fst snd].
  repeat split. apply ContainsFinalizer_AddFinalizer.
Qed.

(** C3. While every record fetched has the finalizer, no deletion marker
    and observedGeneration equal to generation, and every existence check
    answers true, no invocation calls [Install], [Upgrade] or [Uninstall]:
    this holds for any number [n] of successive invocations. *)
Theorem C3_up_to_date_record_triggers_no_deploy_call n h req :
  forallb servesUpToDate
    (snd (Reconcile_times emptyValues json_Unmarshal r n req h)) = true ->
  filter isDeployCall
    (snd (Reconcile_times emptyValues json_Unmarshal r n req h)) = [].
Proof.
  revert h. induction n as [|n IH]; intros h; [reflexivity|].
  rewrite Reconcile_times_S, forallb_app, filter_app.
  intros [H1 H2]%andb_true_iff.
  now rewrite (Reconcile_up_to_date_no_deploy req h H1), (IH _ H2).
Qed.

(** C4. Finalizer present, no deletion marker, the values decode and no
    Helm call of the invocation returns an error: the last call is the
    status write, preceded by the three clock readings of the success tail;
    the object written has phase Ready, deployedVersion equal to the spec's
    version, observedGeneration equal to the generation, lastDeployedAt
    equal to the first of those clock readings, a Ready condition with
    status True and a Progressing condition with status False. *)
Theorem C4_success_writes_ready_status h req release values :
  Get (Client_ r) h req = inl release ->
  metav1.IsZero (DeletionTimestamp release) = true ->
  ContainsFinalizer release finalizerName = true ->
  parseValues emptyValues json_Unmarshal release = (values, None) ->
  forallb helmCallSucceeded (snd (run_Reconcile req h)) = true ->
  exists pre now t1 t2 written uerr,
    snd (run_Reconcile req h) =
      pre ++ [EvNow now; EvNow t1; EvNow t2; EvStatusUpdate written uerr]
    /\ Phase_ (Status written) = PhaseReady
    /\ DeployedVersion (Status written) = Version (Spec release)
    /\ ObservedGeneration (Status written) = Generation release
    /\ LastDeployedAt (Status written) = Some now
    /\ (exists c,
           findCondition (Conditions (Status written)) "Ready" = Some c
           /\ metav1.Status c = metav1.ConditionTrue)
    /\ (exists c,
           findCondition (Conditions (Status written)) "Progressing" = Some c
           /\ metav1.Status c = metav1.ConditionFalse).
Proof.
  intros Hget Hdel Hfin Hparse Hok.
  destruct (Reconcile_managed h req release Hget Hdel Hfin)
    as (obj & res & tr & E & N).
  rewrite E in Hok |- *. cbn [snd] in Hok |- *.
  inversion N; subst; cbn in Hok; try discriminate; try congruence.
  - eexists [_; _; _; _], _, _, _, _, _. split; [reflexivity|].
    exact (conj eq_refl (conj eq_refl (conj eq_refl (conj eq_refl
             (readyObject_conditions _ _ _ _))))).
  - eexists [_; _; _; _], _, _, _, _, _. split; [reflexivity|].
    exact (conj eq_refl (conj eq_refl (conj eq_refl (conj eq_refl
             (readyObject_conditions _ _ _ _))))).
  - eexists [_; _], _, _, _, _, _. split; [reflexivity|].
    exact (conj eq_refl (conj eq_refl (conj eq_refl (conj eq_refl
             (readyObject_conditions _ _ _ _))))).
Qed.

(** C5. A record with a deletion marker and the finalizer: the invocation
    sets phase Uninstalling and calls [Uninstall] once.  If that call
    returns an error, the error comes back with a retry after
    [requeueOnFailure] (30 seconds), the status written has phase Failed,
    the record still carries the finalizer and no [Update] is issued.  If
    it succeeds, the last call is an [Update] of the record with the
    finalizer removed. *)
Theorem C5_finalizer_blocks_deletion_on_failure h req release :
  Get (Client_ r) h req = inl release ->
  metav1.IsZero (DeletionTimestamp release) = false ->
  ContainsFinalizer release finalizerName = true ->
  let uninstalling := withPhase release PhaseUninstalling in
  (exists e1 err t e2,
      run_Reconcile req h =
        ({| ctrl.Requeue := false; ctrl.RequeueAfter := requeueOnFailure |},
         Some err,
         [EvGet req (inl release);
          EvStatusUpdate uninstalling e1;
          EvUninstall (effectiveReleaseName release)
            (TargetNamespace (Spec release)) (Some err);
          EvNow t;
          EvStatusUpdate (failedObject uninstalling err t) e2])
      /\ requeueOnFailure = (30 * 1000000000)%Z
      /\ Phase_ (Status (failedObject uninstalling err t)) = PhaseFailed
      /\ ContainsFinalizer (failedObject uninstalling err t) finalizerName
         = true
      /\ filter isUpdate (snd (run_Reconcile req h)) = [])
  \/
  (exists e1 perr,
      run_Reconcile req h =
        (ctrl.Result_zero,
         option_map (wrapError "removing finalizer: ") perr,
         [EvGet req (inl release);
          EvStatusUpdate uninstalling e1;
          EvUninstall (effectiveReleaseName release)
            (TargetNamespace (Spec release)) None;
          EvUpdate (RemoveFinalizer uninstalling finalizerName) perr])
      /\ ContainsFinalizer (RemoveFinalizer uninstalling finalizerName)
           finalizerName = false).
Proof.
  intros Hget Hdel Hfin uninstalling.
  destruct (Reconcile_deleting h req release Hget Hdel)
    as (obj & res & tr & E & D).
  rewrite E.
  inversion D; subst; try congruence.
  - left. exists e1, err, t, e2. repeat split. exact Hfin.
  - right. exists e1, perr. split; [reflexivity|].
    apply ContainsFinalizer_RemoveFinalizer.
Qed.

(** C6. [setCondition] on a record and a new condition, when the clock
    reads [now]: if the entry found for the condition's type has the same
    status value, the resulting entry is the new condition (its reason,
    message and observed generation) with the prior entry's
    last-transition time; if the entry found has another status value, or
    there is no entry of that type, the resulting entry is the new
    condition with [now] as its last-transition time. *)
Theorem C6_setCondition_keeps_or_refreshes_transition_time
  release condition h :
  let now := Now r h in
  let before :=
    findCondition (Conditions (Status release)) (metav1.Type_ condition) in
  let after :=
    findCondition
      (Conditions (Status (fst (setCondition r release condition h))))
      (metav1.Type_ condition) in
  (forall c,
      before = Some c -> metav1.Status c = metav1.Status condition ->
      after = Some (metav1.withLastTransitionTime condition
                      (metav1.LastTransitionTime c)))
  /\ (forall c,
         before = Some c -> metav1.Status c <> metav1.Status condition ->
         after = Some (metav1.withLastTransitionTime condition now))
  /\ (before = None ->
      after = Some (metav1.withLastTransitionTime condition now)).
Proof.
  intros now before after. subst after.
  rewrite setCondition_run.
  cbn [fst Status Conditions withConditions withStatus].
  rewrite findCondition_setCondition_stamped. fold before. fold now.
  repeat split.
  - intros c Hb Hs. rewrite Hb.
    apply String.eqb_eq in Hs. now rewrite Hs.
  - intros c Hb Hs. rewrite Hb.
    apply String.eqb_neq in Hs. now rewrite Hs.
  - intros Hb. now rewrite Hb.
Qed.

(** C7 (amended). Finalizer present, no deletion marker, and the values
    payload fails to decode: the invocation goes through the failure
    handler (one clock reading, one status write of the object with phase
    Failed), makes no call on the Helm client, and returns the decode error
    wrapped as "parsing values: ..." with the empty result: its
    [RequeueAfter] is zero, not [requeueOnFailure]. *)
Theorem C7_decode_failure_returns_empty_result h req release values err :
  Get (Client_ r) h req = inl release ->
  metav1.IsZero (DeletionTimestamp release) = true ->
  ContainsFinalizer release finalizerName = true ->
  parseValues emptyValues json_Unmarshal release = (values, Some err) ->
  let werr := wrapError "parsing values: " err in
  exists t e,
    run_Reconcile req h =
      (ctrl.Result_zero, Some werr,
       [EvGet req (inl release);
        EvNow t; EvStatusUpdate (failedObject release werr t) e])
    /\ Phase_ (Status (failedObject release werr t)) = PhaseFailed
    /\ filter isHelmCall (snd (run_Reconcile req h)) = []
    /\ ctrl.RequeueAfter (fst (fst (run_Reconcile req h))) = 0%Z
    /\ ctrl.RequeueAfter (fst (fst (run_Reconcile req h))) <> requeueOnFailure.
Proof.
  intros Hget Hdel Hfin Hparse werr.
  destruct (Reconcile_managed h req release Hget Hdel Hfin)
    as (obj & res & tr & E & N).
  rewrite E.
  inversion N; subst; try congruence.
  assert (err0 = err) by congruence. subst err0.
  exists t, e. repeat split. discriminate.
Qed.

(** C8 (amended). [setFailedStatus] on any record and error: it reads the
    clock once and issues one status write; the object written, which is
    also the caller's copy afterwards, has phase Failed and a Ready
    condition with status False, reason "ReconcileError" and message equal
    to the error's description; the error handed in is returned whatever
    the status write answers. *)
Theorem C8_setFailedStatus_records_failure_and_returns_error
  release err h :
  let t := Now r h in
  let obj := failedObject release err t in
  setFailedStatus r release err h =
    ((obj, err),
     [EvNow t;
      EvStatusUpdate obj (StatusUpdate (Client_ r) (h ++ [EvNow t]) obj)])
  /\ Phase_ (Status obj) = PhaseFailed
  /\ exists c,
       findCondition (Conditions (Status obj)) "Ready" = Some c
       /\ metav1.Status c = metav1.ConditionFalse
       /\ metav1.Reason c = "ReconcileError"
       /\ metav1.Message c = Error err.
Proof.
  intros t obj. split; [apply setFailedStatus_eq|]. split; [reflexivity|].
  destruct (failedObject_condition release err t) as (c & F & S & Rn & Ms & _).
  now exists c.
Qed.

(** C9. Every object handed to [Status().Update] by an invocation
    satisfies: phase Ready implies a Ready condition with status True and a
    Progressing condition with status False.  The failure handler only
    writes phase Failed, and the deletion path only writes phase
    Uninstalling or Failed. *)
Theorem C9_written_status_ready_implies_conditions h req :
  Forall readyImpliesConditions (statusWrites (snd (run_Reconcile req h)))
  /\ (forall release err h',
         Forall (fun o => Phase_ (Status o) = PhaseFailed)
           (statusWrites (snd (setFailedStatus r release err h'))))
  /\ (forall release h',
         Forall (fun o => Phase_ (Status o) = PhaseUninstalling
                          \/ Phase_ (Status o) = PhaseFailed)
           (statusWrites (snd (reconcileDelete r release h')))).
Proof.
  split; [|split].
  - pose proof (Reconcile_run req h) as R.
    destruct (run_Reconcile req h) as [res tr]. cbn [snd].
    inversion R as [err Hg | release obj res' tr' Hdel D Hg
                    | release uerr Hdel Hfin Hg
                    | release obj res' tr' Hdel Hfin N Hg]; subst;
      cbn [statusWrites].
    + constructor.
    + inversion D; subst;
        unfold uninstallCall; cbn [statusWrites];
        repeat (apply Forall_cons || apply Forall_nil);
        apply not_ready_invariant; discriminate.
    + constructor.
    + inversion N; subst;
        unfold existsCall, installCall, upgradeCall; cbn [statusWrites];
        repeat (apply Forall_cons || apply Forall_nil);
        first [ apply readyObject_invariant
              | apply not_ready_invariant; discriminate ].
  - intros release err h'. rewrite setFailedStatus_eq. cbn [snd statusWrites].
    repeat (apply Forall_cons || apply Forall_nil). reflexivity.
  - intros release h'.
    pose proof (reconcileDelete_run release h') as D.
    destruct (reconcileDelete r release h') as [[obj res] tr]. cbn [snd].
    inversion D; subst; unfold uninstallCall; cbn [statusWrites];
      repeat (apply Forall_cons || apply Forall_nil);
      (now left) || (now right).
Qed.

(** Over a record whose condition types are pairwise distinct, every object
    handed to [Status().Update] has pairwise distinct condition types
    again, and with phase Ready all its Ready entries have status True and
    all its Progressing entries status False: the lookup of C9 finds the
    only entry there is. *)
Lemma written_status_uniform_over_unique_types h req release :
  Get (Client_ r) h req = inl release ->
  NoDup (conditionTypes (Conditions (Status release))) ->
  Forall (fun o => NoDup (conditionTypes (Conditions (Status o)))
                   /\ readyImpliesAllConditions o)
    (statusWrites (snd (run_Reconcile req h))).
Proof.
  intros Hget Hnd.
  assert (Hfail : forall o err t,
             NoDup (conditionTypes (Conditions (Status o))) ->
             NoDup (conditionTypes (Conditions (Status (failedObject o err t))))
             /\ readyImpliesAllConditions (failedObject o err t)).
  { intros o err t Ho. split.
    - cbn [failedObject withConditions withStatus Status Conditions].
      now apply setCondition_range_unique.
    - intros Hp. discriminate Hp. }
  assert (Hphase : forall p,
             p <> PhaseReady ->
             NoDup (conditionTypes (Conditions (Status (withPhase release p))))
             /\ readyImpliesAllConditions (withPhase release p)).
  { intros p Hp. split; [exact Hnd|]. intros Hr. contradiction. }
  assert (Hready : forall o now t1 t2,
             NoDup (conditionTypes (Conditions (Status o))) ->
             NoDup (conditionTypes
                      (Conditions (Status (readyObject o now t1 t2))))
             /\ readyImpliesAllConditions (readyObject o now t1 t2)).
  { intros o now t1 t2 Ho. split.
    - now apply readyObject_unique.
    - now apply readyObject_all_conditions. }
  destruct (run_Reconcile req h) as [res tr] eqn:E.
  pose proof (Reconcile_run_of h req _ _ Hget E) as R. cbn [snd].
  inversion R as [ | release' obj res' tr' Hdel D
                   | release' uerr Hdel Hfin
                   | release' obj res' tr' Hdel Hfin N]; subst;
    cbn [statusWrites].
  - inversion D; subst; unfold uninstallCall; cbn [statusWrites];
      repeat (apply Forall_cons || apply Forall_nil);
      first [ apply Hfail; exact Hnd | apply Hphase; discriminate ].
  - constructor.
  - inversion N; subst;
      unfold existsCall, installCall, upgradeCall; cbn [statusWrites];
      repeat (apply Forall_cons || apply Forall_nil);
      first [ apply Hfail; exact Hnd | apply Hready; exact Hnd
            | apply Hphase; discriminate ].
Qed.

(** C10. A record with a deletion marker and the finalizer, whatever its
    values field holds ([raw]) and whatever the decoder would answer: the
    invocation is the same under any decoder; its only Helm call is one
    [Uninstall], with the release name and target namespace of the record;
    and when that call succeeds the next and last call is the [Update] of
    the record with the finalizer removed. *)
Theorem C10_deletion_never_decodes_values h req release raw :
  Get (Client_ r) h req = inl (withSpecValues release raw) ->
  metav1.IsZero (DeletionTimestamp release) = false ->
  ContainsFinalizer release finalizerName = true ->
  let served := withSpecValues release raw in
  let uninstalling := withPhase served PhaseUninstalling in
  (forall (emptyValues' : ValuesMap)
          (json_Unmarshal' : list byte -> ValuesMap -> ValuesMap * option error),
      Reconcile emptyValues' json_Unmarshal' r req h = run_Reconcile req h)
  /\ exists e1 uerr,
       firstn 3 (snd (run_Reconcile req h)) =
         [EvGet req (inl served);
          EvStatusUpdate uninstalling e1;
          EvUninstall (effectiveReleaseName release)
            (TargetNamespace (Spec release)) uerr]
       /\ filter isHelmCall (snd (run_Reconcile req h)) =
          [EvUninstall (effectiveReleaseName release)
             (TargetNamespace (Spec release)) uerr]
       /\ (uerr = None ->
           exists perr,
             skipn 3 (snd (run_Reconcile req h)) =
               [EvUpdate (RemoveFinalizer uninstalling finalizerName) perr]
             /\ ContainsFinalizer (RemoveFinalizer uninstalling finalizerName)
                  finalizerName = false
             /\ fst (run_Reconcile req h) =
                (ctrl.Result_zero,
                 option_map (wrapError "removing finalizer: ") perr)).
Proof.
  intros Hget Hdel Hfin served uninstalling. split.
  - intros emptyValues' json_Unmarshal'.
    unfold Reconcile, bind, r_Get. cbn [fst snd].
    rewrite Hget.
    change (DeletionTimestamp (withSpecValues release raw))
      with (DeletionTimestamp release).
    rewrite Hdel. reflexivity.
  - destruct (Reconcile_deleting h req served Hget Hdel)
      as (obj & res & tr & E & D).
    rewrite E. cbn [fst snd].
    inversion D; subst.
    + change (ContainsFinalizer served finalizerName)
        with (ContainsFinalizer release finalizerName) in *. congruence.
    + exists e1, (Some err). repeat split. discriminate.
    + exists e1, None. repeat split. intros _. exists perr.
      repeat split. apply ContainsFinalizer_RemoveFinalizer.
Qed.

(** ** Further behaviour of the reconciler *)

Lemma Reconcile_fetch_failed h req err :
  Get (Client_ r) h req = inr err ->
  run_Reconcile req h =
  (ctrl.Result_zero, IgnoreNotFound err, [EvGet req (inr err)]).
Proof.
  intros Hget.
  destruct (run_Reconcile req h) as [res0 tr0] eqn:E.
  pose proof (Reconcile_run_of h req _ _ Hget E) as R.
  now inversion R; subst.
Qed.

(** X1. When the fetch fails, the invocation makes no other call and sets
    no retry interval; a not-found error is swallowed (the record vanished
    between notification and fetch), any other error is returned as is. *)
Theorem X1_fetch_error_ends_invocation h req err :
  Get (Client_ r) h req = inr err ->
  snd (run_Reconcile req h) = [EvGet req (inr err)]
  /\ fst (fst (run_Reconcile req h)) = ctrl.Result_zero
  /\ (IsNotFound err = true -> snd (fst (run_Reconcile req h)) = None)
  /\ (IsNotFound err = false -> snd (fst (run_Reconcile req h)) = Some err).
Proof.
  intros Hget. rewrite (Reconcile_fetch_failed h req err Hget).
  cbn [fst snd]. unfold IgnoreNotFound.
  repeat split; intros ->; reflexivity.
Qed.

(** X2. A record with a deletion marker but without the finalizer: the
    invocation does nothing after the fetch (no status write, no Helm call,
    no update) and reports success. *)
Theorem X2_deletion_without_finalizer_is_noop h req release :
  Get (Client_ r) h req = inl release ->
  metav1.IsZero (DeletionTimestamp release) = false ->
  ContainsFinalizer release finalizerName = false ->
  run_Reconcile req h =
  (ctrl.Result_zero, None, [EvGet req (inl release)]).
Proof.
  intros Hget Hdel Hfin.
  destruct (Reconcile_deleting h req release Hget Hdel)
    as (obj & res & tr & E & D).
  rewrite E. inversion D; subst; congruence.
Qed.

(** X3. Finalizer present, no deletion marker, and the existence check of
    this invocation answered "does not exist": the values decoded (the
    record has none and the map is the empty one, or the decoder filled
    the empty map from the raw payload without error), the phase
    Installing is written first, and [Install] is the one deploying call,
    made once, with the spec's release name if that is not empty and the
    record's name otherwise, the chart, repo, version and target namespace
    of the spec, and the decoded map.  [Upgrade] is not called, whatever
    the generations are: a release that is gone is installed again even
    when observedGeneration equals generation. *)
Theorem X3_absent_release_is_installed_once h req release :
  Get (Client_ r) h req = inl release ->
  metav1.IsZero (DeletionTimestamp release) = true ->
  ContainsFinalizer release finalizerName = true ->
  existsb existsAnsweredFalse (snd (run_Reconcile req h)) = true ->
  exists values ierr,
    match Values (Spec release) with
    | None => values = emptyValues
    | Some raw => json_Unmarshal raw emptyValues = (values, None)
    end
    /\ filter isDeployCall (snd (run_Reconcile req h)) =
       [EvInstall
          (if String.eqb (ReleaseName (Spec release)) "" then Name release
           else ReleaseName (Spec release))
          (Chart (Spec release)) (RepoURL (Spec release))
          (Version (Spec release)) (TargetNamespace (Spec release))
          values ierr]
    /\ exists first,
         hd_error (statusWrites (snd (run_Reconcile req h))) = Some first
         /\ Phase_ (Status first) = "Installing"
         /\ first = withPhase release PhaseInstalling.
Proof.
  intros Hget Hdel Hfin Hex.
  destruct (Reconcile_managed h req release Hget Hdel Hfin)
    as (obj & res & tr & E & N).
  rewrite E in Hex |- *. cbn [snd] in Hex |- *.
  rewrite <- (effectiveReleaseName_eq release).
  inversion N; subst; cbn in Hex; try discriminate.
  - destruct b; discriminate.
  - exists values, (Some err).
    split; [now apply parseValues_decoded|]. split; [reflexivity|].
    eexists. repeat split.
  - exists values, None.
    split; [now apply parseValues_decoded|]. split; [reflexivity|].
    eexists. repeat split.
Qed.

(** Every path of an invocation, one goal each. *)
Ltac run_cases req h :=
  let R := fresh "R" in
  pose proof (Reconcile_run req h) as R;
  destruct (run_Reconcile req h) as [? ?];
  inversion R; subst; clear R;
  try match goal with
      | D : DeleteRun _ _ |- _ => inversion D; subst; clear D
      end;
  try match goal with
      | N : NormalRun _ _ _ |- _ => inversion N; subst; clear N
      end.

(** X4. Whenever a Helm call of an invocation returns an error (existence
    check, install, upgrade or uninstall), that call is the last Helm call
    made and the only one that failed; it is followed by one clock reading
    and one status write of an object with phase Failed and a Ready
    condition with status False whose message is the error's description;
    the invocation returns that very error with a retry after
    [requeueOnFailure]. *)
Theorem X4_helm_failure_ends_invocation_with_failed_status h req :
  existsb (fun e => negb (helmCallSucceeded e)) (snd (run_Reconcile req h))
    = true ->
  exists pre call err t obj e,
    snd (run_Reconcile req h) = pre ++ [call; EvNow t; EvStatusUpdate obj e]
    /\ helmCallError call = Some err
    /\ forallb helmCallSucceeded pre = true
    /\ fst (run_Reconcile req h) =
       ({| ctrl.Requeue := false; ctrl.RequeueAfter := requeueOnFailure |},
        Some err)
    /\ Phase_ (Status obj) = PhaseFailed
    /\ exists c,
         findCondition (Conditions (Status obj)) "Ready" = Some c
         /\ metav1.Status c = metav1.ConditionFalse
         /\ metav1.Message c = Error err.
Proof.
  run_cases req h; cbn; try discriminate; intros _;
    first [ eexists [_], _, _, _, _, _; split; [reflexivity|]
          | eexists [_; _], _, _, _, _, _; split; [reflexivity|]
          | eexists [_; _; _], _, _, _, _, _; split; [reflexivity|] ];
    (split; [reflexivity|]); (split; [reflexivity|]);
    (split; [reflexivity|]); (split; [reflexivity|]);
    match goal with
    | |- context [failedObject ?o ?err ?t] =>
        destruct (failedObject_condition o err t) as (c & F & S & _ & Ms & _);
        exists c; repeat split; assumption
    end.
Qed.

(** X5. Finalizer present, no deletion marker, the values decode and no
    Helm call fails: the invocation ends with a status write, and what it
    returns is decided by that write alone.  If the store accepts it the
    result is empty with a nil error; if the store rejects it the error
    comes back wrapped as "updating status: ..." with the empty result (no
    retry interval).  The answers to the earlier, interim status writes
    play no part. *)
Theorem X5_only_the_final_status_write_can_fail_a_deployment
  h req release values :
  Get (Client_ r) h req = inl release ->
  metav1.IsZero (DeletionTimestamp release) = true ->
  ContainsFinalizer release finalizerName = true ->
  parseValues emptyValues json_Unmarshal release = (values, None) ->
  forallb helmCallSucceeded (snd (run_Reconcile req h)) = true ->
  exists pre written uerr,
    snd (run_Reconcile req h) = pre ++ [EvStatusUpdate written uerr]
    /\ fst (run_Reconcile req h) =
       (ctrl.Result_zero, option_map (wrapError "updating status: ") uerr).
Proof.
  intros Hget Hdel Hfin Hparse Hok.
  destruct (Reconcile_managed h req release Hget Hdel Hfin)
    as (obj & res & tr & E & N).
  rewrite E in Hok |- *. cbn [fst snd] in Hok |- *.
  inversion N; subst; cbn in Hok; try discriminate; try congruence.
  - eexists [_; _; _; _; _; _; _], _, _. split; reflexivity.
  - eexists [_; _; _; _; _; _; _], _, _. split; reflexivity.
  - eexists [_; _; _; _; _], _, _. split; reflexivity.
Qed.

(** X6. What an invocation can return: the result is either empty or a
    retry after [requeueOnFailure], never with the [Requeue] flag; a nil
    error always comes with the empty result; and the retry interval is
    set exactly when a Helm call failed. *)
Theorem X6_result_is_empty_or_fixed_retry h req :
  (fst (fst (run_Reconcile req h)) = ctrl.Result_zero
   \/ fst (fst (run_Reconcile req h)) =
      {| ctrl.Requeue := false; ctrl.RequeueAfter := requeueOnFailure |})
  /\ ctrl.Requeue (fst (fst (run_Reconcile req h))) = false
  /\ (snd (fst (run_Reconcile req h)) = None ->
      fst (fst (run_Reconcile req h)) = ctrl.Result_zero)
  /\ (ctrl.RequeueAfter (fst (fst (run_Reconcile req h))) = requeueOnFailure
      <-> existsb (fun e => negb (helmCallSucceeded e))
            (snd (run_Reconcile req h)) = true).
Proof.
  run_cases req h; cbn [fst snd];
    (split; [(now left) || (now right)|]);
    (split; [reflexivity|]);
    (split; [try reflexivity; intros; discriminate|]);
    cbn; split; intros; try reflexivity; try discriminate.
Qed.

(** X7. The calls of one invocation: at most one existence check, at most
    one deploying call (install, upgrade or uninstall, never two of them),
    at most one [Update]; and an install or upgrade is only made after an
    existence check that returned without error. *)
Theorem X7_at_most_one_deploy_call_per_invocation h req :
  (length (filter isReleaseExists (snd (run_Reconcile req h))) <= 1)%nat
  /\ (length (filter isDeployCall (snd (run_Reconcile req h))) <= 1)%nat
  /\ (length (filter isUpdate (snd (run_Reconcile req h))) <= 1)%nat
  /\ (existsb (fun e => isInstall e || isUpgrade e)
        (snd (run_Reconcile req h)) = true ->
      existsb (fun e => existsAnsweredTrue e || existsAnsweredFalse e)
        (snd (run_Reconcile req h)) = true).
Proof.
  run_cases req h; cbn; repeat split; intros; try lia; try discriminate;
    reflexivity.
Qed.

(** X8. The reconciler never edits what it does not own.  Every object it
    hands to [Status().Update] has the name, namespace, generation,
    deletion marker, finalizers and spec of the record it fetched, and the
    Helm revision of its status is left as fetched; every object it hands
    to [Update] has the fetched name, namespace, generation, deletion
    marker and spec. *)
Theorem X8_writes_keep_spec_and_metadata h req release :
  Get (Client_ r) h req = inl release ->
  Forall (fun o => sameButStatus o release
                   /\ HelmRevision (Status o) = HelmRevision (Status release))
    (statusWrites (snd (run_Reconcile req h)))
  /\ Forall (fun o => Name o = Name release
                      /\ Namespace o = Namespace release
                      /\ Generation o = Generation release
                      /\ DeletionTimestamp o = DeletionTimestamp release
                      /\ Spec o = Spec release)
       (updateWrites (snd (run_Reconcile req h))).
Proof.
  intros Hget.
  destruct (run_Reconcile req h) as [res0 tr0] eqn:E.
  pose proof (Reconcile_run_of h req _ _ Hget E) as R. cbn [snd].
  inversion R; subst; clear R;
    try match goal with
        | D : DeleteRun _ _ |- _ => inversion D; subst; clear D
        end;
    try match goal with
        | N : NormalRun _ _ _ |- _ => inversion N; subst; clear N
        end;
    unfold existsCall, installCall, upgradeCall, uninstallCall;
    cbn [statusWrites updateWrites];
    (split; repeat (apply Forall_cons || apply Forall_nil));
    try (unfold sameButStatus; cbn; repeat split; reflexivity).
  unfold AddFinalizer.
  destruct (ContainsFinalizer release finalizerName); cbn; repeat split.
Qed.

(** *** More on setCondition *)

Lemma setCondition_range_types conds condition :
  conditionTypes (setCondition_range conds condition) =
  conditionTypes conds
  ++ match findCondition conds (metav1.Type_ condition) with
     | Some _ => []
     | None => [metav1.Type_ condition]
     end.
Proof.
  induction conds as [|c rest IH];
    cbn [setCondition_range conditionTypes map findCondition app];
    [reflexivity|].
  destruct (String.eqb (metav1.Type_ c) (metav1.Type_ condition)) eqn:E.
  - apply String.eqb_eq in E. rewrite app_nil_r.
    destruct (String.eqb (metav1.Status c) (metav1.Status condition));
      cbn [map metav1.withLastTransitionTime metav1.Type_];
      now rewrite E.
  - cbn [map]. f_equal. exact IH.
Qed.

Lemma setCondition_range_fixed conds condition t t' :
  findCondition conds (metav1.Type_ condition) =
    Some (metav1.withLastTransitionTime condition t) ->
  setCondition_range conds (metav1.withLastTransitionTime condition t') = conds.
Proof.
  induction conds as [|c rest IH]; cbn [findCondition setCondition_range];
    [discriminate|].
  cbn [metav1.withLastTransitionTime metav1.Type_ metav1.Status
       metav1.LastTransitionTime].
  destruct (String.eqb (metav1.Type_ c) (metav1.Type_ condition)) eqn:E.
  - intros [= ->].
    cbn [metav1.withLastTransitionTime metav1.Status metav1.LastTransitionTime].
    now rewrite String.eqb_refl.
  - intros H. f_equal. exact (IH H).
Qed.

(** X9. [setCondition] touches one entry only.  The list keeps its order;
    it grows by one entry, at the end, exactly when no entry of the
    condition's type was there; a lookup of any other type finds what it
    found before; and nothing but the condition list of the record
    changes. *)
Theorem X9_setCondition_leaves_other_entries_alone release condition h :
  let after := fst (setCondition r release condition h) in
  conditionTypes (Conditions (Status after)) =
    conditionTypes (Conditions (Status release))
    ++ match findCondition (Conditions (Status release))
               (metav1.Type_ condition) with
       | Some _ => []
       | None => [metav1.Type_ condition]
       end
  /\ (forall ty,
         ty <> metav1.Type_ condition ->
         findCondition (Conditions (Status after)) ty =
         findCondition (Conditions (Status release)) ty)
  /\ after = withConditions release (Conditions (Status after)).
Proof.
  intros after. subst after. rewrite setCondition_run.
  cbn [fst Status Conditions withConditions withStatus].
  split; [|split].
  - exact (setCondition_range_types _
             (metav1.withLastTransitionTime condition (Now r h))).
  - intros ty Hne.
    apply findCondition_setCondition_range_other.
    cbn [metav1.withLastTransitionTime metav1.Type_].
    apply String.eqb_neq. congruence.
  - reflexivity.
Qed.

(** X10. Upserting the same condition again changes nothing: after
    [setCondition] has stored a condition, a second [setCondition] with the
    same type, status, reason, message and observed generation, made at any
    later clock reading, leaves the record exactly as it was (the stored
    transition time included). *)
Theorem X10_setCondition_twice_is_setCondition_once
  release condition h h' :
  let once := fst (setCondition r release condition h) in
  fst (setCondition r once condition h') = once.
Proof.
  intros once. subst once. rewrite !setCondition_run.
  cbn [fst Status Conditions withConditions withStatus].
  pose proof (findCondition_setCondition_stamped
                (Conditions (Status release)) condition (Now r h)) as F.
  rewrite (setCondition_range_fixed _ condition _ _ F).
  reflexivity.
Qed.

(** *** One invocation after another *)

Lemma readyObject_conditions_stable release now t1 t2 now' t1' t2' :
  Conditions (Status (readyObject (readyObject release now t1 t2)
                        now' t1' t2')) =
  Conditions (Status (readyObject release now t1 t2)).
Proof.
  cbn [readyObject withConditions withDeployed withStatus Status Conditions].
  set (cs1 := setCondition_range (Conditions (Status release))
                (readyCondition release t1)).
  set (cs2 := setCondition_range cs1 (progressingCondition release t2)).
  assert (F1 : exists t,
             findCondition cs2 "Ready" =
             Some (metav1.withLastTransitionTime (readyCondition release t1) t)).
  { eexists. subst cs2.
    rewrite findCondition_setCondition_range_other by reflexivity.
    subst cs1.
    exact (findCondition_setCondition_range_same _ (readyCondition release t1)). }
  assert (F2 : exists t,
             findCondition cs2 "Progressing" =
             Some (metav1.withLastTransitionTime
                     (progressingCondition release t2) t)).
  { eexists. subst cs2.
    exact (findCondition_setCondition_range_same _
             (progressingCondition release t2)). }
  destruct F1 as [u1 F1]. destruct F2 as [u2 F2].
  pose proof (setCondition_range_fixed cs2 (readyCondition release t1)
                u1 t1' F1) as E1.
  pose proof (setCondition_range_fixed cs2 (progressingCondition release t2)
                u2 t2' F2) as E2.
  refine (eq_trans _ E2).
  refine (f_equal2 (@setCondition_range) _ _); [exact E1 | reflexivity].
Qed.

(** X11. A settled record stays settled.  After an invocation on a record
    with the finalizer and no deletion marker in which the values decoded
    and no Helm call failed, the last object written has observedGeneration
    equal to generation (and still the finalizer and no deletion marker).
    When a later invocation is served that object and its existence check
    answers true, it makes no install, upgrade or uninstall, and the object
    it writes has the same conditions, transition times included, the same
    deployed version, observed generation and phase Ready. *)
Theorem X11_settled_record_stays_settled h req release values :
  Get (Client_ r) h req = inl release ->
  metav1.IsZero (DeletionTimestamp release) = true ->
  ContainsFinalizer release finalizerName = true ->
  parseValues emptyValues json_Unmarshal release = (values, None) ->
  forallb helmCallSucceeded (snd (run_Reconcile req h)) = true ->
  let written := last (statusWrites (snd (run_Reconcile req h))) release in
  upToDate written = true
  /\ forall h',
       Get (Client_ r) h' req = inl written ->
       existsb existsAnsweredTrue (snd (run_Reconcile req h')) = true ->
       let written' :=
         last (statusWrites (snd (run_Reconcile req h'))) written in
       filter isDeployCall (snd (run_Reconcile req h')) = []
       /\ Conditions (Status written') = Conditions (Status written)
       /\ Phase_ (Status written') = PhaseReady
       /\ DeployedVersion (Status written') = DeployedVersion (Status written)
       /\ ObservedGeneration (Status written')
          = ObservedGeneration (Status written).
Proof.
  intros Hget Hdel Hfin Hparse Hok.
  destruct (Reconcile_managed h req release Hget Hdel Hfin)
    as (obj & res & tr & E & N).
  rewrite E in Hok |- *. cbn [snd] in Hok |- *.
  assert (Hsettled : forall o now t1 t2,
             sameButStatus o release ->
             let written := readyObject o now t1 t2 in
             upToDate written = true
             /\ forall h',
                  Get (Client_ r) h' req = inl written ->
                  existsb existsAnsweredTrue (snd (run_Reconcile req h'))
                    = true ->
                  let written' :=
                    last (statusWrites (snd (run_Reconcile req h'))) written in
                  filter isDeployCall (snd (run_Reconcile req h')) = []
                  /\ Conditions (Status written') = Conditions (Status written)
                  /\ Phase_ (Status written') = PhaseReady
                  /\ DeployedVersion (Status written')
                     = DeployedVersion (Status written)
                  /\ ObservedGeneration (Status written')
                     = ObservedGeneration (Status written)).
  { intros o now t1 t2 (_ & _ & _ & Hd & Hf & _) written.
    assert (Hz : metav1.IsZero (DeletionTimestamp written) = true).
    { subst written. cbn. now rewrite Hd. }
    assert (Hc : ContainsFinalizer written finalizerName = true).
    { subst written. unfold ContainsFinalizer. cbn. rewrite Hf. exact Hfin. }
    split.
    - unfold upToDate. rewrite Hz, Hc. subst written. cbn. apply Z.eqb_refl.
    - intros h' Hget' Hex'.
      destruct (Reconcile_managed h' req written Hget' Hz Hc)
        as (obj' & res' & tr' & E' & N').
      rewrite E' in Hex' |- *. cbn [snd] in Hex' |- *.
      inversion N'; subst; cbn in Hex'; try discriminate;
        try (exfalso; match goal with
                      | Hne : _ <> _ |- _ => apply Hne; reflexivity
                      end).
      + destruct b; discriminate.
      + split; [reflexivity|].
        unfold existsCall. cbn [statusWrites last].
        split; [apply readyObject_conditions_stable|].
        repeat split. }
  inversion N; subst; cbn in Hok; try discriminate; try congruence;
    unfold existsCall, installCall, upgradeCall; cbn [statusWrites last];
    apply Hsettled; unfold sameButStatus; cbn; repeat split.
Qed.

(** X12. The finalizer step hands over to the lifecycle step.  When an
    invocation is served the record that the finalizer-attaching
    invocation wrote, it issues no [Update] and ends with a status write
    of an object with phase Ready or Failed, still carrying the finalizer:
    the interim phases Installing and Upgrading are never the last thing
    written. *)
Theorem X12_record_with_finalizer_gets_lifecycle_work h req release :
  metav1.IsZero (DeletionTimestamp release) = true ->
  ContainsFinalizer release finalizerName = false ->
  Get (Client_ r) h req = inl (AddFinalizer release finalizerName) ->
  updateWrites (snd (run_Reconcile req h)) = []
  /\ exists pre obj e,
       snd (run_Reconcile req h) = pre ++ [EvStatusUpdate obj e]
       /\ (Phase_ (Status obj) = PhaseReady
           \/ Phase_ (Status obj) = PhaseFailed)
       /\ Finalizers obj = Finalizers release ++ [finalizerName].
Proof.
  intros Hdel Hfin Hget.
  assert (Hadd : AddFinalizer release finalizerName =
                 withFinalizers release (Finalizers release ++ [finalizerName])).
  { unfold AddFinalizer. now rewrite Hfin. }
  assert (Hc : ContainsFinalizer (AddFinalizer release finalizerName)
                 finalizerName = true)
    by apply ContainsFinalizer_AddFinalizer.
  assert (Hz : metav1.IsZero
                 (DeletionTimestamp (AddFinalizer release finalizerName))
               = true).
  { rewrite Hadd. exact Hdel. }
  destruct (Reconcile_managed h req _ Hget Hz Hc)
    as (obj & res & tr & E & N).
  rewrite E. cbn [snd]. rewrite Hadd in N |- *.
  inversion N; subst;
    unfold existsCall, installCall, upgradeCall; cbn [updateWrites];
    (split; [reflexivity|]);
    first [ eexists [_; _], _, _; split; [reflexivity|]
          | eexists [_; _; _], _, _; split; [reflexivity|]
          | eexists [_; _; _; _], _, _; split; [reflexivity|]
          | eexists [_; _; _; _; _], _, _; split; [reflexivity|]
          | eexists [_; _; _; _; _; _], _, _; split; [reflexivity|]
          | eexists [_; _; _; _; _; _; _], _, _; split; [reflexivity|] ];
    (split; [(now left) || (now right) | reflexivity]).
Qed.

(** X13. Conditions the reconciler does not manage stay where they are.
    In every object handed to [Status().Update] the condition types are
    those of the fetched record, in the same order, followed by at most
    the types Ready and Progressing (each only if it was missing); so a
    list with pairwise distinct types stays one. *)
Theorem X13_status_writes_only_append_ready_and_progressing
  h req release :
  Get (Client_ r) h req = inl release ->
  Forall (fun o =>
            exists added,
              conditionTypes (Conditions (Status o)) =
                conditionTypes (Conditions (Status release)) ++ added
              /\ incl added ["Ready"; "Progressing"]
              /\ (NoDup (conditionTypes (Conditions (Status release))) ->
                  NoDup (conditionTypes (Conditions (Status o)))))
    (statusWrites (snd (run_Reconcile req h))).
Proof.
  intros Hget.
  assert (Hphase : forall p,
             exists added,
               conditionTypes (Conditions (Status (withPhase release p))) =
                 conditionTypes (Conditions (Status release)) ++ added
               /\ incl added ["Ready"; "Progressing"]
               /\ (NoDup (conditionTypes (Conditions (Status release))) ->
                   NoDup (conditionTypes
                            (Conditions (Status (withPhase release p)))))).
  { intros p. exists []. cbn. rewrite app_nil_r.
    repeat split; [intros x []|auto]. }
  assert (Hfail : forall o err t,
             Conditions (Status o) = Conditions (Status release) ->
             exists added,
               conditionTypes (Conditions (Status (failedObject o err t))) =
                 conditionTypes (Conditions (Status release)) ++ added
               /\ incl added ["Ready"; "Progressing"]
               /\ (NoDup (conditionTypes (Conditions (Status release))) ->
                   NoDup (conditionTypes
                            (Conditions (Status (failedObject o err t)))))).
  { intros o err t Ho.
    cbn [failedObject withConditions withStatus Status Conditions].
    rewrite Ho. eexists. split; [apply setCondition_range_types|]. split.
    - cbn [failureCondition metav1.Type_].
      destruct (findCondition _ _); intros x Hx; [destruct Hx|].
      destruct Hx as [<-|[]]. now left.
    - apply setCondition_range_unique. }
  assert (Hready : forall o now t1 t2,
             Conditions (Status o) = Conditions (Status release) ->
             exists added,
               conditionTypes
                 (Conditions (Status (readyObject o now t1 t2))) =
                 conditionTypes (Conditions (Status release)) ++ added
               /\ incl added ["Ready"; "Progressing"]
               /\ (NoDup (conditionTypes (Conditions (Status release))) ->
                   NoDup (conditionTypes
                            (Conditions (Status (readyObject o now t1 t2)))))).
  { intros o now t1 t2 Ho.
    cbn [readyObject withConditions withStatus Status Conditions].
    rewrite Ho. rewrite !setCondition_range_types, <- app_assoc.
    eexists. split; [reflexivity|]. split.
    - cbn [readyCondition progressingCondition metav1.Type_].
      intros x Hx. apply in_app_or in Hx as [Hx|Hx].
      + destruct (findCondition _ "Ready"); [destruct Hx|].
        destruct Hx as [<-|[]]. now left.
      + destruct (findCondition _ "Progressing"); [destruct Hx|].
        destruct Hx as [<-|[]]. right. now left.
    - intros Hnd. rewrite app_assoc, <- !setCondition_range_types.
      now do 2 apply setCondition_range_unique. }
  destruct (run_Reconcile req h) as [res0 tr0] eqn:E.
  pose proof (Reconcile_run_of h req _ _ Hget E) as R. cbn [snd].
  inversion R; subst; clear R;
    try match goal with
        | D : DeleteRun _ _ |- _ => inversion D; subst; clear D
        end;
    try match goal with
        | N : NormalRun _ _ _ |- _ => inversion N; subst; clear N
        end;
    unfold existsCall, installCall, upgradeCall, uninstallCall;
    cbn [statusWrites];
    repeat (apply Forall_cons || apply Forall_nil);
    first [ apply Hphase | apply Hfail; reflexivity
          | apply Hready; reflexivity ].
Qed.

(** ** The Helm client wrapper *)

Lemma error_eqb_eq (a b : error) : error_eqb a b = true <-> a = b.
Proof.
  revert b. induction a as [s | p e IH | s]; intros [s' | p' e' | s'];
    cbn [error_eqb]; try (split; [discriminate | congruence]).
  - rewrite String.eqb_eq. split; congruence.
  - rewrite andb_true_iff, String.eqb_eq, IH.
    split; [intros [-> ->]; reflexivity | intros [= -> ->]; now split].
  - rewrite String.eqb_eq. split; congruence.
Qed.

(** X14. [HelmClient.ReleaseExists] has three outcomes and never reports
    "exists" together with an error.  It answers (true, nil) exactly when
    the configuration initialises and the history lookup succeeds;
    (false, nil) exactly when the configuration initialises and the lookup
    fails with [ErrReleaseNotFound]; and when the configuration fails to
    initialise it answers false with that error, wrapped, whatever the
    cluster holds. *)
Theorem X14_ReleaseExists_outcomes (Chart_ : Type)
  (sdk : HelmSDK (ValuesMap := ValuesMap) Chart_) h releaseName namespace :
  let res := HelmClient_ReleaseExists sdk h releaseName namespace in
  (fst res = true -> snd res = None)
  /\ (res = (true, None) <->
      sdk_Init sdk h namespace = None
      /\ sdk_HistoryRun sdk h namespace releaseName = None)
  /\ (res = (false, None) <->
      sdk_Init sdk h namespace = None
      /\ sdk_HistoryRun sdk h namespace releaseName = Some ErrReleaseNotFound)
  /\ (forall err,
         sdk_Init sdk h namespace = Some err ->
         res = (false,
                Some (wrapError "initialising helm action config: " err))).
Proof.
  intros res. subst res. unfold HelmClient_ReleaseExists, actionConfig.
  destruct (sdk_Init sdk h namespace) as [ierr|].
  - repeat split; try discriminate; try (intros []; discriminate).
    intros err [= ->]. reflexivity.
  - destruct (sdk_HistoryRun sdk h namespace releaseName) as [herr|].
    + destruct (error_eqb herr ErrReleaseNotFound) eqn:Eq.
      * apply error_eqb_eq in Eq. subst herr.
        repeat split; try discriminate; try (intros []; discriminate).
      * repeat split; try discriminate; try (intros []; discriminate).
        intros [_ [= ->]]. discriminate Eq.
    + repeat split; try discriminate; try (intros []; discriminate).
Qed.

(** X15. [HelmClient.Install] and [HelmClient.Upgrade] go through the same
    stages and stop at the first that fails: initialising the
    configuration, locating the chart, loading it, running the action.
    Either returns nil exactly when all four succeed; and when one of the
    first three fails, both return the same error, which names its stage:
    "initialising helm action config: ", "locating chart: " or
    "loading chart: ". *)
Theorem X15_Install_and_Upgrade_stop_at_the_first_failing_stage
  (Chart_ : Type) (sdk : HelmSDK (ValuesMap := ValuesMap) Chart_)
  h releaseName chartName repoURL version namespace values :
  let install := HelmClient_Install sdk h releaseName chartName repoURL
                   version namespace values in
  let upgrade := HelmClient_Upgrade sdk h releaseName chartName repoURL
                   version namespace values in
  (install = None <->
   sdk_Init sdk h namespace = None
   /\ exists chartPath chart,
        sdk_LocateChart sdk h chartName repoURL version = inl chartPath
        /\ sdk_Load sdk h chartPath = inl chart
        /\ sdk_InstallRun sdk h namespace releaseName version repoURL
             chart values = None)
  /\ (upgrade = None <->
      sdk_Init sdk h namespace = None
      /\ exists chartPath chart,
           sdk_LocateChart sdk h chartName repoURL version = inl chartPath
           /\ sdk_Load sdk h chartPath = inl chart
           /\ sdk_UpgradeRun sdk h namespace releaseName version repoURL
                chart values = None)
  /\ (forall err,
         sdk_Init sdk h namespace = Some err ->
         install = Some (wrapError "initialising helm action config: " err)
         /\ upgrade = install)
  /\ (forall err,
         sdk_Init sdk h namespace = None ->
         sdk_LocateChart sdk h chartName repoURL version = inr err ->
         install = Some (wrapError "locating chart: " err)
         /\ upgrade = install)
  /\ (forall chartPath err,
         sdk_Init sdk h namespace = None ->
         sdk_LocateChart sdk h chartName repoURL version = inl chartPath ->
         sdk_Load sdk h chartPath = inr err ->
         install = Some (wrapError "loading chart: " err)
         /\ upgrade = install).
Proof.
  intros install upgrade. subst install upgrade.
  unfold HelmClient_Install, HelmClient_Upgrade, actionConfig, locateAndLoad.
  destruct (sdk_Init sdk h namespace) as [ierr|] eqn:Ei;
    [| destruct (sdk_LocateChart sdk h chartName repoURL version)
         as [chartPath|lerr] eqn:El;
       [ destruct (sdk_Load sdk h chartPath) as [chart|derr] eqn:Ed |] ];
    repeat split; intros;
    repeat match goal with
           | H : exists _, _ |- _ => destruct H
           | H : _ /\ _ |- _ => destruct H
           end;
    try congruence;
    try (exists chartPath, chart; now repeat split).
Qed.

(** X16. The reconciler on top of the real Helm client.  For a record with
    the finalizer and no deletion marker whose values decode: when the
    SDK initialises for the target namespace and its history lookup for
    the effective release name fails with [ErrReleaseNotFound], the
    existence check answers (false, nil) and the invocation goes on to
    call [Install], once; "release not found" is an ordinary answer, not a
    failure. *)
Theorem X16_release_missing_from_the_cluster_is_installed
  (Chart_ : Type) (sdk : HelmSDK (ValuesMap := ValuesMap) Chart_)
  h req release values :
  HelmClient r = NewHelmClient sdk ->
  Get (Client_ r) h req = inl release ->
  metav1.IsZero (DeletionTimestamp release) = true ->
  ContainsFinalizer release finalizerName = true ->
  parseValues emptyValues json_Unmarshal release = (values, None) ->
  (forall h', sdk_Init sdk h' (TargetNamespace (Spec release)) = None) ->
  (forall h',
      sdk_HistoryRun sdk h' (TargetNamespace (Spec release))
        (effectiveReleaseName release) = Some ErrReleaseNotFound) ->
  exists ierr,
    filter isHelmCall (snd (run_Reconcile req h)) =
    [EvReleaseExists (effectiveReleaseName release)
       (TargetNamespace (Spec release)) (false, None);
     EvInstall (effectiveReleaseName release) (Chart (Spec release))
       (RepoURL (Spec release)) (Version (Spec release))
       (TargetNamespace (Spec release)) values ierr].
Proof.
  intros Hcl Hget Hdel Hfin Hparse Hinit Hhist.
  unfold Reconcile, bind, r_Get. cbn [fst snd].
  rewrite Hget, Hdel, Hfin. cbn [negb].
  unfold reconcileNormal. rewrite Hparse.
  unfold bind, r_ReleaseExists, r_Status_Update, r_Install. cbn [fst snd].
  rewrite Hcl. cbn [ReleaseExists NewHelmClient Install].
  unfold HelmClient_ReleaseExists, actionConfig. rewrite Hinit, Hhist.
  cbn [error_eqb ErrReleaseNotFound String.eqb Ascii.eqb Bool.eqb fst snd].
  match goal with
  | |- context [HelmClient_Install sdk ?h' ?a ?b ?c ?d ?e ?f] =>
      destruct (HelmClient_Install sdk h' a b c d e f) as [ierr|]
  end.
  - rewrite setFailedStatus_eq. cbn [fst snd failed ret app].
    eexists. reflexivity.
  - match goal with
    | |- context [reconcileNormal_success r ?o ?h'] =>
        destruct (reconcileNormal_success_run o h')
          as (now & t1 & t2 & uerr & E)
    end.
    rewrite E. cbn [fst snd ret app]. eexists. reflexivity.
Qed.

(** ** The mock Helm client *)

Lemma Reconcile_managed_eq h req release :
  Get (Client_ r) h req = inl release ->
  metav1.IsZero (DeletionTimestamp release) = true ->
  ContainsFinalizer release finalizerName = true ->
  run_Reconcile req h =
  (snd (fst (run_reconcileNormal release (h ++ [EvGet req (inl release)]))),
   EvGet req (inl release)
   :: snd (run_reconcileNormal release (h ++ [EvGet req (inl release)]))).
Proof.
  intros Hget Hdel Hfin.
  unfold Reconcile, bind, r_Get. cbn [fst snd].
  rewrite Hget, Hdel, Hfin. cbn [negb fst snd ret app].
  now rewrite app_nil_r.
Qed.

Lemma reconcileNormal_first_call release h values :
  parseValues emptyValues json_Unmarshal release = (values, None) ->
  hd_error (snd (run_reconcileNormal release h)) =
  Some (EvReleaseExists (effectiveReleaseName release)
          (TargetNamespace (Spec release))
          (ReleaseExists (HelmClient r) h (effectiveReleaseName release)
             (TargetNamespace (Spec release)))).
Proof.
  intros Hparse. unfold reconcileNormal. rewrite Hparse.
  unfold bind, r_ReleaseExists. reflexivity.
Qed.

(** C2. Finalizer present, no deletion marker, observedGeneration
    different from generation, and a Release Manager whose existence check
    for the release answers true.  If the values decode (the record has
    none and the map is the empty one, or the decoder fills the empty map
    from the raw payload without error), the Release Manager calls of the
    invocation are the existence check and then exactly one [Upgrade],
    with the spec's release name if that is not empty and the record's
    name otherwise, the chart, repo, version and target namespace of the
    spec, and the decoded map; [Install] is not called.  If the values do
    not decode, the invocation makes no Release Manager call at all: no
    existence check and no upgrade. *)
Theorem C2_generation_change_upgrades_once h req release :
  Get (Client_ r) h req = inl release ->
  metav1.IsZero (DeletionTimestamp release) = true ->
  ContainsFinalizer release finalizerName = true ->
  ObservedGeneration (Status release) <> Generation release ->
  (forall h',
      ReleaseExists (HelmClient r) h'
        (if String.eqb (ReleaseName (Spec release)) "" then Name release
         else ReleaseName (Spec release))
        (TargetNamespace (Spec release)) = (true, None)) ->
  (forall values,
      match Values (Spec release) with
      | None => values = emptyValues
      | Some raw => json_Unmarshal raw emptyValues = (values, None)
      end ->
      exists uerr,
        filter isHelmCall (snd (run_Reconcile req h)) =
        [EvReleaseExists
           (if String.eqb (ReleaseName (Spec release)) "" then Name release
            else ReleaseName (Spec release))
           (TargetNamespace (Spec release)) (true, None);
         EvUpgrade
           (if String.eqb (ReleaseName (Spec release)) "" then Name release
            else ReleaseName (Spec release))
           (Chart (Spec release)) (RepoURL (Spec release))
           (Version (Spec release)) (TargetNamespace (Spec release))
           values uerr])
  /\ (forall raw values err,
         Values (Spec release) = Some raw ->
         json_Unmarshal raw emptyValues = (values, Some err) ->
         filter isHelmCall (snd (run_Reconcile req h)) = []).
Proof.
  intros Hget Hdel Hfin Hgen Hex.
  rewrite <- (effectiveReleaseName_eq release) in Hex.
  rewrite <- (effectiveReleaseName_eq release).
  rewrite (Reconcile_managed_eq h req release Hget Hdel Hfin). cbn [snd].
  pose proof (reconcileNormal_run release (h ++ [EvGet req (inl release)]))
    as N.
  split.
  - intros values Hparse. apply parseValues_decoded in Hparse.
    pose proof (reconcileNormal_first_call release
                  (h ++ [EvGet req (inl release)]) values Hparse) as F.
    rewrite Hex in F. rewrite Hparse in N.
    destruct (run_reconcileNormal release _) as [[obj res] tr].
    cbn [snd] in F |- *.
    inversion N as [v e0 t e Hp | v b0 e0 t e Hp | v e1 e0 t e2 Hp
                   | v e1 nw t1 t2 ue Hp | v e1 e0 t e2 Hp Hg
                   | v e1 nw t1 t2 ue Hp Hg | v nw t1 t2 ue Hp Hg];
      subst; try discriminate Hp; try contradiction;
      injection Hp as <-;
      unfold existsCall in F; cbn [hd_error] in F; try discriminate F.
    + eexists. reflexivity.
    + eexists. reflexivity.
  - intros raw values err Hv Hd.
    assert (Hparse : parseValues emptyValues json_Unmarshal release
                     = (values, Some err)).
    { unfold parseValues. now rewrite Hv. }
    rewrite Hparse in N.
    destruct (run_reconcileNormal release _) as [[obj res] tr].
    cbn [snd].
    inversion N as [v e0 t e Hp | v b0 e0 t e Hp | v e1 e0 t e2 Hp
                   | v e1 nw t1 t2 ue Hp | v e1 e0 t e2 Hp Hg
                   | v e1 nw t1 t2 ue Hp Hg | v nw t1 t2 ue Hp Hg];
      subst; try discriminate Hp.
    reflexivity.
Qed.

Lemma received_called (m : MockHelmClient) (t : mock.Tracking)
  (tr : list (Event ValuesMap)) :
  mock.InstallCalled (mock.received m t tr)
    = mock.InstallCalled t || existsb isInstall tr
  /\ mock.UpgradeCalled (mock.received m t tr)
     = mock.UpgradeCalled t || existsb isUpgrade tr
  /\ mock.UninstallCalled (mock.received m t tr)
     = mock.UninstallCalled t || existsb isUninstall tr.
Proof.
  revert t. induction tr as [|e tr IH]; intros t.
  - cbn. now rewrite !orb_false_r.
  - destruct e; cbn [mock.received existsb isInstall isUpgrade isUninstall];
      try apply IH;
      match goal with
      | |- context [mock.received m ?t' tr] =>
          destruct (IH t') as (I & U & D); rewrite I, U, D
      end;
      cbn; rewrite ?orb_true_r, ?orb_false_r; repeat split; reflexivity.
Qed.

(** X17. What the mock has recorded after an invocation, when the
    reconciler runs against it.  If the mock's existence check is
    configured to fail, neither [InstallCalled] nor [UpgradeCalled] is
    set; if it answers "exists", [InstallCalled] is not set; if it answers
    "does not exist", [UpgradeCalled] is not set; and [UninstallCalled]
    never comes together with either of the other two. *)
Theorem X17_mock_flags_after_an_invocation (m : MockHelmClient) h req :
  HelmClient r = mockHelmClient m ->
  let t := mock.received m mock.fresh (snd (run_Reconcile req h)) in
  (ReleaseExistsErr m <> None ->
   mock.InstallCalled t = false /\ mock.UpgradeCalled t = false)
  /\ (ReleaseExistsErr m = None -> ReleaseExistsResult m = true ->
      mock.InstallCalled t = false)
  /\ (ReleaseExistsErr m = None -> ReleaseExistsResult m = false ->
      mock.UpgradeCalled t = false)
  /\ (mock.UninstallCalled t = true ->
      mock.InstallCalled t = false /\ mock.UpgradeCalled t = false).
Proof.
  intros Hcl t. subst t.
  destruct (received_called m mock.fresh (snd (run_Reconcile req h)))
    as (I & U & D).
  rewrite I, U, D. cbn [mock.fresh mock.InstallCalled mock.UpgradeCalled
                        mock.UninstallCalled orb].
  destruct (Get (Client_ r) h req) as [release|gerr] eqn:Hget.
  2:{ rewrite (Reconcile_fetch_failed h req gerr Hget).
      cbn. repeat split; intros; discriminate. }
  destruct (metav1.IsZero (DeletionTimestamp release)) eqn:Hdel.
  2:{ destruct (Reconcile_deleting h req release Hget Hdel)
        as (obj & res & tr & E & Dr).
      rewrite E. cbn [snd].
      inversion Dr; subst; cbn; repeat split; intros; discriminate. }
  destruct (ContainsFinalizer release finalizerName) eqn:Hfin.
  2:{ destruct (Reconcile_unmanaged h req release Hget Hdel Hfin) as [u E].
      rewrite E. cbn. repeat split; intros; discriminate. }
  rewrite (Reconcile_managed_eq h req release Hget Hdel Hfin). cbn [snd].
  pose proof (reconcileNormal_run release (h ++ [EvGet req (inl release)]))
    as N.
  destruct (parseValues emptyValues json_Unmarshal release)
    as [values [perr|]] eqn:Hparse.
  - destruct (run_reconcileNormal release _) as [[obj res] tr].
    cbn [snd]. inversion N; subst; try congruence.
    cbn. repeat split; intros; discriminate.
  - pose proof (reconcileNormal_first_call release
                  (h ++ [EvGet req (inl release)]) values Hparse) as F.
    rewrite Hcl in F. cbn [ReleaseExists mockHelmClient] in F.
    destruct (run_reconcileNormal release _) as [[obj res] tr].
    cbn [snd] in F |- *.
    inversion N; subst; try congruence;
      unfold existsCall in F; cbn [hd_error] in F;
      injection F as F1 F2;
      cbn; repeat split; intros; try discriminate; congruence.
Qed.

(** ** From the web UI to the reconciler *)

(** X28. A record created through the web UI with an empty values string,
    once it carries the finalizer: whatever the JSON decoder would do, an
    invocation on it never takes the decode-failure path.  Its first call
    after the fetch is the existence check, asked for the release name of
    the request if one was given and for the record's name otherwise, in
    the request's target namespace. *)
Theorem X28_ui_record_without_values_reaches_the_existence_check
  h req release cr :
  Get (Client_ r) h req = inl release ->
  metav1.IsZero (DeletionTimestamp release) = true ->
  ContainsFinalizer release finalizerName = true ->
  Spec release = Spec (web.newRelease cr) ->
  web.Values cr = "" ->
  parseValues emptyValues json_Unmarshal release = (emptyValues, None)
  /\ exists res,
       nth_error (snd (run_Reconcile req h)) 1 =
       Some (EvReleaseExists
               (if String.eqb (web.ReleaseName cr) "" then Name release
                else web.ReleaseName cr)
               (web.TargetNamespace cr) res).
Proof.
  intros Hget Hdel Hfin Hspec Hv.
  assert (Hparse : parseValues emptyValues json_Unmarshal release
                   = (emptyValues, None)).
  { unfold parseValues. rewrite Hspec. cbn. unfold web.rawValues.
    now rewrite Hv. }
  split; [exact Hparse|].
  rewrite (Reconcile_managed_eq h req release Hget Hdel Hfin). cbn [snd].
  pose proof (reconcileNormal_first_call release
                (h ++ [EvGet req (inl release)]) emptyValues Hparse) as F.
  destruct (snd (run_reconcileNormal release _)) as [|e tr];
    [discriminate|].
  cbn [hd_error] in F. injection F as ->. cbn [nth_error].
  unfold effectiveReleaseName. rewrite Hspec. cbn.
  destruct (String.eqb (web.ReleaseName cr) ""); eexists; reflexivity.
Qed.

End Properties.

(** * Concrete runs *)

(** Scenario A, first reconcile: the finalizer is added and nothing else. *)
Example scenario_A_first_reconcile :
  testRun (makeHR "test-install") mockZero "test-install" =
  (ctrl.Result_zero, None,
   [EvGet (testReq "test-install") (inl (makeHR "test-install"));
    EvUpdate (managedHR "test-install") None]).
Proof. reflexivity. Qed.

(** Scenario A, second reconcile: one install, then phase Ready, deployed
    version "1.0.0", observed generation 1. *)
Example scenario_A_second_reconcile :
  filter isHelmCall (snd (testRun (managedHR "test-install") mockZero
                            "test-install")) =
  [EvReleaseExists "test-install" "default" (false, None);
   EvInstall "test-install" "nginx" "https://charts.example.com" "1.0.0"
     "default" [] None]
  /\ map (fun o => (Phase_ (Status o), DeployedVersion (Status o),
                    ObservedGeneration (Status o)))
       (statusWrites (snd (testRun (managedHR "test-install") mockZero
                             "test-install"))) =
     [("Installing", "", 0%Z); ("Ready", "1.0.0", 1%Z)].
Proof. split; reflexivity. Qed.

(** Scenario D: a failing install sets phase Failed, records the message and
    asks for a retry after 30 seconds. *)
Example scenario_D_install_failure :
  fst (testRun (managedHR "test-install-err") failingInstall
         "test-install-err") =
  ({| ctrl.Requeue := false; ctrl.RequeueAfter := 30000000000%Z |},
   Some (errorString "install failed"))
  /\ map (fun o => (Phase_ (Status o),
                    option_map metav1.Message
                      (findCondition (Conditions (Status o)) "Ready")))
       (statusWrites (snd (testRun (managedHR "test-install-err")
                             failingInstall "test-install-err"))) =
     [("Installing", None); ("Failed", Some "install failed")].
Proof. split; reflexivity. Qed.

(** Scenario B: after the version edit, one upgrade and no install; the
    record ends Ready with deployed version "1.1.0". *)
Example scenario_B_upgrade :
  filter isDeployCall (snd (testRun (editedHR "test-upgrade") existingRelease
                              "test-upgrade")) =
  [EvUpgrade "test-upgrade" "nginx" "https://charts.example.com" "1.1.0"
     "default" [] None]
  /\ map (fun o => (Phase_ (Status o), DeployedVersion (Status o),
                    ObservedGeneration (Status o)))
       (statusWrites (snd (testRun (editedHR "test-upgrade") existingRelease
                             "test-upgrade"))) =
     [("Upgrading", "1.0.0", 1%Z); ("Ready", "1.1.0", 2%Z)].
Proof. split; reflexivity. Qed.

(** Scenario C: deletion requested; phase Uninstalling, one uninstall with
    the release name and target namespace, then the finalizer is removed. *)
Example scenario_C_delete :
  map (fun o => Phase_ (Status o))
    (statusWrites (snd (testRun (deletingHR "test-delete") mockZero
                          "test-delete"))) = ["Uninstalling"]
  /\ filter isHelmCall (snd (testRun (deletingHR "test-delete") mockZero
                               "test-delete")) =
     [EvUninstall "test-delete" "default" None]
  /\ map (fun e => match e with
                   | EvUpdate o _ => Finalizers o
                   | _ => []
                   end)
       (filter isUpdate (snd (testRun (deletingHR "test-delete") mockZero
                                "test-delete"))) = [[]].
Proof. repeat split. Qed.

(** The failure handler hands back the Helm error also when the store
    rejects its status write. *)
Example install_failure_with_rejected_status_write :
  fst (Reconcile [] decodeEmptyObject
         (conflictingReconciler (managedHR "test-install-err") failingInstall)
         (testReq "test-install-err") []) =
  ({| ctrl.Requeue := false; ctrl.RequeueAfter := 30000000000%Z |},
   Some (errorString "install failed")).
Proof. reflexivity. Qed.

(** * Instances *)

Lemma C1_witness :
  Get (Client_ (testReconciler (makeHR "test-finalizer") mockZero))
    [] (testReq "test-finalizer")
  = inl (makeHR "test-finalizer")
  /\ metav1.IsZero (DeletionTimestamp (makeHR "test-finalizer")) = true
  /\ ContainsFinalizer (makeHR "test-finalizer") finalizerName = false
  /\ filter isHelmCall
       (snd (testRun (makeHR "test-finalizer") mockZero "test-finalizer"))
     = [].
Proof.
  repeat (split; [reflexivity|]).
  destruct (C1_first_reconcile_attaches_finalizer_only
              ([] : TestValues) decodeEmptyObject
              (testReconciler (makeHR "test-finalizer") mockZero)
              [] (testReq "test-finalizer") (makeHR "test-finalizer")
              eq_refl eq_refl eq_refl) as (uerr & _ & _ & H & _).
  exact H.
Defined.

Lemma C2_witness :
  Get (Client_ (testReconciler (customisedHR "test-upgrade") existingRelease))
    [] (testReq "test-upgrade")
  = inl (customisedHR "test-upgrade")
  /\ metav1.IsZero (DeletionTimestamp (customisedHR "test-upgrade")) = true
  /\ ContainsFinalizer (customisedHR "test-upgrade") finalizerName = true
  /\ ObservedGeneration (Status (customisedHR "test-upgrade"))
     <> Generation (customisedHR "test-upgrade")
  /\ (forall h' : History TestValues,
         ReleaseExists
           (HelmClient (testReconciler (customisedHR "test-upgrade")
                          existingRelease))
           h' "my-release" "default" = (true, None))
  /\ decodeExamples replicaCountRaw [] = ([("replicaCount", "2")], None)
  /\ exists uerr,
       filter isHelmCall
         (snd (Reconcile ([] : TestValues) decodeExamples
                 (testReconciler (customisedHR "test-upgrade") existingRelease)
                 (testReq "test-upgrade") []))
       = [EvReleaseExists "my-release" "default" (true, None);
          EvUpgrade "my-release" "nginx" "https://charts.example.com" "1.0.0"
            "default" [("replicaCount", "2")] uerr].
Proof.
  assert (Hgen : ObservedGeneration (Status (customisedHR "test-upgrade"))
                 <> Generation (customisedHR "test-upgrade"))
    by (cbn; discriminate).
  split; [reflexivity|]. split; [reflexivity|]. split; [reflexivity|].
  split; [exact Hgen|]. split; [intros h'; reflexivity|].
  split; [reflexivity|].
  exact (proj1 (C2_generation_change_upgrades_once
                  ([] : TestValues) decodeExamples
                  (testReconciler (customisedHR "test-upgrade") existingRelease)
                  [] (testReq "test-upgrade") (customisedHR "test-upgrade")
                  eq_refl eq_refl eq_refl Hgen (fun _ => eq_refl))
           [("replicaCount", "2")] eq_refl).
Defined.

(** C2, counterexample to the upgrade for every such record: a record with
    the finalizer, no deletion marker and observedGeneration different
    from generation, against a Release Manager that answers "exists" to
    every existence check, but whose values payload does not decode.  The
    invocation makes no Release Manager call: no upgrade. *)
Lemma C2_counterexample :
  Get (Client_ (testReconciler (malformedHR "test-upgrade") existingRelease))
    [] (testReq "test-upgrade")
  = inl (malformedHR "test-upgrade")
  /\ metav1.IsZero (DeletionTimestamp (malformedHR "test-upgrade")) = true
  /\ ContainsFinalizer (malformedHR "test-upgrade") finalizerName = true
  /\ ObservedGeneration (Status (malformedHR "test-upgrade"))
     <> Generation (malformedHR "test-upgrade")
  /\ (forall (h' : History TestValues) name ns,
         ReleaseExists
           (HelmClient (testReconciler (malformedHR "test-upgrade")
                          existingRelease))
           h' name ns = (true, None))
  /\ snd (parseValues ([] : TestValues) decodeEmptyObject
            (malformedHR "test-upgrade"))
     = Some cannotUnmarshalArray
  /\ filter isUpgrade
       (snd (testRun (malformedHR "test-upgrade") existingRelease
               "test-upgrade")) = []
  /\ filter isHelmCall
       (snd (testRun (malformedHR "test-upgrade") existingRelease
               "test-upgrade")) = [].
Proof.
  split; [reflexivity|]. split; [reflexivity|]. split; [reflexivity|].
  split; [cbn; discriminate|]. split; [intros h' name ns; reflexivity|].
  split; [reflexivity|]. split; reflexivity.
Qed.

Lemma C3_witness :
  forallb servesUpToDate
    (snd (Reconcile_times ([] : TestValues) decodeEmptyObject
            (testReconciler (settledHR "test-noupgrade") existingRelease)
            3 (testReq "test-noupgrade") [])) = true
  /\ filter isDeployCall
       (snd (Reconcile_times ([] : TestValues) decodeEmptyObject
               (testReconciler (settledHR "test-noupgrade") existingRelease)
               3 (testReq "test-noupgrade") [])) = [].
Proof.
  split; [reflexivity|].
  apply (C3_up_to_date_record_triggers_no_deploy_call
           ([] : TestValues) decodeEmptyObject
           (testReconciler (settledHR "test-noupgrade") existingRelease)
           3 [] (testReq "test-noupgrade")).
  reflexivity.
Defined.

Lemma C4_witness :
  Get (Client_ (testReconciler (managedHR "test-install") mockZero))
    [] (testReq "test-install")
  = inl (managedHR "test-install")
  /\ metav1.IsZero (DeletionTimestamp (managedHR "test-install")) = true
  /\ ContainsFinalizer (managedHR "test-install") finalizerName = true
  /\ parseValues ([] : TestValues) decodeEmptyObject (managedHR "test-install")
     = ([], None)
  /\ forallb helmCallSucceeded
       (snd (testRun (managedHR "test-install") mockZero "test-install"))
     = true
  /\ exists pre now t1 t2 written uerr,
       snd (testRun (managedHR "test-install") mockZero "test-install") =
         pre ++ [EvNow now; EvNow t1; EvNow t2; EvStatusUpdate written uerr]
       /\ Phase_ (Status written) = PhaseReady
       /\ DeployedVersion (Status written) = "1.0.0"
       /\ ObservedGeneration (Status written) = 1%Z
       /\ LastDeployedAt (Status written) = Some now
       /\ (exists c,
              findCondition (Conditions (Status written)) "Ready" = Some c
              /\ metav1.Status c = metav1.ConditionTrue)
       /\ (exists c,
              findCondition (Conditions (Status written)) "Progressing"
                = Some c
              /\ metav1.Status c = metav1.ConditionFalse).
Proof.
  repeat (split; [reflexivity|]).
  exact (C4_success_writes_ready_status
           ([] : TestValues) decodeEmptyObject
           (testReconciler (managedHR "test-install") mockZero)
           [] (testReq "test-install") (managedHR "test-install") []
           eq_refl eq_refl eq_refl eq_refl eq_refl).
Defined.

Lemma C5_witness :
  Get (Client_ (testReconciler (deletingHR "test-delete-err") failingUninstall))
    [] (testReq "test-delete-err")
  = inl (deletingHR "test-delete-err")
  /\ metav1.IsZero (DeletionTimestamp (deletingHR "test-delete-err")) = false
  /\ ContainsFinalizer (deletingHR "test-delete-err") finalizerName = true
  /\ fst (testRun (deletingHR "test-delete-err") failingUninstall
            "test-delete-err")
     = ({| ctrl.Requeue := false; ctrl.RequeueAfter := 30000000000%Z |},
        Some (errorString "uninstall failed")).
Proof.
  repeat (split; [reflexivity|]).
  destruct (C5_finalizer_blocks_deletion_on_failure
              ([] : TestValues) decodeEmptyObject
              (testReconciler (deletingHR "test-delete-err") failingUninstall)
              [] (testReq "test-delete-err") (deletingHR "test-delete-err")
              eq_refl eq_refl eq_refl)
    as [(e1 & err & t & e2 & E & _) | (e1 & perr & E & _)];
    reflexivity.
Defined.

Lemma C6_witness :
  (* unchanged status value: the transition time 5 is kept *)
  findCondition
    (Conditions (Status (fst (setCondition
       (testReconciler (makeHR "c") mockZero)
       (withConditions (makeHR "c") (oneReady metav1.ConditionTrue))
       (readyCondition (makeHR "c") 0%Z) ([] : list (Event TestValues))))))
    "Ready"
  = Some (readyCondition (makeHR "c") 5%Z)
  (* changed status value: the clock reading 1000 is taken *)
  /\ findCondition
       (Conditions (Status (fst (setCondition
          (testReconciler (makeHR "c") mockZero)
          (withConditions (makeHR "c") (oneReady metav1.ConditionFalse))
          (readyCondition (makeHR "c") 0%Z) ([] : list (Event TestValues))))))
       "Ready"
     = Some (readyCondition (makeHR "c") 1000%Z)
  (* no entry of that type: the clock reading 1000 is taken *)
  /\ findCondition
       (Conditions (Status (fst (setCondition
          (testReconciler (makeHR "c") mockZero)
          (makeHR "c")
          (readyCondition (makeHR "c") 0%Z) ([] : list (Event TestValues))))))
       "Ready"
     = Some (readyCondition (makeHR "c") 1000%Z).
Proof.
  split; [|split].
  - refine (proj1 (C6_setCondition_keeps_or_refreshes_transition_time
                     (testReconciler (makeHR "c") mockZero)
                     (withConditions (makeHR "c")
                        (oneReady metav1.ConditionTrue))
                     (readyCondition (makeHR "c") 0%Z) []) _ eq_refl eq_refl).
  - refine (proj1 (proj2
             (C6_setCondition_keeps_or_refreshes_transition_time
                (testReconciler (makeHR "c") mockZero)
                (withConditions (makeHR "c")
                   (oneReady metav1.ConditionFalse))
                (readyCondition (makeHR "c") 0%Z) [])) _ eq_refl _).
    cbn. discriminate.
  - refine (proj2 (proj2
             (C6_setCondition_keeps_or_refreshes_transition_time
                (testReconciler (makeHR "c") mockZero)
                (makeHR "c")
                (readyCondition (makeHR "c") 0%Z) [])) eq_refl).
Defined.

Lemma C7_witness :
  Get (Client_ (testReconciler (malformedHR "test-values") mockZero))
    [] (testReq "test-values")
  = inl (malformedHR "test-values")
  /\ metav1.IsZero (DeletionTimestamp (malformedHR "test-values")) = true
  /\ ContainsFinalizer (malformedHR "test-values") finalizerName = true
  /\ parseValues ([] : TestValues) decodeEmptyObject (malformedHR "test-values")
     = ([], Some cannotUnmarshalArray)
  /\ exists t e,
       testRun (malformedHR "test-values") mockZero "test-values" =
         (ctrl.Result_zero,
          Some (wrapError "parsing values: " cannotUnmarshalArray),
          [EvGet (testReq "test-values") (inl (malformedHR "test-values"));
           EvNow t;
           EvStatusUpdate
             (failedObject (malformedHR "test-values")
                (wrapError "parsing values: " cannotUnmarshalArray) t) e]).
Proof.
  repeat (split; [reflexivity|]).
  destruct (C7_decode_failure_returns_empty_result
              ([] : TestValues) decodeEmptyObject
              (testReconciler (malformedHR "test-values") mockZero)
              [] (testReq "test-values") (malformedHR "test-values")
              [] cannotUnmarshalArray
              eq_refl eq_refl eq_refl eq_refl) as (t & e & E & _).
  exists t, e. exact E.
Defined.

(** C7, counterexample to the 30-second retry on a decode failure: on a
    record whose values payload does not decode, the result returned
    carries [RequeueAfter] zero, not [requeueOnFailure]; a failing Helm
    call on the same record does return that interval. *)
Lemma C7_counterexample :
  snd (parseValues ([] : TestValues) decodeEmptyObject
         (malformedHR "test-values"))
  = Some cannotUnmarshalArray
  /\ fst (testRun (malformedHR "test-values") mockZero "test-values")
     = ({| ctrl.Requeue := false; ctrl.RequeueAfter := 0%Z |},
        Some (wrapError "parsing values: " cannotUnmarshalArray))
  /\ ctrl.RequeueAfter
       (fst (fst (testRun (malformedHR "test-values") mockZero "test-values")))
     <> requeueOnFailure
  /\ ctrl.RequeueAfter
       (fst (fst (testRun (managedHR "test-values") failingInstall
                    "test-values")))
     = requeueOnFailure.
Proof.
  repeat (split; [reflexivity|]).
  split; [|reflexivity].
  vm_compute. discriminate.
Qed.

(** C8, counterexample to the reason "error": the Ready condition written
    by the failure handler has reason "ReconcileError". *)
Lemma C8_counterexample :
  option_map metav1.Reason
    (findCondition
       (Conditions (Status (fst (fst (setFailedStatus
          (testReconciler (managedHR "test-install-err") failingInstall)
          (managedHR "test-install-err")
          (errorString "install failed") [])))))
       "Ready")
  = Some "ReconcileError"
  /\ option_map metav1.Reason
       (findCondition
          (Conditions (Status (fst (fst (setFailedStatus
             (testReconciler (managedHR "test-install-err") failingInstall)
             (managedHR "test-install-err")
             (errorString "install failed") [])))))
          "Ready")
     <> Some "error".
Proof.
  split; [reflexivity|].
  vm_compute. discriminate.
Qed.

Lemma C10_witness :
  Get (Client_ (testReconciler
                  (withSpecValues (deletingHR "test-delete") (Some malformedRaw))
                  mockZero))
    [] (testReq "test-delete")
  = inl (withSpecValues (deletingHR "test-delete") (Some malformedRaw))
  /\ metav1.IsZero (DeletionTimestamp (deletingHR "test-delete")) = false
  /\ ContainsFinalizer (deletingHR "test-delete") finalizerName = true
  /\ snd (parseValues ([] : TestValues) decodeEmptyObject
            (withSpecValues (deletingHR "test-delete") (Some malformedRaw)))
     = Some cannotUnmarshalArray
  /\ exists e1 uerr,
       filter isHelmCall
         (snd (testRun
                 (withSpecValues (deletingHR "test-delete") (Some malformedRaw))
                 mockZero "test-delete"))
       = [EvUninstall "test-delete" "default" uerr]
       /\ firstn 3
            (snd (testRun
                    (withSpecValues (deletingHR "test-delete")
                       (Some malformedRaw))
                    mockZero "test-delete"))
          = [EvGet (testReq "test-delete")
               (inl (withSpecValues (deletingHR "test-delete")
                       (Some malformedRaw)));
             EvStatusUpdate
               (withPhase
                  (withSpecValues (deletingHR "test-delete")
                     (Some malformedRaw)) PhaseUninstalling) e1;
             EvUninstall "test-delete" "default" uerr].
Proof.
  repeat (split; [reflexivity|]).
  destruct (C10_deletion_never_decodes_values
              ([] : TestValues) decodeEmptyObject
              (testReconciler
                 (withSpecValues (deletingHR "test-delete") (Some malformedRaw))
                 mockZero)
              [] (testReq "test-delete") (deletingHR "test-delete")
              (Some malformedRaw) eq_refl eq_refl eq_refl)
    as (_ & e1 & uerr & F & H & _).
  exists e1, uerr. split; [exact H | exact F].
Defined.

(** * The SSE broker *)

Section Broker.

Import sse.

Lemma length_store {A} (l : list A) i x : length (store l i x) = length l.
Proof.
  revert i. induction l as [|y l IH]; intros [|i]; cbn; auto.
Qed.

Lemma nth_error_store_same {A} (l : list A) i x y :
  nth_error l i = Some y -> nth_error (store l i x) i = Some x.
Proof.
  revert i. induction l as [|z l IH]; intros [|i]; cbn; try discriminate; auto.
Qed.

Lemma nth_error_store_other {A} (l : list A) i j x :
  i <> j -> nth_error (store l i x) j = nth_error l j.
Proof.
  revert i j. induction l as [|z l IH]; intros [|i] [|j] Hne; cbn; auto;
    try contradiction.
Qed.

Lemma In_store {A} (l : list A) i x y :
  In y (store l i x) -> y = x \/ In y l.
Proof.
  revert i. induction l as [|z l IH]; intros [|i]; cbn; auto.
  - intros [<-|H]; auto.
  - intros [<-|H]; auto. destruct (IH _ H); auto.
Qed.

Lemma existsb_eqb_In c keys : existsb (Nat.eqb c) keys = true <-> In c keys.
Proof.
  rewrite existsb_exists. split.
  - intros (k & Hin & E). apply Nat.eqb_eq in E. now subst.
  - intros Hin. exists c. split; [assumption | apply Nat.eqb_refl].
Qed.

Lemma In_deleteKey c k keys : In k (deleteKey c keys) <-> In k keys /\ k <> c.
Proof.
  unfold deleteKey. rewrite filter_In, negb_true_iff, Nat.eqb_neq. tauto.
Qed.

Lemma trySend_delivered ch payload :
  closed ch = false -> trySend ch payload = Some (delivered ch payload).
Proof.
  intros H. unfold trySend, delivered. rewrite H.
  now destruct (Nat.ltb _ _).
Qed.

Lemma delivered_open ch payload :
  closed ch = false -> closed (delivered ch payload) = false.
Proof. intros H. unfold delivered. now destruct (Nat.ltb _ _). Qed.

Lemma delivered_bounded ch payload :
  length (buf ch) <= capacity -> length (buf (delivered ch payload)) <= capacity.
Proof.
  intros H. unfold delivered.
  destruct (Nat.ltb (length (buf ch)) capacity) eqn:E; [|exact H].
  apply Nat.ltb_lt in E. cbn [buf]. rewrite length_app. cbn. lia.
Qed.

(** The loop of [broadcast] over keys that are pairwise distinct and all
    point at open channels: it goes through, and each channel listed has
    had one send, the others none. *)
Lemma broadcastTo_spec keys : forall chans payload,
  NoDup keys ->
  (forall c, In c keys ->
     exists ch, nth_error chans c = Some ch /\ closed ch = false) ->
  exists chans',
    broadcastTo keys chans payload = Some chans'
    /\ length chans' = length chans
    /\ forall c,
         nth_error chans' c =
         if existsb (Nat.eqb c) keys
         then option_map (fun ch => delivered ch payload) (nth_error chans c)
         else nth_error chans c.
Proof.
  induction keys as [|k keys IH]; intros chans payload Hnd Hopen.
  - exists chans. repeat split.
  - inversion Hnd as [|k' keys' Hnotin Hnd']; subst.
    destruct (Hopen k (or_introl eq_refl)) as (ch & Hk & Hc).
    cbn [broadcastTo]. rewrite Hk, (trySend_delivered ch payload Hc).
    destruct (IH (store chans k (delivered ch payload)) payload Hnd')
      as (chans' & E & Hlen & Hnth).
    { intros c Hin. destruct (Hopen c (or_intror Hin)) as (ch' & Hc' & Ho).
      exists ch'. split; [|exact Ho].
      rewrite nth_error_store_other; [exact Hc'|].
      intros ->. contradiction. }
    exists chans'. split; [exact E|]. split.
    + now rewrite Hlen, length_store.
    + intros c. rewrite Hnth. cbn [existsb].
      destruct (Nat.eqb c k) eqn:Eck.
      * apply Nat.eqb_eq in Eck. subst c. cbn [orb].
        assert (Hf : existsb (Nat.eqb k) keys = false).
        { destruct (existsb (Nat.eqb k) keys) eqn:Ex; [|reflexivity].
          apply existsb_eqb_In in Ex. contradiction. }
        rewrite Hf, (nth_error_store_same _ _ _ _ Hk), Hk. reflexivity.
      * apply Nat.eqb_neq in Eck. cbn [orb].
        rewrite nth_error_store_other by congruence. reflexivity.
Qed.

Lemma broadcast_wellFormed b payload :
  wellFormed b ->
  exists b',
    broadcast b payload = Some b'
    /\ wellFormed b'
    /\ clients b' = clients b
    /\ length (allocated b') = length (allocated b)
    /\ forall c,
         nth_error (allocated b') c =
         if existsb (Nat.eqb c) (clients b)
         then option_map (fun ch => delivered ch payload)
                (nth_error (allocated b) c)
         else nth_error (allocated b) c.
Proof.
  intros (Hnd & Hopen & Hcap).
  destruct (broadcastTo_spec (clients b) (allocated b) payload Hnd Hopen)
    as (chans' & E & Hlen & Hnth).
  unfold broadcast. rewrite E. eexists. split; [reflexivity|].
  cbn [allocated clients]. repeat split; try assumption.
  - intros c Hin. destruct (Hopen c Hin) as (ch & Hc & Ho).
    exists (delivered ch payload). rewrite Hnth.
    rewrite (proj2 (existsb_eqb_In c (clients b)) Hin), Hc.
    split; [reflexivity | now apply delivered_open].
  - intros ch Hin. apply In_nth_error in Hin as [c Hc].
    rewrite Hnth in Hc.
    destruct (existsb (Nat.eqb c) (clients b)).
    + destruct (nth_error (allocated b) c) as [ch0|] eqn:E0;
        [|discriminate].
      injection Hc as <-. apply delivered_bounded, Hcap.
      eapply nth_error_In; eassumption.
    + apply Hcap. eapply nth_error_In; eassumption.
Qed.

Lemma subscribe_wellFormed b :
  wellFormed b ->
  (forall c, In c (clients b) -> c < length (allocated b)) ->
  wellFormed (fst (subscribe b)).
Proof.
  intros (Hnd & Hopen & Hcap) Hlt. unfold subscribe. cbn [fst].
  assert (Hfresh : ~ In (length (allocated b)) (clients b)).
  { intros Hin. apply Hlt in Hin. lia. }
  assert (Hins : insertKey (length (allocated b)) (clients b) =
                 length (allocated b) :: clients b).
  { unfold insertKey.
    destruct (existsb _ _) eqn:Ex; [|reflexivity].
    apply existsb_eqb_In in Ex. contradiction. }
  repeat split; cbn [clients allocated]; rewrite ?Hins.
  - now constructor.
  - intros c [<-|Hin].
    + exists makeChan. split; [|reflexivity].
      rewrite nth_error_app2 by lia. now rewrite Nat.sub_diag.
    + destruct (Hopen c Hin) as (ch & Hc & Ho). exists ch. split; [|exact Ho].
      rewrite nth_error_app1; [exact Hc|]. now apply Hlt.
  - intros ch Hin. apply in_app_or in Hin as [Hin|[<-|[]]].
    + now apply Hcap.
    + cbn. unfold capacity. lia.
Qed.

Lemma Reachable_wellFormed b :
  Reachable b ->
  wellFormed b /\ (forall c, In c (clients b) -> c < length (allocated b)).
Proof.
  induction 1 as [ | b Hr [IH Hlt] | b c b' Hr [IH Hlt] Hin Hun
                 | b payload b' Hr [IH Hlt] Hb
                 | b c ch ch' got Hr [IH Hlt] Hin Hc Hrecv ].
  - split; [|intros c []].
    split; [constructor | split; [intros c [] | intros ch []]].
  - split; [now apply subscribe_wellFormed|].
    unfold subscribe. cbn [fst clients allocated]. intros c Hc.
    rewrite length_app. cbn. unfold insertKey in Hc.
    destruct (existsb _ _).
    + apply Hlt in Hc. lia.
    + destruct Hc as [<-|Hc]; [lia|]. apply Hlt in Hc. lia.
  - destruct IH as (Hnd & Hopen & Hcap).
    unfold unsubscribe in Hun.
    destruct (nth_error (allocated b) c) as [ch|] eqn:Hc; [|discriminate].
    unfold close in Hun. destruct (closed ch) eqn:Hcl; [discriminate|].
    injection Hun as <-. cbn [clients allocated]. split.
    + repeat split; cbn [clients allocated].
      * unfold deleteKey. now apply NoDup_filter.
      * intros k Hk. apply In_deleteKey in Hk as [Hk Hne].
        destruct (Hopen k Hk) as (ch0 & Hk0 & Ho). exists ch0.
        split; [|exact Ho]. rewrite nth_error_store_other; congruence.
      * intros ch0 Hin0. apply In_store in Hin0 as [->|Hin0].
        -- cbn. apply Hcap. eapply nth_error_In; eassumption.
        -- now apply Hcap.
    + intros k Hk. apply In_deleteKey in Hk as [Hk _].
      rewrite length_store. now apply Hlt.
  - destruct (broadcast_wellFormed b payload IH)
      as (b0 & E & Hwf & Hcl & Hlen & _).
    rewrite E in Hb. injection Hb as <-. split; [exact Hwf|].
    rewrite Hcl, Hlen. exact Hlt.
  - destruct IH as (Hnd & Hopen & Hcap). cbn [clients allocated]. split.
    + assert (Hch' : closed ch' = closed ch
                     /\ length (buf ch') <= length (buf ch)).
      { unfold receive in Hrecv. destruct (buf ch) as [|p rest] eqn:Eb.
        - destruct (closed ch) eqn:Ecl; [|discriminate].
          injection Hrecv as <- _. rewrite Eb, Ecl.
          split; [reflexivity | cbn; lia].
        - injection Hrecv as <- _. cbn. split; [reflexivity | lia]. }
      destruct Hch' as [Hsame Hshort].
      repeat split; cbn [clients allocated]; [exact Hnd| |].
      * intros k Hk. destruct (Nat.eq_dec k c) as [->|Hne].
        -- exists ch'. rewrite (nth_error_store_same _ _ _ _ Hc).
           split; [reflexivity|]. rewrite Hsame.
           destruct (Hopen c Hk) as (ch0 & Hc0 & Ho). congruence.
        -- destruct (Hopen k Hk) as (ch0 & Hk0 & Ho). exists ch0.
           split; [|exact Ho]. rewrite nth_error_store_other; congruence.
      * intros ch0 Hin0. apply In_store in Hin0 as [->|Hin0].
        -- assert (length (buf ch) <= capacity)
             by (apply Hcap; eapply nth_error_In; eassumption).
           lia.
        -- now apply Hcap.
    + intros k Hk. rewrite length_store. now apply Hlt.
Qed.

(** X18. In every state the broker can reach through subscribe,
    unsubscribe by a subscribed client, broadcast and receive: a broadcast
    never panics (it never sends on a closed channel), a subscribed client
    can always unsubscribe (its channel is still open), and no channel
    ever holds more than 16 payloads. *)
Theorem X18_broker_never_panics_and_never_overfills b :
  Reachable b ->
  (forall payload, broadcast b payload <> None)
  /\ (forall c, In c (clients b) -> unsubscribe b c <> None)
  /\ (forall c ch,
         In c (clients b) -> nth_error (allocated b) c = Some ch ->
         closed ch = false)
  /\ (forall ch, In ch (allocated b) -> length (buf ch) <= capacity).
Proof.
  intros Hr. destruct (Reachable_wellFormed b Hr) as [Hwf Hlt].
  pose proof Hwf as (Hnd & Hopen & Hcap).
  split; [|split; [|split]].
  - intros payload.
    destruct (broadcast_wellFormed b payload Hwf) as (b' & E & _).
    congruence.
  - intros c Hin. destruct (Hopen c Hin) as (ch & Hc & Ho).
    unfold unsubscribe, close. rewrite Hc, Ho. discriminate.
  - intros c ch Hin Hc. destruct (Hopen c Hin) as (ch' & Hc' & Ho).
    congruence.
  - exact Hcap.
Qed.

(** X19. What one broadcast does, in a reachable state: the set of clients
    is unchanged; a subscribed client with room in its channel has the
    payload queued behind what was there; a subscribed client whose channel
    is full keeps its queue as it was and the payload is dropped for it;
    the channel of a client that is not subscribed is not touched. *)
Theorem X19_broadcast_queues_or_drops b payload b' :
  Reachable b ->
  broadcast b payload = Some b' ->
  clients b' = clients b
  /\ forall c ch,
       nth_error (allocated b) c = Some ch ->
       (In c (clients b) -> length (buf ch) < capacity ->
        nth_error (allocated b') c =
        Some {| buf := buf ch ++ [payload]; closed := false |})
       /\ (In c (clients b) -> length (buf ch) = capacity ->
           nth_error (allocated b') c = Some ch)
       /\ (~ In c (clients b) -> nth_error (allocated b') c = Some ch).
Proof.
  intros Hr Hb. destruct (Reachable_wellFormed b Hr) as [Hwf _].
  destruct (broadcast_wellFormed b payload Hwf)
    as (b0 & E & _ & Hcl & _ & Hnth).
  rewrite E in Hb. injection Hb as <-. split; [exact Hcl|].
  intros c ch Hc. rewrite Hnth, Hc. repeat split.
  - intros Hin Hroom. rewrite (proj2 (existsb_eqb_In c _) Hin).
    cbn [option_map]. unfold delivered.
    apply Nat.ltb_lt in Hroom. now rewrite Hroom.
  - intros Hin Hfull. rewrite (proj2 (existsb_eqb_In c _) Hin).
    cbn [option_map]. unfold delivered.
    assert (Hn : Nat.ltb (length (buf ch)) capacity = false)
      by (apply Nat.ltb_ge; lia).
    now rewrite Hn.
  - intros Hnot. destruct (existsb (Nat.eqb c) (clients b)) eqn:Ex;
      [|reflexivity].
    apply existsb_eqb_In in Ex. contradiction.
Qed.

(** X20. Unsubscribing a subscribed client, in a reachable state: it
    succeeds; the client is no longer in the set and its channel is
    closed, with what was queued still in it; every other client and
    channel is as before; and no later broadcast reaches the closed
    channel. *)
Theorem X20_unsubscribe_closes_and_detaches b c :
  Reachable b ->
  In c (clients b) ->
  exists ch b',
    nth_error (allocated b) c = Some ch
    /\ unsubscribe b c = Some b'
    /\ ~ In c (clients b')
    /\ nth_error (allocated b') c = Some {| buf := buf ch; closed := true |}
    /\ (forall k, k <> c ->
          (In k (clients b') <-> In k (clients b))
          /\ nth_error (allocated b') k = nth_error (allocated b) k)
    /\ (forall payload b'',
          broadcast b' payload = Some b'' ->
          nth_error (allocated b'') c = nth_error (allocated b') c).
Proof.
  intros Hr Hin. destruct (Reachable_wellFormed b Hr) as [Hwf _].
  destruct Hwf as (Hnd & Hopen & Hcap).
  destruct (Hopen c Hin) as (ch & Hc & Ho).
  assert (Hun : unsubscribe b c =
                Some {| allocated := store (allocated b) c
                                       {| buf := buf ch; closed := true |};
                        clients := deleteKey c (clients b) |}).
  { unfold unsubscribe, close. now rewrite Hc, Ho. }
  eexists ch, _. split; [exact Hc|]. split; [exact Hun|].
  cbn [clients allocated]. repeat split.
  - intros Hk. apply In_deleteKey in Hk as [_ Hne]. now apply Hne.
  - exact (nth_error_store_same _ _ _ _ Hc).
  - intros Hk. now apply In_deleteKey in Hk as [Hk _].
  - intros Hk. apply In_deleteKey. now split.
  - apply nth_error_store_other. congruence.
  - intros payload b'' Hb.
    pose proof (R_unsubscribe b c _ Hr Hin Hun) as Hr'.
    destruct (Reachable_wellFormed _ Hr') as [Hwf' _].
    destruct (broadcast_wellFormed _ payload Hwf')
      as (b0 & E & _ & _ & _ & Hnth).
    rewrite E in Hb. injection Hb as <-. rewrite Hnth.
    cbn [clients allocated].
    destruct (existsb (Nat.eqb c) (deleteKey c (clients b))) eqn:Ex;
      [|reflexivity].
    apply existsb_eqb_In, In_deleteKey in Ex as [_ Hne]. now contradiction Hne.
Qed.

(** X21. A subscriber that keeps up misses nothing: when the payloads
    broadcast fit into the room left in a subscribed client's channel, all
    of them are queued for it, in the order they were broadcast, behind
    what was there. *)
Theorem X21_payloads_arrive_in_broadcast_order payloads : forall b c ch,
  Reachable b ->
  In c (clients b) ->
  nth_error (allocated b) c = Some ch ->
  length (buf ch) + length payloads <= capacity ->
  exists b',
    broadcastAll b payloads = Some b'
    /\ Reachable b'
    /\ clients b' = clients b
    /\ nth_error (allocated b') c =
       Some {| buf := buf ch ++ payloads; closed := false |}.
Proof.
  induction payloads as [|p rest IH]; intros b c ch Hr Hin Hc Hroom.
  - exists b. cbn [broadcastAll]. repeat split; try assumption.
    rewrite app_nil_r, Hc.
    destruct (Reachable_wellFormed b Hr) as [(_ & Hopen & _) _].
    destruct (Hopen c Hin) as (ch' & Hc' & Ho).
    assert (ch' = ch) by congruence. subst ch'.
    destruct ch as [bf cl]. cbn in Ho. now subst cl.
  - cbn [length] in Hroom.
    destruct (Reachable_wellFormed b Hr) as [Hwf _].
    destruct (broadcast_wellFormed b p Hwf) as (b1 & E & _ & Hcl & _ & Hnth).
    pose proof (R_broadcast b p b1 Hr E) as Hr1.
    assert (Hc1 : nth_error (allocated b1) c =
                  Some {| buf := buf ch ++ [p]; closed := false |}).
    { rewrite Hnth, (proj2 (existsb_eqb_In c _) Hin), Hc.
      cbn [option_map]. unfold delivered.
      assert (Hn : Nat.ltb (length (buf ch)) capacity = true)
        by (apply Nat.ltb_lt; lia).
      now rewrite Hn. }
    destruct (IH b1 c _ Hr1 ltac:(now rewrite Hcl) Hc1) as (b' & Eb & Hr' & Hcl' & Hc').
    { cbn [buf]. rewrite length_app. cbn. lia. }
    exists b'. cbn [broadcastAll]. rewrite E.
    repeat split; try assumption; [congruence|].
    rewrite Hc'. cbn [buf]. now rewrite <- app_assoc.
Qed.

(** X22. Subscribing, in a reachable state: the new client is a fresh
    one, it is in the set afterwards, and its channel starts empty and
    open, so it only ever sees payloads broadcast after it subscribed;
    the clients already subscribed stay subscribed with their channels
    untouched. *)
Theorem X22_subscribe_adds_a_fresh_empty_client b :
  Reachable b ->
  let b' := fst (subscribe b) in
  let c := snd (subscribe b) in
  ~ In c (clients b)
  /\ In c (clients b')
  /\ nth_error (allocated b') c = Some makeChan
  /\ forall k,
       In k (clients b) ->
       In k (clients b')
       /\ nth_error (allocated b') k = nth_error (allocated b) k.
Proof.
  intros Hr b' c. subst b' c.
  destruct (Reachable_wellFormed b Hr) as [_ Hlt].
  unfold subscribe. cbn [fst snd clients allocated].
  assert (Hfresh : ~ In (length (allocated b)) (clients b)).
  { intros Hin. apply Hlt in Hin. lia. }
  assert (Hins : insertKey (length (allocated b)) (clients b) =
                 length (allocated b) :: clients b).
  { unfold insertKey.
    destruct (existsb _ _) eqn:Ex; [|reflexivity].
    apply existsb_eqb_In in Ex. contradiction. }
  rewrite Hins. repeat split.
  - exact Hfresh.
  - now left.
  - rewrite nth_error_app2 by lia. now rewrite Nat.sub_diag.
  - now right.
  - apply nth_error_app1. now apply Hlt.
Qed.

End Broker.

(** * The REST handlers *)

Section RestHandlers.

Variable s : web.WebServer.

Lemma broadcastEvent_reachable b eventType hr :
  sse.Reachable b ->
  exists b',
    web.broadcastEvent s b eventType hr = Some b'
    /\ sse.Reachable b'
    /\ sse.clients b' = sse.clients b
    /\ (forall text,
          web.json_Marshal s hr = inl text ->
          sse.broadcast b (web.eventJSON eventType text) = Some b')
    /\ (forall err, web.json_Marshal s hr = inr err -> b' = b).
Proof.
  intros Hr. unfold web.broadcastEvent, web.marshalEvent.
  destruct (web.json_Marshal s hr) as [text|err].
  - destruct (Reachable_wellFormed b Hr) as [Hwf _].
    destruct (broadcast_wellFormed b (web.eventJSON eventType text) Hwf)
      as (b' & E & _ & Hcl & _).
    exists b'. split; [exact E|]. split; [exact (sse.R_broadcast b _ b' Hr E)|].
    split; [exact Hcl|]. split; [intros t [= <-]; exact E | discriminate].
  - exists b. split; [reflexivity|]. split; [exact Hr|].
    split; [reflexivity|]. split; [discriminate | reflexivity].
Qed.

(** X23. Requests the handlers turn away never reach the store or the
    broker.  A method other than GET, POST, PUT and DELETE is answered
    405; a POST whose body lacks one of name, namespace, chart, repoURL,
    version and targetNamespace is answered 400; a PUT or DELETE without
    the name or the ns query parameter is answered 400, before the body
    of a PUT is even looked at.  In each case no store call is made and
    the broker is left as it was. *)
Theorem X23_rejected_requests_touch_nothing h b r :
  (String.eqb (web.Method r) "GET" = false ->
   String.eqb (web.Method r) "POST" = false ->
   String.eqb (web.Method r) "PUT" = false ->
   String.eqb (web.Method r) "DELETE" = false ->
   web.handleHelmReleases s h b r =
   ([], Some (web.http_Error "method not allowed" 405%Z, b)))
  /\ (forall req,
         web.Method r = "POST" -> web.Body r = inl req ->
         web.missingRequired req = true ->
         exists msg,
           web.handleHelmReleases s h b r =
           ([], Some (web.http_Error msg 400%Z, b)))
  /\ ((web.Method r = "PUT" \/ web.Method r = "DELETE") ->
      (web.query_name r = "" \/ web.query_ns r = "") ->
      web.handleHelmReleases s h b r =
      ([], Some (web.http_Error "query params 'name' and 'ns' are required"
                   400%Z, b))).
Proof.
  split; [|split].
  - intros G P U D. unfold web.handleHelmReleases. now rewrite G, P, U, D.
  - intros req Hm Hb Hmiss. unfold web.handleHelmReleases, web.createRelease.
    rewrite Hm, Hb, Hmiss. cbn. eexists. reflexivity.
  - intros [Hm|Hm] Hq; unfold web.handleHelmReleases, web.updateRelease,
      web.deleteRelease; rewrite Hm; cbn [String.eqb Ascii.eqb Bool.eqb];
      destruct Hq as [Hq|Hq]; rewrite Hq; cbn [web.isEmpty String.eqb orb];
      rewrite ?orb_true_r; reflexivity.
Qed.

(** X24. A POST whose body has all six required fields makes exactly one
    store call, a [Create] of an object that carries the request's name and
    namespace, its chart, repoURL, version, targetNamespace and releaseName,
    its values string as raw bytes (nil when the string is empty), and
    nothing else: generation zero, no finalizer, no deletion marker, an
    empty status.  If the store refuses, the answer is 500 and nothing is
    broadcast.  If it accepts, the answer is 201; its body is the object as
    the store returned it, or empty when that object does not encode; a
    "created" event with the object's text is broadcast when it encodes,
    and nothing is broadcast when it does not; the set of subscribers is
    unchanged. *)
Theorem X24_create_makes_one_store_call h b r req :
  web.Body r = inl req ->
  web.Name req <> "" -> web.Namespace req <> "" -> web.Chart req <> "" ->
  web.RepoURL req <> "" -> web.Version req <> "" ->
  web.TargetNamespace req <> "" ->
  sse.Reachable b ->
  exists hr,
    (Name hr = web.Name req /\ Namespace hr = web.Namespace req
     /\ Chart (Spec hr) = web.Chart req
     /\ RepoURL (Spec hr) = web.RepoURL req
     /\ Version (Spec hr) = web.Version req
     /\ TargetNamespace (Spec hr) = web.TargetNamespace req
     /\ ReleaseName (Spec hr) = web.ReleaseName req
     /\ Values (Spec hr) =
        (if String.eqb (web.Values req) "" then None
         else Some (list_byte_of_string (web.Values req))))
    /\ (Generation hr = 0%Z /\ Finalizers hr = []
        /\ DeletionTimestamp hr = None
        /\ Status hr =
           {| Phase_ := ""; Conditions := []; DeployedVersion := "";
              HelmRevision := 0%Z; LastDeployedAt := None;
              ObservedGeneration := 0%Z |})
    /\ ((exists err,
            web.Create (web.Client_ s) h hr = inr err
            /\ web.createRelease s h b r =
               ([web.CallCreate hr (inr err)],
                Some ({| web.StatusCode := 500%Z;
                         web.ResponseBody_ := web.TextLine (Error err) |},
                      b)))
        \/ (exists created b',
               web.Create (web.Client_ s) h hr = inl created
               /\ web.createRelease s h b r =
                  ([web.CallCreate hr (inl created)],
                   Some ({| web.StatusCode := 201%Z;
                            web.ResponseBody_ :=
                              match web.json_Marshal s created with
                              | inl _ => web.JSONRelease created
                              | inr _ => web.NoBody
                              end |}, b'))
               /\ (forall text,
                     web.json_Marshal s created = inl text ->
                     sse.broadcast b (web.eventJSON "created" text) = Some b')
               /\ (forall err,
                     web.json_Marshal s created = inr err -> b' = b)
               /\ sse.Reachable b'
               /\ sse.clients b' = sse.clients b)).
Proof.
  intros Hb Hn Hns Hc Hu Hv Ht Hr.
  assert (Hmiss : web.missingRequired req = false).
  { unfold web.missingRequired, web.isEmpty.
    apply String.eqb_neq in Hn, Hns, Hc, Hu, Hv, Ht.
    now rewrite Hn, Hns, Hc, Hu, Hv, Ht. }
  exists (web.newRelease req).
  split.
  { cbn. unfold web.rawValues.
    destruct (String.eqb (web.Values req) ""); repeat split. }
  split; [repeat split|].
  unfold web.createRelease. rewrite Hb, Hmiss.
  destruct (web.Create (web.Client_ s) h (web.newRelease req))
    as [created|err].
  - right.
    destruct (broadcastEvent_reachable b "created" created Hr)
      as (b' & E & Hr' & Hcl & Hsent & Hnot).
    exists created, b'. rewrite E.
    split; [reflexivity|]. split; [reflexivity|].
    split; [exact Hsent|]. split; [exact Hnot|]. split; assumption.
  - left. exists err. split; reflexivity.
Qed.

(** X25. The partial update of [updateRelease].  An empty chart, repoURL,
    version or targetNamespace in the request keeps the stored value, a
    non-empty one replaces it; releaseName and values are always taken
    from the request: an empty releaseName clears the override, an empty
    values string removes the values and a non-empty one replaces them
    with its bytes; name, namespace, generation, deletion marker,
    finalizers and status are never changed; and applying the same request
    twice is the same as applying it once. *)
Theorem X25_update_keeps_what_the_request_leaves_empty req hr :
  let hr' := web.applyUpdate req hr in
  (web.Chart req = "" -> Chart (Spec hr') = Chart (Spec hr))
  /\ (web.RepoURL req = "" -> RepoURL (Spec hr') = RepoURL (Spec hr))
  /\ (web.Version req = "" -> Version (Spec hr') = Version (Spec hr))
  /\ (web.TargetNamespace req = "" ->
      TargetNamespace (Spec hr') = TargetNamespace (Spec hr))
  /\ (web.Chart req <> "" -> Chart (Spec hr') = web.Chart req)
  /\ (web.RepoURL req <> "" -> RepoURL (Spec hr') = web.RepoURL req)
  /\ (web.Version req <> "" -> Version (Spec hr') = web.Version req)
  /\ (web.TargetNamespace req <> "" ->
      TargetNamespace (Spec hr') = web.TargetNamespace req)
  /\ ReleaseName (Spec hr') = web.ReleaseName req
  /\ (web.Values req = "" -> Values (Spec hr') = None)
  /\ (web.Values req <> "" ->
      Values (Spec hr') = Some (list_byte_of_string (web.Values req)))
  /\ (Name hr' = Name hr /\ Namespace hr' = Namespace hr
      /\ Generation hr' = Generation hr
      /\ DeletionTimestamp hr' = DeletionTimestamp hr
      /\ Finalizers hr' = Finalizers hr /\ Status hr' = Status hr)
  /\ web.applyUpdate req hr' = hr'.
Proof.
  intros hr'. subst hr'. unfold web.applyUpdate, web.isEmpty, web.rawValues.
  cbn.
  repeat match goal with |- _ /\ _ => split end;
    try reflexivity;
    try (intros H; rewrite H; reflexivity);
    try (intros Hne; apply String.eqb_neq in Hne; now rewrite Hne).
  destruct (String.eqb (web.Chart req) ""),
           (String.eqb (web.RepoURL req) ""),
           (String.eqb (web.Version req) ""),
           (String.eqb (web.TargetNamespace req) ""); reflexivity.
Qed.

(** X26. A PUT with both query parameters and a body that decodes reads
    before it writes.  It fetches the object by that namespace and name;
    if the fetch fails, with whatever error, the answer is 404 and nothing
    is written.  Otherwise its one write is a [Patch] whose base is the
    object fetched and whose target has the fetched name, namespace,
    generation, deletion marker, finalizers and status, each of chart,
    repoURL, version and targetNamespace from the request unless empty
    there, and releaseName and values from the request.  A refused patch
    is answered 500 with nothing broadcast; an accepted one 200, with the
    store's object as the body, or an empty body when that object does not
    encode, and an "updated" event broadcast exactly when it encodes. *)
Theorem X26_update_patches_what_it_fetched h b r req :
  web.query_name r <> "" -> web.query_ns r <> "" ->
  web.Body r = inl req ->
  sse.Reachable b ->
  let ns := web.query_ns r in
  let name := web.query_name r in
  (exists err,
      web.Get (web.Client_ s) h ns name = inr err
      /\ web.updateRelease s h b r =
         ([web.CallGet ns name (inr err)],
          Some ({| web.StatusCode := 404%Z;
                   web.ResponseBody_ := web.TextLine (Error err) |}, b)))
  \/ (exists hr modified,
         web.Get (web.Client_ s) h ns name = inl hr
         /\ (Name modified = Name hr /\ Namespace modified = Namespace hr
             /\ Generation modified = Generation hr
             /\ DeletionTimestamp modified = DeletionTimestamp hr
             /\ Finalizers modified = Finalizers hr
             /\ Status modified = Status hr)
         /\ (Chart (Spec modified) =
               (if String.eqb (web.Chart req) "" then Chart (Spec hr)
                else web.Chart req)
             /\ RepoURL (Spec modified) =
                (if String.eqb (web.RepoURL req) "" then RepoURL (Spec hr)
                 else web.RepoURL req)
             /\ Version (Spec modified) =
                (if String.eqb (web.Version req) "" then Version (Spec hr)
                 else web.Version req)
             /\ TargetNamespace (Spec modified) =
                (if String.eqb (web.TargetNamespace req) ""
                 then TargetNamespace (Spec hr)
                 else web.TargetNamespace req)
             /\ ReleaseName (Spec modified) = web.ReleaseName req
             /\ Values (Spec modified) =
                (if String.eqb (web.Values req) "" then None
                 else Some (list_byte_of_string (web.Values req))))
         /\ ((exists err,
                 web.updateRelease s h b r =
                 ([web.CallGet ns name (inl hr);
                   web.CallPatch hr modified (inr err)],
                  Some ({| web.StatusCode := 500%Z;
                           web.ResponseBody_ := web.TextLine (Error err) |},
                        b)))
             \/ (exists patched b',
                    web.updateRelease s h b r =
                    ([web.CallGet ns name (inl hr);
                      web.CallPatch hr modified (inl patched)],
                     Some ({| web.StatusCode := 200%Z;
                              web.ResponseBody_ :=
                                match web.json_Marshal s patched with
                                | inl _ => web.JSONRelease patched
                                | inr _ => web.NoBody
                                end |}, b'))
                    /\ (forall text,
                          web.json_Marshal s patched = inl text ->
                          sse.broadcast b (web.eventJSON "updated" text)
                          = Some b')
                    /\ (forall err,
                          web.json_Marshal s patched = inr err -> b' = b)
                    /\ sse.Reachable b'
                    /\ sse.clients b' = sse.clients b))).
Proof.
  intros Hn Hns Hb Hr ns name. subst ns name.
  unfold web.updateRelease, web.isEmpty.
  apply String.eqb_neq in Hn. apply String.eqb_neq in Hns.
  rewrite Hn, Hns, Hb. cbn [orb].
  destruct (web.Get (web.Client_ s) h (web.query_ns r) (web.query_name r))
    as [hr|gerr].
  - right. exists hr, (web.applyUpdate req hr).
    split; [reflexivity|].
    split; [cbn; repeat split|].
    split.
    { unfold web.applyUpdate, web.isEmpty, web.rawValues. cbn.
      destruct (String.eqb (web.Chart req) ""),
               (String.eqb (web.RepoURL req) ""),
               (String.eqb (web.Version req) ""),
               (String.eqb (web.TargetNamespace req) ""),
               (String.eqb (web.Values req) ""); repeat split. }
    destruct (web.Patch (web.Client_ s) _ hr (web.applyUpdate req hr))
      as [patched|perr].
    + right.
      destruct (broadcastEvent_reachable b "updated" patched Hr)
        as (b' & E & Hr' & Hcl & Hsent & Hnot).
      exists patched, b'. rewrite E.
      split; [reflexivity|].
      split; [exact Hsent|]. split; [exact Hnot|]. split; assumption.
    + left. exists perr. reflexivity.
  - left. exists gerr. split; reflexivity.
Qed.

(** X27. Whatever the request, with a broker in a reachable state: the
    handler does not panic and leaves the broker in a reachable state with
    the same subscribers; it makes at most one write on the store
    (create, patch or delete); the broker's channels change only when
    that write was accepted; and when the write was refused the answer is
    500. *)
Theorem X27_handlers_write_at_most_once_and_never_panic h b r :
  sse.Reachable b ->
  exists resp b',
    snd (web.handleHelmReleases s h b r) = Some (resp, b')
    /\ sse.Reachable b'
    /\ sse.clients b' = sse.clients b
    /\ length (filter web.isWrite (fst (web.handleHelmReleases s h b r))) <= 1
    /\ (existsb web.isAcceptedWrite (fst (web.handleHelmReleases s h b r))
        = false -> b' = b)
    /\ (existsb web.isWrite (fst (web.handleHelmReleases s h b r)) = true ->
        existsb web.isAcceptedWrite (fst (web.handleHelmReleases s h b r))
        = false ->
        web.StatusCode resp = 500%Z).
Proof.
  intros Hr.
  unfold web.handleHelmReleases, web.listReleases, web.createRelease,
    web.updateRelease, web.deleteRelease.
  repeat match goal with
         | |- context [if ?c then _ else _] => destruct c
         | |- context [match ?x with inl _ => _ | inr _ => _ end] =>
             destruct x
         | |- context [match ?x with Some _ => _ | None => _ end] =>
             lazymatch x with
             | web.broadcastEvent _ _ _ _ => fail
             | _ => destruct x
             end
         end;
    cbn [fst snd];
    try (eexists _, b; cbn; repeat split; intros;
         try assumption; try lia; try discriminate; reflexivity);
    match goal with
    | |- context [web.broadcastEvent s b ?t ?o] =>
        destruct (broadcastEvent_reachable b t o Hr)
          as (b' & E & Hr' & Hcl & _);
        rewrite E; eexists _, b'; cbn; repeat split; intros;
        try assumption; try lia; try discriminate
    end.
Qed.

End RestHandlers.

(** * The diagnosis endpoint *)

Lemma streamLoop_chunks (evs : list diagnose.StreamEvent) :
  exists chunks,
    diagnose.streamLoop evs = map diagnose.ChunkFrame chunks
    /\ Forall (fun c => c <> "") chunks.
Proof.
  induction evs as [|ev rest (chunks & E & Hne)].
  - exists []. split; [reflexivity | constructor].
  - destruct ev as [[text|]|]; cbn [diagnose.streamLoop];
      try (exists chunks; now split).
    destruct (String.eqb text "") eqn:Et; cbn [negb].
    + exists chunks. now split.
    + exists (text :: chunks). cbn [map]. rewrite E. split; [reflexivity|].
      constructor; [|exact Hne]. now apply String.eqb_neq.
Qed.

(** X29. A diagnosis request that passes the checks (POST, name and ns
    given, API key set, a response writer that can flush) is answered by
    an event stream of zero or more chunk frames, none of them empty,
    followed by exactly one closing frame: the done frame or an error
    frame.  If the record cannot be fetched the stream is the error frame
    alone, and the model API is not called. *)
Theorem X29_diagnosis_stream_ends_with_one_closing_frame
  (env : diagnose.Env) (r : web.Request) :
  web.Method r = "POST" ->
  web.query_name r <> "" -> web.query_ns r <> "" ->
  diagnose.ANTHROPIC_API_KEY env <> "" ->
  diagnose.isFlusher env = true ->
  (exists chunks closing,
      snd (diagnose.handleDiagnose env r) =
        diagnose.EventStream (map diagnose.ChunkFrame chunks ++ [closing])
      /\ diagnose.isTerminal closing = true
      /\ Forall (fun c => c <> "") chunks)
  /\ (forall err,
         diagnose.Get env (web.query_ns r) (web.query_name r) = inr err ->
         diagnose.handleDiagnose env r =
         ([diagnose.CallGet (web.query_ns r) (web.query_name r)],
          diagnose.EventStream [diagnose.ErrorFrame (Error err)])).
Proof.
  intros Hm Hn Hns Hk Hf.
  apply String.eqb_neq in Hn. apply String.eqb_neq in Hns.
  apply String.eqb_neq in Hk.
  unfold diagnose.handleDiagnose.
  rewrite Hm, Hn, Hns, Hk, Hf.
  cbn [String.eqb Ascii.eqb Bool.eqb negb orb].
  destruct (diagnose.Get env (web.query_ns r) (web.query_name r))
    as [hr|gerr].
  - split; [|intros err [=]]. cbn [snd].
    unfold diagnose.streamDiagnosis.
    match goal with
    | |- context [diagnose.streamLoop ?evs] =>
        destruct (streamLoop_chunks evs) as (chunks & E & Hne); rewrite E
    end.
    match goal with
    | |- context [diagnose.Err ?st] => destruct (diagnose.Err st) as [serr|]
    end; cbn [fst snd].
    + exists chunks, (diagnose.ErrorFrame (Error serr)). now repeat split.
    + rewrite app_nil_r. exists chunks, diagnose.DoneFrame. now repeat split.
  - split; [|intros err [= <-]; reflexivity].
    exists [], (diagnose.ErrorFrame (Error gerr)). repeat split. constructor.
Qed.

(** X30. The checks of the diagnosis endpoint come in a fixed order and a
    request that fails one makes no call at all: 405 for a method other
    than POST; then 400 for a missing name or ns; then 503 when the API
    key is not set; then 500 when the response cannot be streamed.  The
    model API is only ever called with the configured, non-empty key, and
    only after the record was fetched. *)
Theorem X30_diagnosis_checks_precede_every_call
  (env : diagnose.Env) (r : web.Request) :
  (web.Method r <> "POST" ->
   diagnose.handleDiagnose env r
   = ([], diagnose.Rejected "method not allowed" 405%Z))
  /\ (web.Method r = "POST" ->
      (web.query_name r = "" \/ web.query_ns r = "") ->
      diagnose.handleDiagnose env r
      = ([], diagnose.Rejected "query params 'name' and 'ns' are required"
               400%Z))
  /\ (web.Method r = "POST" ->
      web.query_name r <> "" -> web.query_ns r <> "" ->
      diagnose.ANTHROPIC_API_KEY env = "" ->
      diagnose.handleDiagnose env r
      = ([], diagnose.Rejected "ANTHROPIC_API_KEY not set" 503%Z))
  /\ (web.Method r = "POST" ->
      web.query_name r <> "" -> web.query_ns r <> "" ->
      diagnose.ANTHROPIC_API_KEY env <> "" ->
      diagnose.isFlusher env = false ->
      diagnose.handleDiagnose env r
      = ([], diagnose.Rejected "streaming not supported" 500%Z))
  /\ (forall key prompt,
         In (diagnose.CallNewStreaming key prompt)
           (fst (diagnose.handleDiagnose env r)) ->
         key = diagnose.ANTHROPIC_API_KEY env /\ key <> ""
         /\ exists hr,
              diagnose.Get env (web.query_ns r) (web.query_name r) = inl hr).
Proof.
  unfold diagnose.handleDiagnose.
  split; [|split; [|split; [|split]]].
  - intros Hm. apply String.eqb_neq in Hm. now rewrite Hm.
  - intros Hm [Hq|Hq]; rewrite Hm, Hq;
      cbn [String.eqb Ascii.eqb Bool.eqb negb orb];
      rewrite ?orb_true_r; reflexivity.
  - intros Hm Hn Hns Hk.
    apply String.eqb_neq in Hn. apply String.eqb_neq in Hns.
    rewrite Hm, Hn, Hns, Hk. reflexivity.
  - intros Hm Hn Hns Hk Hf.
    apply String.eqb_neq in Hn. apply String.eqb_neq in Hns.
    apply String.eqb_neq in Hk.
    rewrite Hm, Hn, Hns, Hk, Hf. reflexivity.
  - intros key prompt.
    destruct (negb (String.eqb (web.Method r) "POST")); [intros []|].
    destruct (String.eqb (web.query_name r) ""
              || String.eqb (web.query_ns r) ""); [intros []|].
    destruct (String.eqb (diagnose.ANTHROPIC_API_KEY env) "") eqn:Hk;
      [intros []|].
    destruct (negb (diagnose.isFlusher env)); [intros []|].
    destruct (diagnose.Get env (web.query_ns r) (web.query_name r))
      as [hr|gerr]; cbn [fst In].
    + intros [H|[H|[H|[]]]]; try discriminate.
      injection H as <- _. apply String.eqb_neq in Hk.
      repeat split; [assumption | now exists hr].
    + intros [H|[]]. discriminate.
Qed.

(** * Instances of the further properties *)

Lemma X1_witness :
  Get (Client_ (emptyStoreReconciler mockZero)) [] (testReq "gone")
  = inr (statusNotFound "helmreleases not found")
  /\ snd (Reconcile ([] : TestValues) decodeEmptyObject
            (emptyStoreReconciler mockZero) (testReq "gone") [])
     = [EvGet (testReq "gone")
          (inr (statusNotFound "helmreleases not found"))].
Proof.
  split; [reflexivity|].
  exact (proj1 (X1_fetch_error_ends_invocation
                  ([] : TestValues) decodeEmptyObject
                  (emptyStoreReconciler mockZero) [] (testReq "gone")
                  (statusNotFound "helmreleases not found") eq_refl)).
Defined.

Lemma X2_witness :
  Get (Client_ (testReconciler (unmanagedDeletingHR "early") mockZero))
    [] (testReq "early")
  = inl (unmanagedDeletingHR "early")
  /\ metav1.IsZero (DeletionTimestamp (unmanagedDeletingHR "early")) = false
  /\ ContainsFinalizer (unmanagedDeletingHR "early") finalizerName = false
  /\ testRun (unmanagedDeletingHR "early") mockZero "early"
     = (ctrl.Result_zero, None,
        [EvGet (testReq "early") (inl (unmanagedDeletingHR "early"))]).
Proof.
  repeat (split; [reflexivity|]).
  exact (X2_deletion_without_finalizer_is_noop
           ([] : TestValues) decodeEmptyObject
           (testReconciler (unmanagedDeletingHR "early") mockZero)
           [] (testReq "early") (unmanagedDeletingHR "early")
           eq_refl eq_refl eq_refl).
Defined.

Lemma X3_witness :
  Get (Client_ (testReconciler (customisedHR "test-reinstall") mockZero))
    [] (testReq "test-reinstall")
  = inl (customisedHR "test-reinstall")
  /\ metav1.IsZero (DeletionTimestamp (customisedHR "test-reinstall")) = true
  /\ ContainsFinalizer (customisedHR "test-reinstall") finalizerName = true
  /\ existsb existsAnsweredFalse
       (snd (Reconcile ([] : TestValues) decodeExamples
               (testReconciler (customisedHR "test-reinstall") mockZero)
               (testReq "test-reinstall") [])) = true
  /\ exists ierr,
       filter isDeployCall
         (snd (Reconcile ([] : TestValues) decodeExamples
                 (testReconciler (customisedHR "test-reinstall") mockZero)
                 (testReq "test-reinstall") []))
       = [EvInstall "my-release" "nginx" "https://charts.example.com"
            "1.0.0" "default" [("replicaCount", "2")] ierr].
Proof.
  repeat (split; [reflexivity|]).
  destruct (X3_absent_release_is_installed_once
              ([] : TestValues) decodeExamples
              (testReconciler (customisedHR "test-reinstall") mockZero)
              [] (testReq "test-reinstall") (customisedHR "test-reinstall")
              eq_refl eq_refl eq_refl eq_refl)
    as (values & ierr & D & F & _).
  exists ierr.
  assert (Hv : values = [("replicaCount", "2")]).
  { cbn in D. injection D as <-. reflexivity. }
  rewrite <- Hv. exact F.
Defined.

Lemma X4_witness :
  existsb (fun e => negb (helmCallSucceeded e))
    (snd (testRun (managedHR "test-install-err") failingInstall
            "test-install-err")) = true
  /\ exists err,
       fst (testRun (managedHR "test-install-err") failingInstall
              "test-install-err")
       = ({| ctrl.Requeue := false; ctrl.RequeueAfter := requeueOnFailure |},
          Some err).
Proof.
  split; [reflexivity|].
  destruct (X4_helm_failure_ends_invocation_with_failed_status
              ([] : TestValues) decodeEmptyObject
              (testReconciler (managedHR "test-install-err") failingInstall)
              [] (testReq "test-install-err") eq_refl)
    as (pre & call & err & t & obj & e & _ & _ & _ & F & _).
  exists err. exact F.
Defined.

Lemma X5_witness :
  Get (Client_ (conflictingReconciler (managedHR "test-install") mockZero))
    [] (testReq "test-install")
  = inl (managedHR "test-install")
  /\ metav1.IsZero (DeletionTimestamp (managedHR "test-install")) = true
  /\ ContainsFinalizer (managedHR "test-install") finalizerName = true
  /\ parseValues ([] : TestValues) decodeEmptyObject (managedHR "test-install")
     = ([], None)
  /\ forallb helmCallSucceeded
       (snd (Reconcile ([] : TestValues) decodeEmptyObject
               (conflictingReconciler (managedHR "test-install") mockZero)
               (testReq "test-install") [])) = true
  /\ exists pre written uerr,
       snd (Reconcile ([] : TestValues) decodeEmptyObject
              (conflictingReconciler (managedHR "test-install") mockZero)
              (testReq "test-install") [])
       = pre ++ [EvStatusUpdate written uerr]
       /\ fst (Reconcile ([] : TestValues) decodeEmptyObject
                 (conflictingReconciler (managedHR "test-install") mockZero)
                 (testReq "test-install") [])
          = (ctrl.Result_zero,
             option_map (wrapError "updating status: ") uerr).
Proof.
  repeat (split; [reflexivity|]).
  exact (X5_only_the_final_status_write_can_fail_a_deployment
           ([] : TestValues) decodeEmptyObject
           (conflictingReconciler (managedHR "test-install") mockZero)
           [] (testReq "test-install") (managedHR "test-install") []
           eq_refl eq_refl eq_refl eq_refl eq_refl).
Defined.

Lemma X8_witness :
  Get (Client_ (testReconciler (editedHR "test-upgrade") existingRelease))
    [] (testReq "test-upgrade")
  = inl (editedHR "test-upgrade")
  /\ Forall (fun o => Spec o = Spec (editedHR "test-upgrade"))
       (statusWrites (snd (testRun (editedHR "test-upgrade") existingRelease
                             "test-upgrade"))).
Proof.
  split; [reflexivity|].
  refine (Forall_impl _ _
            (proj1 (X8_writes_keep_spec_and_metadata
                      ([] : TestValues) decodeEmptyObject
                      (testReconciler (editedHR "test-upgrade") existingRelease)
                      [] (testReq "test-upgrade") (editedHR "test-upgrade")
                      eq_refl))).
  intros o [(_ & _ & _ & _ & _ & S) _]. exact S.
Defined.

Lemma X11_witness :
  Get (Client_ (liveReconciler (managedHR "test-install")))
    [] (testReq "test-install")
  = inl (managedHR "test-install")
  /\ metav1.IsZero (DeletionTimestamp (managedHR "test-install")) = true
  /\ ContainsFinalizer (managedHR "test-install") finalizerName = true
  /\ parseValues ([] : TestValues) decodeEmptyObject (managedHR "test-install")
     = ([], None)
  /\ forallb helmCallSucceeded (firstRun "test-install") = true
  (* the later invocation is served what the first one wrote *)
  /\ Get (Client_ (liveReconciler (managedHR "test-install")))
       (firstRun "test-install") (testReq "test-install")
     = inl (last (statusWrites (firstRun "test-install"))
              (managedHR "test-install"))
  (* and its existence check answers true *)
  /\ existsb existsAnsweredTrue
       (snd (Reconcile ([] : TestValues) decodeEmptyObject
               (liveReconciler (managedHR "test-install"))
               (testReq "test-install") (firstRun "test-install"))) = true
  /\ filter isDeployCall
       (snd (Reconcile ([] : TestValues) decodeEmptyObject
               (liveReconciler (managedHR "test-install"))
               (testReq "test-install") (firstRun "test-install"))) = []
  /\ Conditions
       (Status
          (last (statusWrites
                   (snd (Reconcile ([] : TestValues) decodeEmptyObject
                           (liveReconciler (managedHR "test-install"))
                           (testReq "test-install")
                           (firstRun "test-install"))))
             (last (statusWrites (firstRun "test-install"))
                (managedHR "test-install"))))
     = Conditions
         (Status (last (statusWrites (firstRun "test-install"))
                    (managedHR "test-install"))).
Proof.
  split; [reflexivity|]. split; [reflexivity|]. split; [reflexivity|].
  split; [reflexivity|]. split; [reflexivity|]. split; [reflexivity|].
  split; [reflexivity|].
  pose proof (proj2 (X11_settled_record_stays_settled
                       ([] : TestValues) decodeEmptyObject
                       (liveReconciler (managedHR "test-install"))
                       [] (testReq "test-install") (managedHR "test-install")
                       [] eq_refl eq_refl eq_refl eq_refl eq_refl)
                (firstRun "test-install") eq_refl eq_refl) as H.
  cbv zeta in H. destruct H as (Hd & Hc & _).
  split; [exact Hd | exact Hc].
Defined.

Lemma X12_witness :
  metav1.IsZero (DeletionTimestamp (makeHR "test-install")) = true
  /\ ContainsFinalizer (makeHR "test-install") finalizerName = false
  /\ Get (Client_ (testReconciler (managedHR "test-install") mockZero))
       [] (testReq "test-install")
     = inl (AddFinalizer (makeHR "test-install") finalizerName)
  /\ updateWrites
       (snd (testRun (managedHR "test-install") mockZero "test-install"))
     = [].
Proof.
  repeat (split; [reflexivity|]).
  exact (proj1 (X12_record_with_finalizer_gets_lifecycle_work
                  ([] : TestValues) decodeEmptyObject
                  (testReconciler (managedHR "test-install") mockZero)
                  [] (testReq "test-install") (makeHR "test-install")
                  eq_refl eq_refl eq_refl)).
Defined.

Lemma X13_witness :
  Get (Client_ (testReconciler (settledHR "test-upgrade") existingRelease))
    [] (testReq "test-upgrade")
  = inl (settledHR "test-upgrade")
  /\ Forall (fun o =>
               NoDup (conditionTypes
                        (Conditions (Status (settledHR "test-upgrade")))) ->
               NoDup (conditionTypes (Conditions (Status o))))
       (statusWrites (snd (testRun (settledHR "test-upgrade") existingRelease
                             "test-upgrade"))).
Proof.
  split; [reflexivity|].
  refine (Forall_impl _ _
            (X13_status_writes_only_append_ready_and_progressing
               ([] : TestValues) decodeEmptyObject
               (testReconciler (settledHR "test-upgrade") existingRelease)
               [] (testReq "test-upgrade") (settledHR "test-upgrade")
               eq_refl)).
  intros o (added & _ & _ & H). exact H.
Defined.

Lemma X16_witness :
  HelmClient (sdkReconciler (managedHR "test-sdk") emptyClusterSDK)
  = NewHelmClient emptyClusterSDK
  /\ Get (Client_ (sdkReconciler (managedHR "test-sdk") emptyClusterSDK))
       [] (testReq "test-sdk")
     = inl (managedHR "test-sdk")
  /\ metav1.IsZero (DeletionTimestamp (managedHR "test-sdk")) = true
  /\ ContainsFinalizer (managedHR "test-sdk") finalizerName = true
  /\ parseValues ([] : TestValues) decodeEmptyObject (managedHR "test-sdk")
     = ([], None)
  /\ (forall h', sdk_Init emptyClusterSDK h' "default" = None)
  /\ (forall h',
         sdk_HistoryRun emptyClusterSDK h' "default" "test-sdk"
         = Some ErrReleaseNotFound)
  /\ exists ierr,
       filter isHelmCall
         (snd (Reconcile ([] : TestValues) decodeEmptyObject
                 (sdkReconciler (managedHR "test-sdk") emptyClusterSDK)
                 (testReq "test-sdk") []))
       = [EvReleaseExists "test-sdk" "default" (false, None);
          EvInstall "test-sdk" "nginx" "https://charts.example.com" "1.0.0"
            "default" [] ierr].
Proof.
  repeat (split; [reflexivity|]).
  exact (X16_release_missing_from_the_cluster_is_installed
           ([] : TestValues) decodeEmptyObject
           (sdkReconciler (managedHR "test-sdk") emptyClusterSDK)
           string emptyClusterSDK
           [] (testReq "test-sdk") (managedHR "test-sdk") []
           eq_refl eq_refl eq_refl eq_refl eq_refl
           (fun _ => eq_refl) (fun _ => eq_refl)).
Defined.

Lemma X17_witness :
  HelmClient (testReconciler (managedHR "test-exists-err") failingExists)
  = mockHelmClient failingExists
  /\ mock.InstallCalled
       (mock.received failingExists mock.fresh
          (snd (testRun (managedHR "test-exists-err") failingExists
                  "test-exists-err"))) = false.
Proof.
  split; [reflexivity|].
  pose proof (X17_mock_flags_after_an_invocation
                ([] : TestValues) decodeEmptyObject
                (testReconciler (managedHR "test-exists-err") failingExists)
                failingExists [] (testReq "test-exists-err") eq_refl) as H.
  cbv zeta in H. destruct H as (H & _).
  apply H. discriminate.
Defined.

Lemma X18_witness :
  sse.Reachable oneSubscriber
  /\ forall payload, sse.broadcast oneSubscriber payload <> None.
Proof.
  split; [exact (sse.R_subscribe _ sse.R_new)|].
  exact (proj1 (X18_broker_never_panics_and_never_overfills oneSubscriber
                  (sse.R_subscribe _ sse.R_new))).
Defined.

Lemma X19_witness :
  sse.Reachable oneSubscriber
  /\ sse.broadcast oneSubscriber "created:web"
     = Some {| sse.allocated :=
                 [{| sse.buf := ["created:web"]; sse.closed := false |}];
               sse.clients := [0] |}
  /\ sse.clients
       {| sse.allocated :=
            [{| sse.buf := ["created:web"]; sse.closed := false |}];
          sse.clients := [0] |}
     = sse.clients oneSubscriber.
Proof.
  split; [exact (sse.R_subscribe _ sse.R_new)|].
  split; [reflexivity|].
  exact (proj1 (X19_broadcast_queues_or_drops oneSubscriber "created:web" _
                  (sse.R_subscribe _ sse.R_new) eq_refl)).
Defined.

Lemma X20_witness :
  sse.Reachable oneSubscriber
  /\ In 0 (sse.clients oneSubscriber)
  /\ exists b',
       sse.unsubscribe oneSubscriber 0 = Some b'
       /\ ~ In 0 (sse.clients b').
Proof.
  split; [exact (sse.R_subscribe _ sse.R_new)|].
  split; [left; reflexivity|].
  destruct (X20_unsubscribe_closes_and_detaches oneSubscriber 0
              (sse.R_subscribe _ sse.R_new) (or_introl eq_refl))
    as (ch & b' & _ & U & N & _).
  exists b'. split; [exact U | exact N].
Defined.

Lemma X21_witness :
  sse.Reachable oneSubscriber
  /\ In 0 (sse.clients oneSubscriber)
  /\ nth_error (sse.allocated oneSubscriber) 0 = Some sse.makeChan
  /\ (length (sse.buf sse.makeChan) + length ["created:web"; "updated:web"]
      <= sse.capacity)%nat
  /\ exists b',
       broadcastAll oneSubscriber ["created:web"; "updated:web"] = Some b'
       /\ nth_error (sse.allocated b') 0
          = Some {| sse.buf := ["created:web"; "updated:web"];
                    sse.closed := false |}.
Proof.
  assert (Hroom : (length (sse.buf sse.makeChan)
                   + length ["created:web"; "updated:web"]
                   <= sse.capacity)%nat)
    by (vm_compute; lia).
  split; [exact (sse.R_subscribe _ sse.R_new)|].
  split; [left; reflexivity|].
  split; [reflexivity|].
  split; [exact Hroom|].
  destruct (X21_payloads_arrive_in_broadcast_order
              ["created:web"; "updated:web"] oneSubscriber 0 sse.makeChan
              (sse.R_subscribe _ sse.R_new) (or_introl eq_refl) eq_refl Hroom)
    as (b' & E & _ & _ & N).
  exists b'. split; [exact E | exact N].
Defined.

Lemma X22_witness :
  sse.Reachable oneSubscriber
  /\ ~ In (snd (sse.subscribe oneSubscriber)) (sse.clients oneSubscriber).
Proof.
  split; [exact (sse.R_subscribe _ sse.R_new)|].
  pose proof (X22_subscribe_adds_a_fresh_empty_client oneSubscriber
                (sse.R_subscribe _ sse.R_new)) as H.
  cbv zeta in H. exact (proj1 H).
Defined.

Lemma X24_witness :
  web.Body postBadValues = inl uiRequestBadValues
  /\ (web.Name uiRequestBadValues <> ""
      /\ web.Namespace uiRequestBadValues <> ""
      /\ web.Chart uiRequestBadValues <> ""
      /\ web.RepoURL uiRequestBadValues <> ""
      /\ web.Version uiRequestBadValues <> ""
      /\ web.TargetNamespace uiRequestBadValues <> "")
  /\ sse.Reachable oneSubscriber
  /\ exists hr,
       Name hr = "web" /\ Namespace hr = "default"
       /\ ReleaseName (Spec hr) = "web-release"
       /\ Values (Spec hr) = Some (list_byte_of_string "replicaCount=2")
       /\ exists created,
            web.createRelease testServer [] oneSubscriber postBadValues
            = ([web.CallCreate hr (inl created)],
               Some ({| web.StatusCode := 201%Z;
                        web.ResponseBody_ :=
                          match testMarshal created with
                          | inl _ => web.JSONRelease created
                          | inr _ => web.NoBody
                          end |}, oneSubscriber))
            /\ created = hr.
Proof.
  assert (H1 : web.Name uiRequestBadValues <> "") by (cbn; discriminate).
  assert (H2 : web.Namespace uiRequestBadValues <> "") by (cbn; discriminate).
  assert (H3 : web.Chart uiRequestBadValues <> "") by (cbn; discriminate).
  assert (H4 : web.RepoURL uiRequestBadValues <> "") by (cbn; discriminate).
  assert (H5 : web.Version uiRequestBadValues <> "") by (cbn; discriminate).
  assert (H6 : web.TargetNamespace uiRequestBadValues <> "")
    by (cbn; discriminate).
  split; [reflexivity|].
  split; [exact (conj H1 (conj H2 (conj H3 (conj H4 (conj H5 H6)))))|].
  split; [exact (sse.R_subscribe _ sse.R_new)|].
  destruct (X24_create_makes_one_store_call testServer [] oneSubscriber
              postBadValues uiRequestBadValues eq_refl H1 H2 H3 H4 H5 H6
              (sse.R_subscribe _ sse.R_new))
    as (hr & (Hn & Hns & _ & _ & _ & _ & Hrel & Hval) & _
        & [(err & C & _) | (created & b' & C & E & _ & Hnot & _)]).
  - cbn in C. discriminate C.
  - exists hr.
    split; [exact Hn|]. split; [exact Hns|]. split; [exact Hrel|].
    split; [exact Hval|].
    exists created.
    assert (Hc : created = hr) by (cbn in C; now injection C as <-).
    assert (Hb : b' = oneSubscriber).
    { apply (Hnot (errorString
                     "json: error calling MarshalJSON for type *v1.JSON")).
      cbn. rewrite Hc. unfold testMarshal. rewrite Hval. reflexivity. }
    rewrite Hb in E. split; [exact E | exact Hc].
Defined.

Lemma X26_witness :
  web.query_name putEdit <> ""
  /\ web.query_ns putEdit <> ""
  /\ web.Body putEdit = inl editRequest
  /\ sse.Reachable oneSubscriber
  /\ exists modified patched b',
       web.updateRelease testServer [] oneSubscriber putEdit
       = ([web.CallGet "default" "web" (inl (settledHR "web"));
           web.CallPatch (settledHR "web") modified (inl patched)],
          Some ({| web.StatusCode := 200%Z;
                   web.ResponseBody_ :=
                     match testMarshal patched with
                     | inl _ => web.JSONRelease patched
                     | inr _ => web.NoBody
                     end |}, b'))
       /\ Chart (Spec modified) = "nginx"
       /\ Version (Spec modified) = "1.1.0"
       /\ Values (Spec modified) = Some (list_byte_of_string "{}")
       /\ Status modified = Status (settledHR "web").
Proof.
  assert (Hn : web.query_name putEdit <> "") by (cbn; discriminate).
  assert (Hns : web.query_ns putEdit <> "") by (cbn; discriminate).
  split; [exact Hn|]. split; [exact Hns|]. split; [reflexivity|].
  split; [exact (sse.R_subscribe _ sse.R_new)|].
  pose proof (X26_update_patches_what_it_fetched testServer [] oneSubscriber
                putEdit editRequest Hn Hns eq_refl
                (sse.R_subscribe _ sse.R_new)) as H.
  cbv zeta in H.
  destruct H as [(err & G & _)
                | (hr & modified & G & (_ & _ & _ & _ & _ & Hst)
                   & (Hc & _ & Hv & _ & _ & Hvals) & [(err & E) | (patched & b' & E & _)])].
  - cbn in G. discriminate G.
  - assert (Hhr : hr = settledHR "web") by (cbn in G; now injection G as <-).
    subst hr. cbn in E. discriminate E.
  - assert (Hhr : hr = settledHR "web") by (cbn in G; now injection G as <-).
    subst hr. exists modified, patched, b'.
    split; [exact E|]. split; [exact Hc|]. split; [exact Hv|].
    split; [exact Hvals | exact Hst].
Defined.

Lemma X27_witness :
  sse.Reachable oneSubscriber
  /\ exists resp b',
       snd (web.handleHelmReleases testServer [] oneSubscriber postRequest)
       = Some (resp, b')
       /\ sse.Reachable b'.
Proof.
  split; [exact (sse.R_subscribe _ sse.R_new)|].
  destruct (X27_handlers_write_at_most_once_and_never_panic testServer []
              oneSubscriber postRequest (sse.R_subscribe _ sse.R_new))
    as (resp & b' & E & Hr & _).
  exists resp, b'. split; [exact E | exact Hr].
Defined.

Lemma X28_witness :
  Get (Client_ (testReconciler uiHR mockZero)) [] (testReq "web") = inl uiHR
  /\ metav1.IsZero (DeletionTimestamp uiHR) = true
  /\ ContainsFinalizer uiHR finalizerName = true
  /\ Spec uiHR = Spec (web.newRelease uiRequest)
  /\ web.Values uiRequest = ""
  /\ exists res,
       nth_error (snd (testRun uiHR mockZero "web")) 1
       = Some (EvReleaseExists "web" "apps" res).
Proof.
  repeat (split; [reflexivity|]).
  exact (proj2 (X28_ui_record_without_values_reaches_the_existence_check
                  ([] : TestValues) decodeEmptyObject
                  (testReconciler uiHR mockZero)
                  [] (testReq "web") uiHR uiRequest
                  eq_refl eq_refl eq_refl eq_refl eq_refl)).
Defined.

Lemma X29_witness :
  web.Method diagnoseRequest = "POST"
  /\ web.query_name diagnoseRequest <> ""
  /\ web.query_ns diagnoseRequest <> ""
  /\ diagnose.ANTHROPIC_API_KEY testEnv <> ""
  /\ diagnose.isFlusher testEnv = true
  /\ exists chunks closing,
       snd (diagnose.handleDiagnose testEnv diagnoseRequest)
       = diagnose.EventStream (map diagnose.ChunkFrame chunks ++ [closing])
       /\ diagnose.isTerminal closing = true
       /\ Forall (fun c => c <> "") chunks.
Proof.
  assert (Hn : web.query_name diagnoseRequest <> "")
    by (vm_compute; discriminate).
  assert (Hns : web.query_ns diagnoseRequest <> "")
    by (vm_compute; discriminate).
  assert (Hk : diagnose.ANTHROPIC_API_KEY testEnv <> "")
    by (vm_compute; discriminate).
  split; [reflexivity|]. split; [exact Hn|]. split; [exact Hns|].
  split; [exact Hk|]. split; [reflexivity|].
  exact (proj1 (X29_diagnosis_stream_ends_with_one_closing_frame
                  testEnv diagnoseRequest eq_refl Hn Hns Hk eq_refl)).
Defined.
